(** * The real-time connection layer: WebSocket server and React client

    A shallow embedding of
    - the [WebSocketServer] class (second document of
      src/server/config/db.js, imported by the server entry point as
      [./websocket.js]),
    - the [WebSocketProvider] component of src/unnamed/part_006, and
    - the handlers of src/client/src/contexts/WebSocketContext.jsx
    together with the properties their specification states about them.

    Conventions.  Objects that JavaScript compares by identity (sockets,
    timers) are natural numbers handed out by a counter.  Timers live in an
    explicit timer table with their due time; callbacks are constructors of
    a [timer_kind] type and are run by [fire_timer].  What a [useCallback]
    closure captured at render time ([socket], [connectionStatus], the
    authentication flags) is an explicit [env] argument, distinct from the
    [useRef] cells, which are fields of the state. *)

From Stdlib Require Import ZArith QArith Qround Qminmax Qpower List String Bool Lia.
From stdpp Require Import gmap strings list fin_maps.

Local Open Scope Z_scope.

(** ** JavaScript values shared by both sides *)

Module Js.

(** Primitive values, and references to objects (compared by identity). *)
Inductive jsval :=
| JUndefined
| JNull
| JBool (b : bool)
| JNum (z : Z)
| JStr (s : string)
| JRef (r : nat).

(** [a === b] *)
Definition strict_eq (a b : jsval) : bool :=
  match a, b with
  | JUndefined, JUndefined => true
  | JNull, JNull => true
  | JBool x, JBool y => Bool.eqb x y
  | JNum x, JNum y => Z.eqb x y
  | JStr x, JStr y => String.eqb x y
  | JRef x, JRef y => Nat.eqb x y
  | _, _ => false
  end.

(** [if (v)] *)
Definition truthy (v : jsval) : bool :=
  match v with
  | JUndefined | JNull => false
  | JBool b => b
  | JNum z => negb (Z.eqb z 0)
  | JStr s => negb (String.eqb s "")
  | JRef _ => true
  end.

Definition is_primitive (v : jsval) : bool :=
  match v with JRef _ => false | _ => true end.

(** Flat objects: property list in insertion order, keys unique. *)
Definition jsobj := list (string * jsval).

Fixpoint obj_get (k : string) (o : jsobj) : jsval :=
  match o with
  | [] => JUndefined
  | (k', v) :: o' => if String.eqb k k' then v else obj_get k o'
  end.

(** [{...o, k: v}]: an existing property keeps its place and takes the new
    value, a new one goes last. *)
Fixpoint obj_set (k : string) (v : jsval) (o : jsobj) : jsobj :=
  match o with
  | [] => [(k, v)]
  | (k', v') :: o' =>
      if String.eqb k k' then (k, v) :: o' else (k', v') :: obj_set k v o'
  end.

(** [WebSocket.CONNECTING], [OPEN], [CLOSING], [CLOSED] (0, 1, 2, 3). *)
Inductive ready_state := RS_CONNECTING | RS_OPEN | RS_CLOSING | RS_CLOSED.

Definition is_open (r : ready_state) : bool :=
  match r with RS_OPEN => true | _ => false end.

Lemma obj_get_set_eq k v o : obj_get k (obj_set k v o) = v.
Proof.
  induction o as [|[k' v'] o IH]; simpl.
  - by rewrite String.eqb_refl.
  - destruct (String.eqb k k') eqn:E; simpl; rewrite ?String.eqb_refl, ?E; done.
Qed.

Lemma obj_get_set_ne k k' v o :
  k ≠ k' → obj_get k' (obj_set k v o) = obj_get k' o.
Proof.
  intros Hne. induction o as [|[k0 v0] o IH]; simpl.
  - destruct (String.eqb k' k) eqn:E; [|done].
    apply String.eqb_eq in E. congruence.
  - destruct (String.eqb k k0) eqn:E; simpl.
    + apply String.eqb_eq in E. subst k0.
      destruct (String.eqb k' k) eqn:E'; [|done].
      apply String.eqb_eq in E'. congruence.
    + destruct (String.eqb k' k0); done.
Qed.

End Js.

Import Js.

(** ** The server: class [WebSocketServer] of src/server/config/db.js *)

Module Server.

Definition MAX_MESSAGE_SIZE : Z := 1024 * 1024.
Definition PING_INTERVAL : Z := 30000.
Definition CONNECTION_TIMEOUT : Z := 45000.

(** The argument of [broadcast] and [sendToUser]: a string goes out as it
    is, anything else goes through [JSON.stringify]. *)
Inductive payload := PText (s : string) | PJson (o : jsobj).

(** Text frames the server writes, before serialisation. *)
Inductive frame :=
| FConnectionEstablished (connectionId : string) (timestamp : Z)
| FPong (timestamp : Z) (id : option jsval)
| FError (code : string) (timestamp : Z)
| FData (p : payload).

(** A [ws] socket as the server sees it.  [closeCode] is the code and reason
    the server passed to [ws.close]; [listening] tells whether the
    message/close/error/pong handlers were attached. *)
Record socket := {
  readyState : ready_state;
  sent : list frame;
  pings : nat;
  closeCode : option (Z * string);
  listening : bool
}.

(** The value stored in [this.clients]: [{ userId, connectionId, ip }].
    [obj_ref] is the identity of that object. *)
Record clientInfo := {
  obj_ref : nat;
  userId : jsval;
  connectionId : string;
  ip : string
}.

Inductive timer_kind :=
| ConnectionTimeoutK (ws : nat)   (* the [setTimeout] of lines 86-91 *)
| PingIntervalK (ws : nat).       (* the [setInterval] of lines 129-133 *)

Record timer := { due : Z; kind : timer_kind }.

Record state := {
  now : Z;
  sockets : gmap nat socket;
  wss_clients : list nat;                 (* this.wss.clients *)
  clients : gmap nat clientInfo;          (* this.clients *)
  connectionTimeouts : gmap nat nat;      (* this.connectionTimeouts *)
  pingIntervals : gmap nat nat;           (* this.pingIntervals *)
  timers : gmap nat timer;
  next_timer : nat;
  next_ws : nat;
  next_ref : nat
}.

Definition set_now (v : Z) (s : state) : state :=
  {| now := v; sockets := sockets s; wss_clients := wss_clients s; clients := clients s; connectionTimeouts := connectionTimeouts s; pingIntervals := pingIntervals s; timers := timers s; next_timer := next_timer s; next_ws := next_ws s; next_ref := next_ref s |}.
Definition set_sockets (v : gmap nat socket) (s : state) : state :=
  {| now := now s; sockets := v; wss_clients := wss_clients s; clients := clients s; connectionTimeouts := connectionTimeouts s; pingIntervals := pingIntervals s; timers := timers s; next_timer := next_timer s; next_ws := next_ws s; next_ref := next_ref s |}.
Definition set_wss_clients (v : list nat) (s : state) : state :=
  {| now := now s; sockets := sockets s; wss_clients := v; clients := clients s; connectionTimeouts := connectionTimeouts s; pingIntervals := pingIntervals s; timers := timers s; next_timer := next_timer s; next_ws := next_ws s; next_ref := next_ref s |}.
Definition set_clients (v : gmap nat clientInfo) (s : state) : state :=
  {| now := now s; sockets := sockets s; wss_clients := wss_clients s; clients := v; connectionTimeouts := connectionTimeouts s; pingIntervals := pingIntervals s; timers := timers s; next_timer := next_timer s; next_ws := next_ws s; next_ref := next_ref s |}.
Definition set_connectionTimeouts (v : gmap nat nat) (s : state) : state :=
  {| now := now s; sockets := sockets s; wss_clients := wss_clients s; clients := clients s; connectionTimeouts := v; pingIntervals := pingIntervals s; timers := timers s; next_timer := next_timer s; next_ws := next_ws s; next_ref := next_ref s |}.
Definition set_pingIntervals (v : gmap nat nat) (s : state) : state :=
  {| now := now s; sockets := sockets s; wss_clients := wss_clients s; clients := clients s; connectionTimeouts := connectionTimeouts s; pingIntervals := v; timers := timers s; next_timer := next_timer s; next_ws := next_ws s; next_ref := next_ref s |}.
Definition set_timers (v : gmap nat timer) (s : state) : state :=
  {| now := now s; sockets := sockets s; wss_clients := wss_clients s; clients := clients s; connectionTimeouts := connectionTimeouts s; pingIntervals := pingIntervals s; timers := v; next_timer := next_timer s; next_ws := next_ws s; next_ref := next_ref s |}.
Definition set_next_timer (v : nat) (s : state) : state :=
  {| now := now s; sockets := sockets s; wss_clients := wss_clients s; clients := clients s; connectionTimeouts := connectionTimeouts s; pingIntervals := pingIntervals s; timers := timers s; next_timer := v; next_ws := next_ws s; next_ref := next_ref s |}.
Definition set_next_ws (v : nat) (s : state) : state :=
  {| now := now s; sockets := sockets s; wss_clients := wss_clients s; clients := clients s; connectionTimeouts := connectionTimeouts s; pingIntervals := pingIntervals s; timers := timers s; next_timer := next_timer s; next_ws := v; next_ref := next_ref s |}.
Definition set_next_ref (v : nat) (s : state) : state :=
  {| now := now s; sockets := sockets s; wss_clients := wss_clients s; clients := clients s; connectionTimeouts := connectionTimeouts s; pingIntervals := pingIntervals s; timers := timers s; next_timer := next_timer s; next_ws := next_ws s; next_ref := v |}.

Definition init : state :=
  {| now := 0; sockets := ∅; wss_clients := []; clients := ∅;
     connectionTimeouts := ∅; pingIntervals := ∅; timers := ∅;
     next_timer := 1; next_ws := 0; next_ref := 0 |}.

(** *** Socket primitives of the [ws] library *)

Definition new_socket : socket :=
  {| readyState := RS_OPEN; sent := []; pings := 0; closeCode := None;
     listening := false |}.

(** [ws.close(code, reason)]: only an open socket sends the close frame. *)
Definition ws_close (code : Z) (reason : string) (k : socket) : socket :=
  match readyState k with
  | RS_OPEN =>
      {| readyState := RS_CLOSING; sent := sent k; pings := pings k;
         closeCode := Some (code, reason); listening := listening k |}
  | RS_CONNECTING =>
      {| readyState := RS_CLOSING; sent := sent k; pings := pings k;
         closeCode := closeCode k; listening := listening k |}
  | _ => k
  end.

Definition ws_send (f : frame) (k : socket) : socket :=
  {| readyState := readyState k; sent := sent k ++ [f]; pings := pings k;
     closeCode := closeCode k; listening := listening k |}.

Definition ws_ping (k : socket) : socket :=
  {| readyState := readyState k; sent := sent k; pings := S (pings k);
     closeCode := closeCode k; listening := listening k |}.

Definition ws_listen (k : socket) : socket :=
  {| readyState := readyState k; sent := sent k; pings := pings k;
     closeCode := closeCode k; listening := true |}.

Definition ws_closed (k : socket) : socket :=
  {| readyState := RS_CLOSED; sent := sent k; pings := pings k;
     closeCode := closeCode k; listening := listening k |}.

Definition upd_socket (ws : nat) (f : socket → socket) (s : state) : state :=
  set_sockets (alter f ws (sockets s)) s.

(** [ws.readyState === WebSocket.OPEN] *)
Definition ws_open (s : state) (ws : nat) : bool :=
  match sockets s !! ws with
  | Some k => is_open (readyState k)
  | None => false
  end.

Definition ws_listening (s : state) (ws : nat) : bool :=
  match sockets s !! ws with
  | Some k => listening k
  | None => false
  end.

(** *** Timers *)

Definition setTimer (k : timer_kind) (delay : Z) (s : state) : nat * state :=
  let tid := next_timer s in
  (tid, set_next_timer (S tid)
          (set_timers (<[tid := {| due := now s + delay; kind := k |}]> (timers s)) s)).

Definition clearTimer (tid : nat) (s : state) : state :=
  set_timers (delete tid (timers s)) s.

(** *** Methods *)

(** [sendMessage(ws, message)]: the boolean is [false] when the promise is
    rejected with NOT_CONNECTED. *)
Definition sendMessage (ws : nat) (f : frame) (s : state) : state * bool :=
  if ws_open s ws then (upd_socket ws (ws_send f) s, true) else (s, false).

(** [sendError]: a failed send is caught and only logged. *)
Definition sendError (ws : nat) (code : string) (s : state) : state :=
  fst (sendMessage ws (FError code (now s)) s).

(** What [JSON.parse(message)] gives. *)
Inductive parsed :=
| ParseFailure
| NotAnObject
| Object (type id : jsval).

Record inbound := { in_length : Z; in_data : parsed }.

Definition handlePing (ws : nat) (id : jsval) (s : state) : state * bool :=
  sendMessage ws (FPong (now s) (if truthy id then Some id else None)) s.

Definition handleMessage (ws : nat) (m : inbound) (s : state) : state :=
  match clients s !! ws with
  | None => s
  | Some _ =>
      match in_data m with
      | ParseFailure => sendError ws "MESSAGE_PROCESSING_ERROR" s
      | NotAnObject => sendError ws "INVALID_MESSAGE" s
      | Object type id =>
          if strict_eq type (JStr "PING") then
            let '(s', ok) := handlePing ws id s in
            if ok then s' else sendError ws "NOT_CONNECTED" s'
          else sendError ws "UNKNOWN_MESSAGE_TYPE" s
      end
  end.

(** [cleanupClient(ws)] *)
Definition cleanupClient (ws : nat) (s : state) : state :=
  let s1 := match pingIntervals s !! ws with
            | Some t => set_pingIntervals (delete ws (pingIntervals s)) (clearTimer t s)
            | None => s
            end in
  let s2 := match connectionTimeouts s1 !! ws with
            | Some t => set_connectionTimeouts (delete ws (connectionTimeouts s1)) (clearTimer t s1)
            | None => s1
            end in
  set_clients (delete ws (clients s2)) s2.

(** [this.clients.get(client)]: the stored object, or [undefined]. *)
Definition clients_get (s : state) (ws : nat) : jsval :=
  match clients s !! ws with
  | Some c => JRef (obj_ref c)
  | None => JUndefined
  end.

(** [this.clients.get(client)?.userId] *)
Definition clients_get_userId (s : state) (ws : nat) : jsval :=
  match clients s !! ws with
  | Some c => userId c
  | None => JUndefined
  end.

(** [array.includes(v)] *)
Definition includes (l : list jsval) (v : jsval) : bool :=
  existsb (fun x => strict_eq x v) l.

(** [broadcast(message, { exclude, includeOnly })] *)
Definition broadcast (p : payload) (exclude : list jsval)
    (includeOnly : option (list jsval)) (s : state) : state :=
  let all := wss_clients s in
  let eligible :=
    match includeOnly with
    | Some inc => List.filter (fun ws => includes inc (clients_get_userId s ws)) all
    | None => all
    end in
  fold_left
    (fun s ws =>
       if ws_open s ws && negb (includes exclude (clients_get_userId s ws))
       then upd_socket ws (ws_send (FData p)) s else s)
    eligible s.

(** [sendToUser(userId, message)] *)
Definition sendToUser (uid : jsval) (p : payload) (s : state) : state :=
  fold_left
    (fun s ws =>
       if ws_open s ws && strict_eq (clients_get s ws) uid
       then upd_socket ws (ws_send (FData p)) s else s)
    (wss_clients s) s.

(** [cleanup()], run on SIGTERM and SIGINT. *)
Definition cleanup (s : state) : state :=
  let s1 := fold_left (fun s ws => upd_socket ws (ws_close 1001 "Server shutting down") s)
                      (wss_clients s) s in
  let s2 := fold_left (fun s tid => clearTimer tid s) (map_to_list (pingIntervals s1)).*2 s1 in
  let s3 := fold_left (fun s tid => clearTimer tid s) (map_to_list (connectionTimeouts s2)).*2 s2 in
  set_clients ∅ (set_connectionTimeouts ∅ (set_pingIntervals ∅ s3)).

(** *** The connection handler *)

(** The upgrade request: whether [new URL(req.url, ...)] succeeds, what
    [url.searchParams.get('token')] returns ([None] for [null]), and the
    remote address. *)
Record request := {
  req_url_ok : bool;
  req_token : option string;
  req_ip : string
}.

Section Connection.

(** [jwt.verify(token, process.env.JWT_SECRET)], an external collaborator:
    [None] when it throws (bad signature, expired), otherwise the [id] claim
    of the decoded payload. *)
Variable jwt_verify : string → option jsval.

(** The token the first [try] block leaves in [token], or [None] when the
    block throws: malformed URL, no [token] parameter, or an empty one. *)
Definition extract_token (req : request) : option string :=
  if req_url_ok req then
    match req_token req with
    | Some t => if String.eqb t "" then None else Some t
    | None => None
    end
  else None.

(** [this.wss.on('connection', (ws, req) => ...)]; [uuid] is what [uuidv4()]
    returns for the connection id. *)
Definition on_connection (req : request) (uuid : string) (s : state) : state :=
  let ws := next_ws s in
  let s := set_next_ws (S ws)
             (set_wss_clients (wss_clients s ++ [ws])
                (set_sockets (<[ws := new_socket]> (sockets s)) s)) in
  let '(tmo, s) := setTimer (ConnectionTimeoutK ws) CONNECTION_TIMEOUT s in
  let s := set_connectionTimeouts (<[ws := tmo]> (connectionTimeouts s)) s in
  match extract_token req with
  | None => upd_socket ws (ws_close 4002 "Invalid connection URL") s
  | Some token =>
      match jwt_verify token with
      | None => upd_socket ws (ws_close 4003 "Invalid authentication token") s
      | Some uid =>
          let s := clearTimer tmo s in
          let s := set_connectionTimeouts (delete ws (connectionTimeouts s)) s in
          let info := {| obj_ref := next_ref s; userId := uid;
                         connectionId := uuid; ip := req_ip req |} in
          let s := set_next_ref (S (next_ref s))
                     (set_clients (<[ws := info]> (clients s)) s) in
          let '(itv, s) := setTimer (PingIntervalK ws) PING_INTERVAL s in
          let s := set_pingIntervals (<[ws := itv]> (pingIntervals s)) s in
          let s := fst (sendMessage ws (FConnectionEstablished uuid (now s)) s) in
          upd_socket ws ws_listen s
      end
  end.

(** *** Events *)

(** [ws.on('message', ...)] *)
Definition on_message (ws : nat) (m : inbound) (s : state) : state :=
  if ws_listening s ws then
    if MAX_MESSAGE_SIZE <? in_length m
    then sendError ws "MESSAGE_TOO_LARGE" s
    else handleMessage ws m s
  else s.

(** The socket reaches CLOSED: the library drops it from [wss.clients] and
    emits ['close']. *)
Definition on_close (ws : nat) (s : state) : state :=
  let heard := ws_listening s ws in
  let s := set_wss_clients (List.filter (fun w => negb (Nat.eqb w ws)) (wss_clients s))
             (upd_socket ws ws_closed s) in
  if heard then cleanupClient ws s else s.

(** [ws.on('error', ...)] *)
Definition on_error (ws : nat) (s : state) : state :=
  if ws_listening s ws then cleanupClient ws s else s.

(** [ws.on('pong', ...)]: logs, nothing else. *)
Definition on_pong (ws : nat) (s : state) : state := s.

(** The callback of timer [tid] runs; the clock is at least its due time. *)
Definition fire_timer (tid : nat) (s : state) : state :=
  match timers s !! tid with
  | None => s
  | Some t =>
      let s := set_now (Z.max (now s) (due t)) s in
      match kind t with
      | ConnectionTimeoutK ws =>
          let s := clearTimer tid s in
          if ws_open s ws
          then upd_socket ws (ws_close 4008 "Connection timeout") s
          else s
      | PingIntervalK ws =>
          let s := set_timers (<[tid := {| due := due t + PING_INTERVAL; kind := kind t |}]> (timers s)) s in
          if ws_open s ws then upd_socket ws ws_ping s else s
      end
  end.

Inductive event :=
| EConnection (req : request) (uuid : string)
| EMessage (ws : nat) (m : inbound)
| EPong (ws : nat)
| EClose (ws : nat)
| EError (ws : nat)
| ETimer (tid : nat)
| EBroadcast (p : payload) (exclude : list jsval) (includeOnly : option (list jsval))
| ESendToUser (uid : jsval) (p : payload)
| ECleanup.

Definition step (e : event) (s : state) : state :=
  match e with
  | EConnection req uuid => on_connection req uuid s
  | EMessage ws m => on_message ws m s
  | EPong ws => on_pong ws s
  | EClose ws => on_close ws s
  | EError ws => on_error ws s
  | ETimer tid => fire_timer tid s
  | EBroadcast p ex inc => broadcast p ex inc s
  | ESendToUser uid p => sendToUser uid p s
  | ECleanup => cleanup s
  end.

Inductive reachable : state → Prop :=
| reach_init : reachable init
| reach_step e s : reachable s → reachable (step e s).

(** *** Letting time pass with no inbound event *)

Definition earlier (a b : nat * timer) : bool :=
  (due a.2 <? due b.2) || ((due a.2 =? due b.2) && (a.1 <? b.1)%nat).

Definition next_due (s : state) : option (nat * timer) :=
  fold_right
    (fun a acc => match acc with
                  | Some b => if earlier a b then Some a else Some b
                  | None => Some a
                  end)
    None (map_to_list (timers s)).

(** Run every timer that falls due up to [target], earliest first, then
    set the clock to [target]. *)
Fixpoint elapse (fuel : nat) (target : Z) (s : state) : state :=
  match fuel with
  | O => s
  | S fuel =>
      match next_due s with
      | Some (tid, t) =>
          if due t <=? target then elapse fuel target (fire_timer tid s)
          else set_now (Z.max (now s) target) s
      | None => set_now (Z.max (now s) target) s
      end
  end.

End Connection.

(** *** Invariants of the server *)

Section ServerInvariants.

Variable jwt_verify : string → option jsval.

(** A socket the server asked to close is no longer open, and the code it
    asked with is never 4008. *)
Definition sock_ok (k : socket) : Prop :=
  (is_Some (closeCode k) → readyState k ≠ RS_OPEN) ∧
  (∀ r, closeCode k ≠ Some (4008, r)).

(** Socket updates that keep [sock_ok] and never reopen a socket. *)
Definition benign (f : socket → socket) : Prop :=
  ∀ k, (sock_ok k → sock_ok (f k)) ∧
       (readyState k ≠ RS_OPEN → readyState (f k) ≠ RS_OPEN).

Record inv (s : state) : Prop := {
  inv_sockets : ∀ ws k, sockets s !! ws = Some k → sock_ok k;
  inv_fresh_ws : ∀ ws, (next_ws s ≤ ws)%nat →
      sockets s !! ws = None ∧ clients s !! ws = None;
  inv_fresh_timer : ∀ tid, (next_timer s ≤ tid)%nat → timers s !! tid = None;
  inv_timeout : ∀ tid t ws, timers s !! tid = Some t →
      kind t = ConnectionTimeoutK ws →
      ws_open s ws = false ∧ clients s !! ws = None ∧ (ws < next_ws s)%nat;
  inv_registered : ∀ ws, is_Some (clients s !! ws) →
      connectionTimeouts s !! ws = None
}.

Lemma benign_send f : benign (ws_send f).
Proof. intros k; split; [intros [H1 H2]; split|]; simpl; auto. Qed.

Lemma benign_ping : benign ws_ping.
Proof. intros k; split; [intros [H1 H2]; split|]; simpl; auto. Qed.

Lemma benign_listen : benign ws_listen.
Proof. intros k; split; [intros [H1 H2]; split|]; simpl; auto. Qed.

Lemma benign_closed : benign ws_closed.
Proof. intros k; split; [intros [H1 H2]; split|]; simpl; auto. Qed.

Lemma benign_close code reason : code ≠ 4008 → benign (ws_close code reason).
Proof.
  intros Hc k; unfold ws_close; split.
  - intros [H1 H2]; destruct (readyState k) eqn:E; split; simpl;
      rewrite ?E; auto; try congruence.
  - destruct (readyState k) eqn:E; simpl; rewrite ?E; congruence.
Qed.

Lemma ws_open_upd ws f s ws' :
  benign f → ws_open s ws' = false → ws_open (upd_socket ws f s) ws' = false.
Proof.
  intros Hf. unfold ws_open, upd_socket; simpl.
  rewrite lookup_alter. case_decide as E; [subst ws'|done].
  destruct (sockets s !! ws) as [k|]; simpl; [|done].
  intros Hk. destruct (Hf k) as [_ Hn].
  destruct (readyState (f k)) eqn:E; try done.
  exfalso. apply Hn; [|done]. by destruct (readyState k).
Qed.

Lemma inv_upd_socket ws f s : benign f → inv s → inv (upd_socket ws f s).
Proof.
  intros Hf [H1 H2 H3 H4 H5]. split; simpl.
  - intros ws' k. rewrite lookup_alter. case_decide as E; [subst ws'|by apply H1].
    destruct (sockets s !! ws) as [k0|] eqn:Ek; simpl; [|done].
    intros [= <-]. apply Hf. by eapply H1.
  - intros ws' Hle. destruct (H2 ws' Hle) as [Ha Hb]. split; [|done].
    rewrite lookup_alter. case_decide; [subst; by rewrite Ha|done].
  - done.
  - intros tid t ws' Ht Hk. destruct (H4 tid t ws' Ht Hk) as (Ha & Hb & Hc).
    split_and!; [|done..]. by apply ws_open_upd.
  - done.
Qed.

Lemma inv_clearTimer tid s : inv s → inv (clearTimer tid s).
Proof.
  intros [H1 H2 H3 H4 H5]. split; simpl; try done.
  - intros tid' Hle. rewrite lookup_delete. case_decide; [done|by apply H3].
  - intros tid' t ws. rewrite lookup_delete. case_decide; [done|]. by apply H4.
Qed.

Lemma inv_set_now t s : inv s → inv (set_now t s).
Proof. intros [H1 H2 H3 H4 H5]. by split. Qed.

Lemma inv_fold_upd f (l : list nat) s :
  benign f → inv s → inv (fold_left (fun s ws => upd_socket ws f s) l s).
Proof.
  intros Hf. revert s. induction l as [|ws l IH]; intros s Hs; simpl; [done|].
  apply IH. by apply inv_upd_socket.
Qed.

Lemma inv_fold_clear (l : list nat) s :
  inv s → inv (fold_left (fun s tid => clearTimer tid s) l s).
Proof.
  revert s. induction l as [|tid l IH]; intros s Hs; simpl; [done|].
  apply IH. by apply inv_clearTimer.
Qed.

Lemma inv_sendMessage ws f s : inv s → inv (sendMessage ws f s).1.
Proof.
  intros Hs. unfold sendMessage. destruct (ws_open s ws); simpl; [|done].
  apply inv_upd_socket; [apply benign_send|done].
Qed.

Lemma inv_sendError ws code s : inv s → inv (sendError ws code s).
Proof. apply inv_sendMessage. Qed.

Lemma inv_cleanupClient ws s : inv s → inv (cleanupClient ws s).
Proof.
  intros Hs. unfold cleanupClient.
  set (s1 := match pingIntervals s !! ws with Some _ => _ | None => _ end).
  assert (inv s1) as Hs1.
  { subst s1. destruct (pingIntervals s !! ws); [|done].
    destruct (inv_clearTimer n s Hs) as [H1 H2 H3 H4 H5]. by split. }
  set (s2 := match connectionTimeouts s1 !! ws with Some _ => _ | None => _ end).
  assert (inv s2) as Hs2.
  { subst s2. destruct (connectionTimeouts s1 !! ws); [|done].
    destruct (inv_clearTimer n s1 Hs1) as [H1 H2 H3 H4 H5]. split; simpl; try done.
    intros ws' Hw. rewrite lookup_delete. case_decide; [done|]. by apply H5. }
  clearbody s2. clear s1 Hs1. destruct Hs2 as [H1 H2 H3 H4 H5]. split; simpl; try done.
  - intros ws' Hle. destruct (H2 ws' Hle) as [Ha Hb]. split; [done|].
    rewrite lookup_delete. by case_decide.
  - intros tid t ws' Ht Hk. destruct (H4 tid t ws' Ht Hk) as (Ha & Hb & Hc).
    split_and!; try done. rewrite lookup_delete. by case_decide.
  - intros ws'. rewrite lookup_delete. case_decide; [by intros [? ?]|]. apply H5.
Qed.

Lemma inv_handleMessage ws m s : inv s → inv (handleMessage ws m s).
Proof.
  intros Hs. unfold handleMessage. destruct (clients s !! ws); [|done].
  destruct (in_data m) as [| |type id]; try by apply inv_sendError.
  destruct (strict_eq type (JStr "PING")); [|by apply inv_sendError].
  unfold handlePing.
  pose proof (inv_sendMessage ws (FPong (now s) (if truthy id then Some id else None)) s Hs) as H.
  destruct (sendMessage ws _ s) as [s' ok]; simpl in H.
  destruct ok; [done|by apply inv_sendError].
Qed.

Lemma inv_on_message ws m s : inv s → inv (on_message ws m s).
Proof.
  intros Hs. unfold on_message. destruct (ws_listening s ws); [|done].
  destruct (MAX_MESSAGE_SIZE <? in_length m);
    [by apply inv_sendError|by apply inv_handleMessage].
Qed.

Lemma inv_on_close ws s : inv s → inv (on_close ws s).
Proof.
  intros Hs. unfold on_close.
  assert (inv (set_wss_clients
                 (List.filter (fun w => negb (Nat.eqb w ws)) (wss_clients s))
                 (upd_socket ws ws_closed s))) as H.
  { destruct (inv_upd_socket ws ws_closed s benign_closed Hs) as [H1 H2 H3 H4 H5].
    by split. }
  destruct (ws_listening s ws); [by apply inv_cleanupClient|done].
Qed.

Lemma inv_on_error ws s : inv s → inv (on_error ws s).
Proof.
  intros Hs. unfold on_error.
  destruct (ws_listening s ws); [by apply inv_cleanupClient|done].
Qed.

Lemma inv_broadcast p ex inc s : inv s → inv (broadcast p ex inc s).
Proof.
  unfold broadcast.
  generalize (match inc with
              | Some i => List.filter (fun ws => includes i (clients_get_userId s ws)) (wss_clients s)
              | None => wss_clients s
              end).
  intros l. revert s. induction l as [|ws l IH]; intros s Hs; simpl; [done|].
  apply IH. destruct (_ && _); [|done].
  apply inv_upd_socket; [apply benign_send|done].
Qed.

Lemma inv_sendToUser uid p s : inv s → inv (sendToUser uid p s).
Proof.
  unfold sendToUser. generalize (wss_clients s).
  intros l. revert s. induction l as [|ws l IH]; intros s Hs; simpl; [done|].
  apply IH. destruct (_ && _); [|done].
  apply inv_upd_socket; [apply benign_send|done].
Qed.

Lemma inv_cleanup s : inv s → inv (cleanup s).
Proof.
  intros Hs. unfold cleanup.
  set (s1 := fold_left _ (wss_clients s) s).
  assert (inv s1) as Hs1 by (apply inv_fold_upd; [by apply benign_close|done]).
  clearbody s1.
  set (s2 := fold_left _ (map_to_list (pingIntervals s1)).*2 s1).
  assert (inv s2) as Hs2 by by apply inv_fold_clear.
  clearbody s2.
  set (s3 := fold_left _ (map_to_list (connectionTimeouts s2)).*2 s2).
  assert (inv s3) as [H1 H2 H3 H4 H5] by by apply inv_fold_clear.
  clearbody s3.
  split; simpl; try done.
  - intros ws Hle. by destruct (H2 ws Hle).
  - intros tid t ws Ht Hk. by destruct (H4 tid t ws Ht Hk) as (? & ? & ?).
Qed.

Lemma inv_fire_timer tid s : inv s → inv (fire_timer tid s).
Proof.
  intros Hs. unfold fire_timer. destruct (timers s !! tid) as [t|] eqn:Ht; [|done].
  destruct (kind t) as [ws|ws] eqn:Hk.
  - destruct (inv_timeout s Hs tid t ws Ht Hk) as (Hopen & _ & _).
    assert (ws_open (clearTimer tid (set_now (Z.max (now s) (due t)) s)) ws
              = ws_open s ws) as -> by done.
    rewrite Hopen. by apply inv_clearTimer, inv_set_now.
  - set (s1 := set_timers _ _).
    assert (inv s1) as Hs1.
    { destruct Hs as [H1 H2 H3 H4 H5]. split; simpl; try done.
      - intros tid' Hle. rewrite lookup_insert. case_decide as E; [subst tid'|by apply H3].
        specialize (H3 tid Hle). congruence.
      - intros tid' t' ws'. rewrite lookup_insert.
        case_decide as E; [intros [= <-]; simpl; congruence|]. by apply H4. }
    destruct (ws_open s1 ws); [|done].
    apply inv_upd_socket; [apply benign_ping|done].
Qed.

Lemma inv_on_connection req uuid s : inv s → inv (on_connection jwt_verify req uuid s).
Proof.
  intros [H1 H2 H3 H4 H5]. unfold on_connection.
  destruct (H2 (next_ws s)) as [Hsk Hcl]; [done|].
  pose proof (H3 (next_timer s)) as Htm. specialize (Htm ltac:(done)).
  destruct s as [nw sk wc cl ct pi tm nt nws nr]; simpl in *.
  unfold setTimer, clearTimer, upd_socket, sendMessage, ws_open in *; simpl in *.
  rewrite lookup_insert_eq. simpl.
  assert (∀ code reason, code ≠ 4008 →
    inv {| now := nw;
           sockets := alter (ws_close code reason) nws (<[nws:=new_socket]> sk);
           wss_clients := wc ++ [nws]; clients := cl;
           connectionTimeouts := <[nws:=nt]> ct; pingIntervals := pi;
           timers := <[nt:={| due := nw + CONNECTION_TIMEOUT;
                              kind := ConnectionTimeoutK nws |}]> tm;
           next_timer := S nt; next_ws := S nws; next_ref := nr |}) as Hreject.
  { intros code reason Hc. split; simpl.
    - intros ws k. rewrite lookup_alter. case_decide as E.
      + subst ws. rewrite lookup_insert_eq. simpl. intros [= <-].
        split; simpl; [done|]. intros r [=]. done.
      + rewrite lookup_insert_ne by done. apply H1.
    - intros ws Hle. destruct (H2 ws) as [Ha Hb]; [lia|]. split; [|done].
      rewrite lookup_alter. case_decide; [lia|].
      rewrite lookup_insert_ne by lia. done.
    - intros tid Hle. rewrite lookup_insert_ne by lia. apply H3. lia.
    - intros tid t ws. rewrite lookup_insert. case_decide as E.
      + intros [= <-]. simpl. intros [= <-]. split_and!; [|done|lia].
        unfold ws_open. simpl. rewrite lookup_alter_eq, lookup_insert_eq. done.
      + intros Ht Hk. destruct (H4 tid t ws Ht Hk) as (Ha & Hb & Hc').
        split_and!; [|done|lia].
        unfold ws_open in *. simpl. rewrite lookup_alter_ne by lia.
        rewrite lookup_insert_ne by lia. done.
    - intros ws Hw. rewrite lookup_insert_ne; [by apply H5|].
      intros <-. rewrite Hcl in Hw. by destruct Hw. }
  destruct (extract_token req) as [token|]; [|by apply Hreject].
  destruct (jwt_verify token) as [uid|]; [|by apply Hreject].
  split; simpl.
  - intros ws k. rewrite lookup_alter. case_decide as E.
    + subst ws. rewrite lookup_alter_eq, lookup_insert_eq. simpl. intros [= <-].
      split; simpl; [by intros [? ?]|done].
    + rewrite lookup_alter_ne by done. rewrite lookup_insert_ne by done. apply H1.
  - intros ws Hle. destruct (H2 ws) as [Ha Hb]; [lia|].
    rewrite !lookup_alter_ne by lia. rewrite !lookup_insert_ne by lia. done.
  - intros tid Hle. rewrite lookup_insert_ne by lia.
    rewrite lookup_delete_ne by lia. rewrite lookup_insert_ne by lia.
    apply H3. lia.
  - intros tid t ws. rewrite lookup_insert. case_decide as E.
    { intros [= <-]. simpl. done. }
    rewrite lookup_delete. case_decide as E'; [done|].
    rewrite lookup_insert_ne by done. intros Ht Hk.
    destruct (H4 tid t ws Ht Hk) as (Ha & Hb & Hc).
    split_and!; [| |lia].
    + unfold ws_open in *. simpl. rewrite !lookup_alter_ne by lia.
      rewrite lookup_insert_ne by lia. done.
    + rewrite lookup_insert_ne by lia. done.
  - intros ws. rewrite lookup_insert. case_decide as E.
    + subst ws. intros _. by rewrite lookup_delete_eq.
    + intros Hw. rewrite lookup_delete_ne by done.
      rewrite lookup_insert_ne by done. by apply H5.
Qed.

Lemma inv_init : inv init.
Proof. by split. Qed.

Lemma inv_step e s : inv s → inv (step jwt_verify e s).
Proof.
  intros Hs. destruct e; simpl.
  - by apply inv_on_connection.
  - by apply inv_on_message.
  - done.
  - by apply inv_on_close.
  - by apply inv_on_error.
  - by apply inv_fire_timer.
  - by apply inv_broadcast.
  - by apply inv_sendToUser.
  - by apply inv_cleanup.
Qed.

Lemma reachable_inv s : reachable jwt_verify s → inv s.
Proof. induction 1; [apply inv_init|by apply inv_step]. Qed.

(** *** Silence: what timers alone do to a channel *)

Lemma fire_timer_clients tid s : clients (fire_timer tid s) = clients s.
Proof.
  unfold fire_timer. destruct (timers s !! tid) as [t|]; [|done].
  destruct (kind t); simpl.
  - by destruct (ws_open _ _).
  - by destruct (ws_open _ _).
Qed.

(** Same line state: ready state, close request and frames written. *)
Definition same_line (k k' : socket) : Prop :=
  readyState k' = readyState k ∧ closeCode k' = closeCode k ∧ sent k' = sent k.

Lemma fire_timer_sockets tid s ws k :
  inv s → sockets s !! ws = Some k →
  ∃ k', sockets (fire_timer tid s) !! ws = Some k' ∧ same_line k k'.
Proof.
  intros Hs Hk. unfold fire_timer.
  destruct (timers s !! tid) as [t|] eqn:Ht; [|by exists k].
  destruct (kind t) as [w|w] eqn:Hkind.
  - destruct (inv_timeout s Hs tid t w Ht Hkind) as (Hopen & _ & _).
    assert (ws_open (clearTimer tid (set_now (Z.max (now s) (due t)) s)) w
              = ws_open s w) as -> by done.
    rewrite Hopen. by exists k.
  - match goal with |- context [ws_open ?st w] => destruct (ws_open st w) end;
      simpl; [|by exists k].
    rewrite lookup_alter. case_decide as E; [subst w|by exists k].
    rewrite Hk. simpl. by eexists.
Qed.

Lemma elapse_inv fuel target s : inv s → inv (elapse fuel target s).
Proof.
  revert s. induction fuel as [|fuel IH]; intros s Hs; simpl; [done|].
  destruct (next_due s) as [[tid t]|]; [|by apply inv_set_now].
  destruct (due t <=? target); [|by apply inv_set_now].
  by apply IH, inv_fire_timer.
Qed.

Lemma elapse_clients fuel target s : clients (elapse fuel target s) = clients s.
Proof.
  revert s. induction fuel as [|fuel IH]; intros s; simpl; [done|].
  destruct (next_due s) as [[tid t]|]; [|done].
  destruct (due t <=? target); [|done].
  by rewrite IH, fire_timer_clients.
Qed.

Lemma elapse_sockets fuel target s ws k :
  inv s → sockets s !! ws = Some k →
  ∃ k', sockets (elapse fuel target s) !! ws = Some k' ∧ same_line k k'.
Proof.
  revert s k. induction fuel as [|fuel IH]; intros s k Hs Hk; simpl; [by exists k|].
  destruct (next_due s) as [[tid t]|]; [|by exists k].
  destruct (due t <=? target); [|by exists k].
  destruct (fire_timer_sockets tid s ws k Hs Hk) as (k1 & Hk1 & (Ha & Hb & Hc)).
  destruct (IH _ k1 (inv_fire_timer tid s Hs) Hk1) as (k2 & Hk2 & (Ha' & Hb' & Hc')).
  exists k2. split; [done|]. unfold same_line. split_and!; congruence.
Qed.

End ServerInvariants.

(** *** A worked session *)

Definition demo_verify (token : string) : option jsval :=
  if String.eqb token "valid" then Some (JStr "alice") else None.

Definition demo_request (token : string) : request :=
  {| req_url_ok := true; req_token := Some token; req_ip := "203.0.113.7" |}.

(** One client connects with a good token at time 0. *)
Definition demo_open : state :=
  on_connection demo_verify (demo_request "valid") "conn-1" init.

(** *** The claims about the server *)

(** C1, as the code has it.  The 45 s connection timeout armed at transport
    connect is cancelled as soon as the token is verified, before the channel
    is registered.  So in every reachable state a registered channel has no
    entry in [connectionTimeouts] and no armed connection timeout, no socket
    was ever asked to close with code 4008, and letting any amount of time
    pass with timers only (no message, no pong, no close) leaves the channel
    in the Broadcast Registry with its ready state, close request and
    written frames as they were. *)
Theorem C1_no_inactivity_timeout_after_authentication
    (jwt_verify : string → option jsval) (s : state) (ws : nat)
    (info : clientInfo) (fuel : nat) (target : Z) :
  reachable jwt_verify s →
  clients s !! ws = Some info →
  connectionTimeouts s !! ws = None ∧
  (∀ tid t, timers s !! tid = Some t → kind t ≠ ConnectionTimeoutK ws) ∧
  (∀ ws' k r, sockets s !! ws' = Some k → closeCode k ≠ Some (4008, r)) ∧
  clients (elapse fuel target s) !! ws = Some info ∧
  (∀ k, sockets s !! ws = Some k →
     ∃ k', sockets (elapse fuel target s) !! ws = Some k' ∧ same_line k k').
Proof.
  intros Hr Hc. pose proof (reachable_inv jwt_verify s Hr) as Hs.
  split_and!.
  - apply (inv_registered s Hs). by eexists.
  - intros tid t Ht Hk.
    destruct (inv_timeout s Hs tid t ws Ht Hk) as (_ & Hn & _). congruence.
  - intros ws' k r Hk. by apply (inv_sockets s Hs ws' k Hk).
  - by rewrite elapse_clients.
  - intros k Hk. by apply elapse_sockets.
Qed.

Lemma C1_no_inactivity_timeout_witness :
  reachable demo_verify demo_open ∧
  clients (elapse 10 100000 demo_open) !! 0%nat
    = Some {| obj_ref := 0; userId := JStr "alice"; connectionId := "conn-1";
              ip := "203.0.113.7" |}.
Proof.
  split; [apply (reach_step demo_verify (EConnection _ _)), reach_init|].
  refine (proj1 (proj2 (proj2 (proj2
    (C1_no_inactivity_timeout_after_authentication demo_verify demo_open 0
       {| obj_ref := 0; userId := JStr "alice"; connectionId := "conn-1";
          ip := "203.0.113.7" |} 10 100000 _ _))))).
  - apply (reach_step demo_verify (EConnection _ _)), reach_init.
  - vm_compute. reflexivity.
Defined.

(** C1 as stated fails: after an authenticated connect at time 0 and 45001 ms
    with no inbound traffic at all, the channel is open, was not asked to
    close (so not with 4008), and is still in the Broadcast Registry; the
    only thing that happened is one protocol ping at 30000 ms. *)
Lemma C1_counterexample :
  now (elapse 10 (CONNECTION_TIMEOUT + 1) demo_open) = 45001 ∧
  sockets (elapse 10 (CONNECTION_TIMEOUT + 1) demo_open) !! 0%nat
    = Some {| readyState := RS_OPEN;
              sent := [FConnectionEstablished "conn-1" 0];
              pings := 1; closeCode := None; listening := true |} ∧
  clients (elapse 10 (CONNECTION_TIMEOUT + 1) demo_open) !! 0%nat
    = Some {| obj_ref := 0; userId := JStr "alice"; connectionId := "conn-1";
              ip := "203.0.113.7" |}.
Proof. vm_compute. auto. Qed.

(** The socket a rejected connect leaves behind: closing, nothing written,
    no handler attached. *)
Definition rejected (code : Z) (reason : string) : socket :=
  {| readyState := RS_CLOSING; sent := []; pings := 0;
     closeCode := Some (code, reason); listening := false |}.

(** C2, as the code has it.  A connect whose [token] parameter is present
    (the URL parses and the parameter is a non-empty string) but fails
    [jwt.verify] is closed with code 4003, reason "Invalid authentication
    token": when the handler returns the new socket is closing, no frame was
    written on it (so no CONNECTION_ESTABLISHED), no handler is attached and
    it is not in the Broadcast Registry.  Code 4002 is what the handler uses
    one step earlier, when the parameter is missing. *)
Theorem C2_unverified_token_closes_with_4003
    (jwt_verify : string → option jsval) (s : state) (req : request)
    (uuid token : string) :
  reachable jwt_verify s →
  req_url_ok req = true →
  req_token req = Some token →
  token ≠ ""%string →
  jwt_verify token = None →
  sockets (on_connection jwt_verify req uuid s) !! next_ws s
    = Some (rejected 4003 "Invalid authentication token") ∧
  clients (on_connection jwt_verify req uuid s) !! next_ws s = None.
Proof.
  intros Hr Hurl Htok Hne Hv.
  pose proof (reachable_inv jwt_verify s Hr) as Hs.
  destruct (inv_fresh_ws s Hs (next_ws s)) as [_ Hcl]; [done|].
  unfold on_connection, extract_token. rewrite Hurl, Htok.
  destruct (String.eqb token "") eqn:E; [by apply String.eqb_eq in E|].
  unfold setTimer. simpl. rewrite Hv. unfold upd_socket. simpl.
  rewrite lookup_alter_eq, lookup_insert_eq. done.
Qed.

Lemma C2_unverified_token_witness :
  sockets (on_connection demo_verify (demo_request "expired") "conn-1" init) !! 0%nat
    = Some (rejected 4003 "Invalid authentication token") ∧
  clients (on_connection demo_verify (demo_request "expired") "conn-1" init) !! 0%nat
    = None.
Proof.
  apply (C2_unverified_token_closes_with_4003 demo_verify init
           (demo_request "expired") "conn-1" "expired").
  - apply reach_init.
  - reflexivity.
  - reflexivity.
  - discriminate.
  - reflexivity.
Defined.

(** C2 as stated fails: a connect with a token that does not verify is not
    closed with code 4002. *)
Lemma C2_counterexample :
  ¬ ∃ k reason,
      sockets (on_connection demo_verify (demo_request "expired") "conn-1" init) !! 0%nat
        = Some k ∧
      closeCode k = Some (4002, reason).
Proof.
  intros (k & reason & Hk & Hc). vm_compute in Hk.
  injection Hk as <-. discriminate Hc.
Qed.

(** The companion case: no [token] parameter closes with 4002. *)
Lemma missing_token_closes_with_4002 jwt_verify s req uuid :
  inv s → extract_token req = None →
  sockets (on_connection jwt_verify req uuid s) !! next_ws s
    = Some (rejected 4002 "Invalid connection URL").
Proof.
  intros Hs He. unfold on_connection. rewrite He.
  unfold setTimer, upd_socket. simpl.
  by rewrite lookup_alter_eq, lookup_insert_eq.
Qed.

(** [sendToUser] compares the registry record itself with the identity. *)
Lemma clients_get_registered s ws info uid :
  clients s !! ws = Some info → is_primitive uid = true →
  strict_eq (clients_get s ws) uid = false.
Proof. intros Hc Hp. unfold clients_get. rewrite Hc. by destruct uid. Qed.

Lemma sendToUser_loop_registered uid p (l : list nat) s ws info :
  is_primitive uid = true → clients s !! ws = Some info →
  let s' := fold_left
              (fun s c => if ws_open s c && strict_eq (clients_get s c) uid
                          then upd_socket c (ws_send (FData p)) s else s) l s in
  sockets s' !! ws = sockets s !! ws ∧ clients s' = clients s.
Proof.
  intros Hp. revert s. induction l as [|c l IH]; intros s Hc; simpl; [done|].
  destruct (decide (c = ws)) as [->|Hne].
  - rewrite (clients_get_registered s ws info uid Hc Hp), andb_false_r.
    by apply IH.
  - destruct (ws_open s c && strict_eq (clients_get s c) uid); [|by apply IH].
    destruct (IH (upd_socket c (ws_send (FData p)) s) Hc) as [Ha Hb].
    split; [|done]. rewrite Ha. simpl. by rewrite lookup_alter_ne.
Qed.

Lemma sendToUser_loop_defined uid p (l : list nat) s :
  is_primitive uid = true → uid ≠ JUndefined →
  fold_left
    (fun s c => if ws_open s c && strict_eq (clients_get s c) uid
                then upd_socket c (ws_send (FData p)) s else s) l s = s.
Proof.
  intros Hp Hu. induction l as [|c l IH]; simpl; [done|].
  assert (strict_eq (clients_get s c) uid = false) as ->.
  { unfold clients_get. destruct (clients s !! c); by destruct uid. }
  by rewrite andb_false_r.
Qed.

(** C3 (what the code does instead): for an identity that is a primitive
    value, as a token's [id] claim is, [sendToUser] writes nothing on a
    channel registered in the Broadcast Registry, open or not, whatever
    identity it is registered under; and when the identity is not
    [undefined] it writes on no socket at all. *)
Theorem C3_sendToUser_reaches_no_registered_channel
    (s : state) (uid : jsval) (p : payload) (ws : nat) (info : clientInfo) :
  is_primitive uid = true →
  clients s !! ws = Some info →
  sockets (sendToUser uid p s) !! ws = sockets s !! ws ∧
  (uid ≠ JUndefined → sendToUser uid p s = s).
Proof.
  intros Hp Hc. split.
  - by apply (sendToUser_loop_registered uid p (wss_clients s) s ws info Hp Hc).
  - intros Hu. by apply sendToUser_loop_defined.
Qed.

(** The failing input of C3: alice has one registered, open channel, and
    [sendToUser("alice", "hello")] leaves it without any new frame. *)
Lemma C3_failing_input :
  clients_get_userId demo_open 0 = JStr "alice" ∧
  ws_open demo_open 0 = true ∧
  sockets (sendToUser (JStr "alice") (PText "hello") demo_open) !! 0%nat
    = sockets demo_open !! 0%nat.
Proof.
  split; [by vm_compute|]. split; [by vm_compute|].
  refine (proj1 (C3_sendToUser_reaches_no_registered_channel demo_open
            (JStr "alice") (PText "hello") 0
            {| obj_ref := 0; userId := JStr "alice"; connectionId := "conn-1";
               ip := "203.0.113.7" |} _ _)).
  - reflexivity.
  - vm_compute. reflexivity.
Defined.

(** [broadcast], the sibling path, does look at [userId]: restricted to
    alice it reaches her channel. *)
Lemma broadcast_includeOnly_reaches_alice :
  sent <$> sockets (broadcast (PText "hello") [] (Some [JStr "alice"]) demo_open) !! 0%nat
    = Some [FConnectionEstablished "conn-1" 0; FData (PText "hello")].
Proof. vm_compute. reflexivity. Qed.

(** *** Further properties of the server *)

Lemma sendMessage_open ws f s :
  ws_open s ws = true → sendMessage ws f s = (upd_socket ws (ws_send f) s, true).
Proof. intros H. unfold sendMessage. by rewrite H. Qed.

Lemma sendError_open ws code s :
  ws_open s ws = true →
  sendError ws code s = upd_socket ws (ws_send (FError code (now s))) s.
Proof. intros H. unfold sendError. by rewrite sendMessage_open. Qed.

(** X1: every message that arrives on a registered channel whose socket is
    open and has its handlers attached is answered by exactly one frame on
    that socket, and nothing else changes: an ERROR with code
    MESSAGE_TOO_LARGE when the message is longer than [MAX_MESSAGE_SIZE]
    (it is then not parsed), MESSAGE_PROCESSING_ERROR when it is not JSON,
    INVALID_MESSAGE when it is JSON but not an object, a PONG carrying the
    [id] of the message (no [id] when it is missing or falsy) when its type
    is PING, and UNKNOWN_MESSAGE_TYPE for any other type. *)
Theorem inbound_message_gets_one_reply ws m s c k :
  clients s !! ws = Some c →
  sockets s !! ws = Some k →
  readyState k = RS_OPEN →
  listening k = true →
  ∃ f, on_message ws m s = upd_socket ws (ws_send f) s
     ∧ ((MAX_MESSAGE_SIZE < in_length m ∧ f = FError "MESSAGE_TOO_LARGE" (now s))
        ∨ (in_length m ≤ MAX_MESSAGE_SIZE
           ∧ match in_data m with
             | ParseFailure => f = FError "MESSAGE_PROCESSING_ERROR" (now s)
             | NotAnObject => f = FError "INVALID_MESSAGE" (now s)
             | Object type id =>
                 if strict_eq type (JStr "PING")
                 then f = FPong (now s) (if truthy id then Some id else None)
                 else f = FError "UNKNOWN_MESSAGE_TYPE" (now s)
             end)).
Proof.
  intros Hc Hk Ho Hl.
  assert (Hopen : ws_open s ws = true) by (unfold ws_open; by rewrite Hk, Ho).
  unfold on_message, ws_listening. rewrite Hk, Hl.
  destruct (MAX_MESSAGE_SIZE <? in_length m) eqn:E.
  - apply Z.ltb_lt in E. eexists. split; [by apply sendError_open|]. by left.
  - apply Z.ltb_ge in E. unfold handleMessage. rewrite Hc.
    destruct (in_data m) as [| |type id].
    + eexists. split; [by apply sendError_open|]. by right.
    + eexists. split; [by apply sendError_open|]. by right.
    + destruct (strict_eq type (JStr "PING")) eqn:Et.
      * unfold handlePing. rewrite sendMessage_open by done.
        eexists. split; [done|]. by right.
      * eexists. split; [by apply sendError_open|]. by right.
Qed.

Definition demo_ping (id : jsval) : inbound :=
  {| in_length := 40; in_data := Object (JStr "PING") id |}.

Lemma inbound_message_gets_one_reply_witness :
  ∃ f, on_message 0 (demo_ping (JStr "p1")) demo_open
       = upd_socket 0 (ws_send f) demo_open.
Proof.
  destruct (inbound_message_gets_one_reply 0 (demo_ping (JStr "p1")) demo_open
              {| obj_ref := 0; userId := JStr "alice"; connectionId := "conn-1";
                 ip := "203.0.113.7" |}
              {| readyState := RS_OPEN; sent := [FConnectionEstablished "conn-1" 0];
                 pings := 0; closeCode := None; listening := true |}
              eq_refl eq_refl eq_refl eq_refl) as (f & Hf & _).
  exists f. exact Hf.
Defined.

(** What one send, successful or not, leaves alone. *)
Definition grew (k k' : socket) : Prop :=
  readyState k' = readyState k ∧ closeCode k' = closeCode k
  ∧ listening k' = listening k ∧ pings k' = pings k
  ∧ (sent k' = sent k ∨ ∃ f, sent k' = sent k ++ [f]).

Lemma sendMessage_grew ws f s :
  clients (sendMessage ws f s).1 = clients s
  ∧ connectionTimeouts (sendMessage ws f s).1 = connectionTimeouts s
  ∧ pingIntervals (sendMessage ws f s).1 = pingIntervals s
  ∧ timers (sendMessage ws f s).1 = timers s
  ∧ wss_clients (sendMessage ws f s).1 = wss_clients s
  ∧ (∀ ws', ws' ≠ ws → sockets (sendMessage ws f s).1 !! ws' = sockets s !! ws')
  ∧ (∀ k, sockets s !! ws = Some k →
       ∃ k', sockets (sendMessage ws f s).1 !! ws = Some k' ∧ grew k k').
Proof.
  unfold sendMessage. destruct (ws_open s ws); cbn.
  - split_and!; try done.
    + intros ws' Hne. by rewrite lookup_alter_ne.
    + intros k Hk. rewrite lookup_alter_eq, Hk. eexists. split; [done|].
      unfold grew. cbn. split_and!; try done. right. by eexists.
  - split_and!; try done. intros k Hk. exists k. split; [done|].
    unfold grew. split_and!; try done. by left.
Qed.

(** X2: handling a message, whatever it is and whoever sent it, never
    changes the registry, the timer tables or the set of sockets, never
    touches another socket, and on the sender's socket it can only append
    one frame: it changes neither the ready state nor the close request. *)
Theorem on_message_touches_only_its_socket ws m s :
  clients (on_message ws m s) = clients s
  ∧ connectionTimeouts (on_message ws m s) = connectionTimeouts s
  ∧ pingIntervals (on_message ws m s) = pingIntervals s
  ∧ timers (on_message ws m s) = timers s
  ∧ wss_clients (on_message ws m s) = wss_clients s
  ∧ (∀ ws', ws' ≠ ws → sockets (on_message ws m s) !! ws' = sockets s !! ws')
  ∧ (∀ k, sockets s !! ws = Some k →
       ∃ k', sockets (on_message ws m s) !! ws = Some k' ∧ grew k k').
Proof.
  assert (Hid : clients s = clients s ∧ connectionTimeouts s = connectionTimeouts s
                ∧ pingIntervals s = pingIntervals s ∧ timers s = timers s
                ∧ wss_clients s = wss_clients s
                ∧ (∀ ws', ws' ≠ ws → sockets s !! ws' = sockets s !! ws')
                ∧ (∀ k, sockets s !! ws = Some k →
                     ∃ k', sockets s !! ws = Some k' ∧ grew k k')).
  { split_and!; try done. intros k Hk. exists k. split; [done|].
    unfold grew. split_and!; try done. by left. }
  unfold on_message. destruct (ws_listening s ws); [|done].
  destruct (MAX_MESSAGE_SIZE <? in_length m); [apply sendMessage_grew|].
  unfold handleMessage. destruct (clients s !! ws); [|done].
  destruct (in_data m) as [| |type id]; try apply sendMessage_grew.
  destruct (strict_eq type (JStr "PING")); [|apply sendMessage_grew].
  unfold handlePing, sendMessage. destruct (ws_open s ws) eqn:Ho.
  - pose proof (sendMessage_grew ws (FPong (now s) (if truthy id then Some id else None)) s)
      as H.
    unfold sendMessage in H. by rewrite Ho in H.
  - unfold sendError, sendMessage. by rewrite Ho.
Qed.

(** A loop that writes frame [f] on the sockets of [l] that pass [test],
    for a test that sends do not change. *)
Lemma fold_send_spec (test : state → nat → bool) (f : frame) (l : list nat) (s : state) :
  (∀ s c ws, test (upd_socket c (ws_send f) s) ws = test s ws) →
  NoDup l →
  (∀ ws, sockets (fold_left (fun s ws => if test s ws
                                          then upd_socket ws (ws_send f) s else s) l s)
           !! ws
         = if bool_decide (ws ∈ l) && test s ws
           then ws_send f <$> sockets s !! ws else sockets s !! ws)
  ∧ set_sockets (sockets s)
      (fold_left (fun s ws => if test s ws then upd_socket ws (ws_send f) s else s) l s)
    = set_sockets (sockets s) s.
Proof.
  intros Hst. revert s. induction l as [|c l IH]; intros s Hnd; cbn [fold_left].
  { split; [|done]. intros ws. by rewrite bool_decide_eq_false_2 by apply not_elem_of_nil. }
  apply NoDup_cons in Hnd as [Hc Hnd].
  set (s1 := if test s c then upd_socket c (ws_send f) s else s).
  destruct (IH s1 Hnd) as [Hs Hr].
  assert (Htest : ∀ ws, test s1 ws = test s ws).
  { intros ws. subst s1. destruct (test s c); [apply Hst|done]. }
  assert (Hrest : set_sockets (sockets s) s1 = set_sockets (sockets s) s).
  { subst s1. by destruct (test s c). }
  split.
  - intros ws. rewrite Hs, Htest. destruct (decide (ws = c)) as [->|Hne].
    + rewrite (bool_decide_eq_false_2 _ Hc), (bool_decide_eq_true_2 (c ∈ c :: l))
        by apply list_elem_of_here.
      cbn. subst s1. destruct (test s c); [|done]. cbn. by rewrite lookup_alter_eq.
    + assert (sockets s1 !! ws = sockets s !! ws) as ->.
      { subst s1. destruct (test s c); [|done]. cbn. by rewrite lookup_alter_ne. }
      destruct (bool_decide (ws ∈ l)) eqn:E.
      * apply bool_decide_eq_true_1 in E.
        by rewrite (bool_decide_eq_true_2 (ws ∈ c :: l)) by by apply list_elem_of_further.
      * apply bool_decide_eq_false_1 in E.
        rewrite (bool_decide_eq_false_2 (ws ∈ c :: l)); [done|].
        intros [?|?]%elem_of_cons; done.
  - rewrite <- Hrest.
    apply (f_equal (set_sockets (sockets s))) in Hr. exact Hr.
Qed.

(** X3: [broadcast].  The sockets of [wss.clients] form a set.  The message
    is written exactly once on every socket of that set that is open and
    whose user id ([undefined] for a socket that is not registered) is not
    in [exclude] and, when [includeOnly] is given, is in it; every other
    socket is left as it was, and nothing but the sockets changes. *)
Theorem broadcast_writes_once_on_each_eligible_socket p ex inc s :
  NoDup (wss_clients s) →
  (∀ ws k, sockets s !! ws = Some k →
     sockets (broadcast p ex inc s) !! ws
     = Some (if bool_decide (ws ∈ wss_clients s)
                && is_open (readyState k)
                && negb (includes ex (clients_get_userId s ws))
                && match inc with
                   | Some l => includes l (clients_get_userId s ws)
                   | None => true
                   end
             then ws_send (FData p) k else k))
  ∧ set_sockets (sockets s) (broadcast p ex inc s) = set_sockets (sockets s) s.
Proof.
  intros Hnd. unfold broadcast. cbv zeta.
  set (l := match inc with
            | Some i => List.filter (fun ws => includes i (clients_get_userId s ws))
                          (wss_clients s)
            | None => wss_clients s
            end).
  assert (Hl : NoDup l).
  { subst l. destruct inc; [|done].
    by apply NoDup_ListNoDup, List.NoDup_filter, NoDup_ListNoDup. }
  assert (Hin : ∀ ws, bool_decide (ws ∈ l)
                      = bool_decide (ws ∈ wss_clients s)
                        && match inc with
                           | Some i => includes i (clients_get_userId s ws)
                           | None => true
                           end).
  { intros ws. subst l. destruct inc as [i|]; [|by rewrite andb_true_r].
    apply eq_true_iff_eq. rewrite andb_true_iff, !bool_decide_eq_true.
    rewrite !list_elem_of_In, filter_In. done. }
  destruct (fold_send_spec
              (fun s ws => ws_open s ws && negb (includes ex (clients_get_userId s ws)))
              (FData p) l s) as [Hs Hr]; [|done|].
  { intros s0 c ws. unfold ws_open, clients_get_userId, upd_socket. cbn.
    rewrite lookup_alter. case_decide as E; [subst c|done].
    by destruct (sockets s0 !! ws). }
  split; [|done].
  intros ws k Hk. rewrite Hs, Hin, Hk. unfold ws_open. rewrite Hk. cbn.
  clear Hs Hin Hr Hl. clearbody l.
  destruct inc as [i|]; [destruct (includes i (clients_get_userId s ws))|];
    by destruct (bool_decide (ws ∈ wss_clients s)), (is_open (readyState k)),
         (includes ex (clients_get_userId s ws)).
Qed.

Lemma broadcast_writes_once_witness :
  sockets (broadcast (PText "hello") [JStr "bob"] None demo_open) !! 0%nat
  = Some {| readyState := RS_OPEN;
            sent := [FConnectionEstablished "conn-1" 0; FData (PText "hello")];
            pings := 0; closeCode := None; listening := true |}.
Proof.
  destruct (broadcast_writes_once_on_each_eligible_socket
              (PText "hello") [JStr "bob"] None demo_open) as [H _].
  - apply NoDup_singleton.
  - rewrite (H 0%nat {| readyState := RS_OPEN;
                        sent := [FConnectionEstablished "conn-1" 0];
                        pings := 0; closeCode := None; listening := true |} eq_refl).
    reflexivity.
Defined.

Lemma cleanupClient_fields ws s :
  clients (cleanupClient ws s) = delete ws (clients s)
  ∧ pingIntervals (cleanupClient ws s) = delete ws (pingIntervals s)
  ∧ connectionTimeouts (cleanupClient ws s) = delete ws (connectionTimeouts s)
  ∧ timers (cleanupClient ws s)
    = (match connectionTimeouts s !! ws with Some t => delete t | None => id end)
        ((match pingIntervals s !! ws with Some t => delete t | None => id end)
           (timers s))
  ∧ sockets (cleanupClient ws s) = sockets s
  ∧ wss_clients (cleanupClient ws s) = wss_clients s
  ∧ now (cleanupClient ws s) = now s
  ∧ next_timer (cleanupClient ws s) = next_timer s
  ∧ next_ws (cleanupClient ws s) = next_ws s
  ∧ next_ref (cleanupClient ws s) = next_ref s.
Proof.
  unfold cleanupClient.
  destruct (pingIntervals s !! ws) as [t|] eqn:Hp;
    destruct (connectionTimeouts s !! ws) as [t'|] eqn:Hc; cbn; rewrite ?Hc; cbn;
    split_and!; try done; symmetry; by apply delete_id.
Qed.

(** X4: [cleanupClient] forgets a channel and nothing else.  Afterwards
    the socket is in none of the three tables, the ping interval and the
    connection timeout that were recorded for it are disarmed, the entries
    of every other socket and every other timer are as before, and the
    socket itself is not touched (it is neither closed nor written to). *)
Theorem cleanupClient_forgets_the_channel ws s :
  clients (cleanupClient ws s) !! ws = None
  ∧ pingIntervals (cleanupClient ws s) !! ws = None
  ∧ connectionTimeouts (cleanupClient ws s) !! ws = None
  ∧ (∀ t, pingIntervals s !! ws = Some t ∨ connectionTimeouts s !! ws = Some t →
       timers (cleanupClient ws s) !! t = None)
  ∧ (∀ t, pingIntervals s !! ws ≠ Some t → connectionTimeouts s !! ws ≠ Some t →
       timers (cleanupClient ws s) !! t = timers s !! t)
  ∧ (∀ ws', ws' ≠ ws →
       clients (cleanupClient ws s) !! ws' = clients s !! ws'
       ∧ pingIntervals (cleanupClient ws s) !! ws' = pingIntervals s !! ws'
       ∧ connectionTimeouts (cleanupClient ws s) !! ws' = connectionTimeouts s !! ws')
  ∧ sockets (cleanupClient ws s) = sockets s
  ∧ wss_clients (cleanupClient ws s) = wss_clients s.
Proof.
  destruct (cleanupClient_fields ws s) as (Hc & Hp & Ht & Htm & Hs & Hw & _).
  rewrite Hc, Hp, Ht, Htm, Hs, Hw. split_and!; try done; try apply lookup_delete_eq.
  - intros t [H|H]; rewrite H.
    + destruct (connectionTimeouts s !! ws) as [t'|]; cbn.
      * rewrite lookup_delete. case_decide; [done|]. apply lookup_delete_eq.
      * apply lookup_delete_eq.
    + apply lookup_delete_eq.
  - intros t H1 H2.
    destruct (connectionTimeouts s !! ws) as [t'|], (pingIntervals s !! ws) as [t''|];
      cbn; rewrite ?lookup_delete_ne by congruence; done.
  - intros ws' Hne. by rewrite !lookup_delete_ne.
Qed.

(** X5: [cleanupClient] is idempotent.  The close handler and the error
    handler both call it, so a socket that errors and then closes is
    cleaned twice: the second call changes nothing. *)
Theorem cleanupClient_idempotent ws s :
  cleanupClient ws (cleanupClient ws s) = cleanupClient ws s.
Proof.
  assert (clients (cleanupClient ws s) !! ws = None
          ∧ pingIntervals (cleanupClient ws s) !! ws = None
          ∧ connectionTimeouts (cleanupClient ws s) !! ws = None) as (Hc & Hp & Ht).
  { destruct (cleanupClient_fields ws s) as (-> & -> & -> & _).
    by rewrite !lookup_delete_eq. }
  set (s' := cleanupClient ws s) in *. clearbody s'.
  unfold cleanupClient. rewrite Hp. cbn. rewrite Ht. cbn.
  rewrite (delete_id _ _ Hc). by destruct s'.
Qed.

Lemma fold_close_spec code reason (l : list nat) s :
  (∀ ws, sockets (fold_left (fun s ws => upd_socket ws (ws_close code reason) s) l s) !! ws
         = if bool_decide (ws ∈ l)
           then ws_close code reason <$> sockets s !! ws else sockets s !! ws)
  ∧ set_sockets (sockets s)
      (fold_left (fun s ws => upd_socket ws (ws_close code reason) s) l s)
    = set_sockets (sockets s) s.
Proof.
  revert s. induction l as [|c l IH]; intros s; cbn [fold_left].
  { split; [|done]. intros ws. by rewrite bool_decide_eq_false_2 by apply not_elem_of_nil. }
  destruct (IH (upd_socket c (ws_close code reason) s)) as [Hs Hr]. split.
  - intros ws. rewrite Hs. cbn. destruct (decide (ws = c)) as [->|Hne].
    + rewrite lookup_alter_eq, (bool_decide_eq_true_2 (c ∈ c :: l))
        by apply list_elem_of_here.
      destruct (bool_decide (c ∈ l)); [|done].
      destruct (sockets s !! c) as [k|]; [|done]. cbn. f_equal.
      unfold ws_close. destruct (readyState k) eqn:E; cbn; by rewrite ?E.
    + rewrite lookup_alter_ne by done.
      destruct (bool_decide (ws ∈ l)) eqn:E.
      * apply bool_decide_eq_true_1 in E.
        by rewrite (bool_decide_eq_true_2 (ws ∈ c :: l)) by by apply list_elem_of_further.
      * apply bool_decide_eq_false_1 in E.
        rewrite (bool_decide_eq_false_2 (ws ∈ c :: l)); [done|].
        intros [?|?]%elem_of_cons; done.
  - apply (f_equal (set_sockets (sockets s))) in Hr. exact Hr.
Qed.

Lemma fold_clear_spec (l : list nat) s :
  (∀ tid, timers (fold_left (fun s tid => clearTimer tid s) l s) !! tid
          = if bool_decide (tid ∈ l) then None else timers s !! tid)
  ∧ set_timers (timers s) (fold_left (fun s tid => clearTimer tid s) l s)
    = set_timers (timers s) s.
Proof.
  revert s. induction l as [|c l IH]; intros s; cbn [fold_left].
  { split; [|done]. intros ws. by rewrite bool_decide_eq_false_2 by apply not_elem_of_nil. }
  destruct (IH (clearTimer c s)) as [Hs Hr]. split.
  - intros tid. rewrite Hs. cbn. destruct (decide (tid = c)) as [->|Hne].
    + rewrite lookup_delete_eq, (bool_decide_eq_true_2 (c ∈ c :: l))
        by apply list_elem_of_here.
      by destruct (bool_decide (c ∈ l)).
    + rewrite lookup_delete_ne by done.
      destruct (bool_decide (tid ∈ l)) eqn:E.
      * apply bool_decide_eq_true_1 in E.
        by rewrite (bool_decide_eq_true_2 (tid ∈ c :: l)) by by apply list_elem_of_further.
      * apply bool_decide_eq_false_1 in E.
        rewrite (bool_decide_eq_false_2 (tid ∈ c :: l)); [done|].
        intros [?|?]%elem_of_cons; done.
  - apply (f_equal (set_timers (timers s))) in Hr. exact Hr.
Qed.

(** X6: [cleanup()], the shutdown hook.  It empties the three tables,
    disarms every ping interval and every connection timeout they
    recorded, and asks every open socket of [wss.clients] to close with
    code 1001, "Server shutting down"; no socket of [wss.clients] is open
    afterwards, and the sockets stay in [wss.clients] until they close. *)
Theorem cleanup_shuts_every_channel s :
  clients (cleanup s) = ∅
  ∧ pingIntervals (cleanup s) = ∅
  ∧ connectionTimeouts (cleanup s) = ∅
  ∧ (∀ ws t, pingIntervals s !! ws = Some t ∨ connectionTimeouts s !! ws = Some t →
       timers (cleanup s) !! t = None)
  ∧ (∀ ws k, ws ∈ wss_clients s → sockets s !! ws = Some k → readyState k = RS_OPEN →
       sockets (cleanup s) !! ws
       = Some {| readyState := RS_CLOSING; sent := sent k; pings := pings k;
                 closeCode := Some (1001, "Server shutting down");
                 listening := listening k |})
  ∧ (∀ ws, ws ∈ wss_clients s → ws_open (cleanup s) ws = false)
  ∧ wss_clients (cleanup s) = wss_clients s.
Proof.
  unfold cleanup. cbv zeta.
  destruct (fold_close_spec 1001 "Server shutting down" (wss_clients s) s) as [Hs1 Hr1].
  set (s1 := fold_left _ (wss_clients s) s) in *. clearbody s1.
  destruct (fold_clear_spec (map_to_list (pingIntervals s1)).*2 s1) as [Hs2 Hr2].
  set (s2 := fold_left _ (map_to_list (pingIntervals s1)).*2 s1) in *. clearbody s2.
  destruct (fold_clear_spec (map_to_list (connectionTimeouts s2)).*2 s2) as [Hs3 Hr3].
  set (s3 := fold_left _ (map_to_list (connectionTimeouts s2)).*2 s2) in *. clearbody s3.
  assert (E1 : pingIntervals s1 = pingIntervals s ∧ connectionTimeouts s1 = connectionTimeouts s
               ∧ wss_clients s1 = wss_clients s ∧ timers s1 = timers s).
  { apply (f_equal pingIntervals) in Hr1 as Ha.
    apply (f_equal connectionTimeouts) in Hr1 as Hb.
    apply (f_equal wss_clients) in Hr1 as Hc. apply (f_equal timers) in Hr1 as Hd. done. }
  assert (E2 : pingIntervals s2 = pingIntervals s1
               ∧ connectionTimeouts s2 = connectionTimeouts s1
               ∧ wss_clients s2 = wss_clients s1 ∧ sockets s2 = sockets s1).
  { apply (f_equal pingIntervals) in Hr2 as Ha.
    apply (f_equal connectionTimeouts) in Hr2 as Hb.
    apply (f_equal wss_clients) in Hr2 as Hc. apply (f_equal sockets) in Hr2 as Hd. done. }
  assert (E3 : wss_clients s3 = wss_clients s2 ∧ sockets s3 = sockets s2).
  { apply (f_equal wss_clients) in Hr3 as Hc. apply (f_equal sockets) in Hr3 as Hd. done. }
  destruct E1 as (E1a & E1b & E1c & E1d), E2 as (E2a & E2b & E2c & E2d), E3 as (E3c & E3d).
  cbn. split_and!; try done.
  - intros ws t Ht. rewrite Hs3, E2b, E1b.
    destruct (bool_decide (t ∈ (map_to_list (connectionTimeouts s)).*2)) eqn:E; [done|].
    apply bool_decide_eq_false_1 in E. rewrite Hs2, E1a.
    destruct Ht as [Ht|Ht].
    + rewrite bool_decide_eq_true_2; [done|].
      apply list_elem_of_fmap. exists (ws, t). split; [done|].
      by apply elem_of_map_to_list.
    + exfalso. apply E. apply list_elem_of_fmap. exists (ws, t). split; [done|].
      by apply elem_of_map_to_list.
  - intros ws k Hin Hk Ho. rewrite E3d, E2d, Hs1, bool_decide_eq_true_2, Hk by done.
    cbn. unfold ws_close. by rewrite Ho.
  - intros ws Hin. unfold ws_open. cbn. rewrite E3d, E2d, Hs1, bool_decide_eq_true_2 by done.
    destruct (sockets s !! ws) as [k|]; [|done]. cbn. unfold ws_close.
    destruct (readyState k) eqn:E; cbn; by rewrite ?E.
  - congruence.
Qed.

(** X7: a connect whose token verifies.  The new socket stays open with
    exactly one frame written, CONNECTION_ESTABLISHED carrying the fresh
    connection id, and has its handlers attached; it is registered under
    the [id] of the token with that connection id and the remote address;
    the 45 s connection timeout armed on entry is disarmed and forgotten,
    and a ping interval is armed for [PING_INTERVAL] later.  Sockets and
    registrations that existed before are not touched. *)
Theorem verified_connection_is_registered
    (jwt_verify : string → option jsval) s req uuid token uid :
  extract_token req = Some token →
  jwt_verify token = Some uid →
  let ws := next_ws s in
  let s' := on_connection jwt_verify req uuid s in
    sockets s' !! ws
    = Some {| readyState := RS_OPEN; sent := [FConnectionEstablished uuid (now s)];
              pings := 0; closeCode := None; listening := true |}
  ∧ clients s' !! ws
    = Some {| obj_ref := next_ref s; userId := uid; connectionId := uuid;
              ip := req_ip req |}
  ∧ wss_clients s' = wss_clients s ++ [ws]
  ∧ connectionTimeouts s' !! ws = None
  ∧ timers s' !! next_timer s = None
  ∧ pingIntervals s' !! ws = Some (S (next_timer s))
  ∧ timers s' !! S (next_timer s)
    = Some {| due := now s + PING_INTERVAL; kind := PingIntervalK ws |}
  ∧ (∀ ws', ws' ≠ ws →
       sockets s' !! ws' = sockets s !! ws' ∧ clients s' !! ws' = clients s !! ws').
Proof.
  intros He Hv ws s'. subst ws s'. unfold on_connection. rewrite He.
  unfold setTimer. cbn. rewrite Hv. unfold sendMessage, ws_open, upd_socket. cbn.
  rewrite lookup_insert_eq. cbn. split_and!.
  - by rewrite !lookup_alter_eq, lookup_insert_eq.
  - by rewrite lookup_insert_eq.
  - done.
  - by rewrite lookup_delete_eq.
  - rewrite lookup_insert_ne by lia. by rewrite lookup_delete_eq.
  - by rewrite lookup_insert_eq.
  - by rewrite lookup_insert_eq.
  - intros ws' Hne. rewrite !lookup_alter_ne, !lookup_insert_ne by done. done.
Qed.

Lemma verified_connection_witness :
  clients (on_connection demo_verify (demo_request "valid") "conn-1" init) !! 0%nat
  = Some {| obj_ref := 0; userId := JStr "alice"; connectionId := "conn-1";
            ip := "203.0.113.7" |}.
Proof.
  exact (proj1 (proj2 (verified_connection_is_registered demo_verify init
                         (demo_request "valid") "conn-1" "valid" (JStr "alice")
                         eq_refl eq_refl))).
Defined.

(** X8: a connect that carries no usable token: the URL does not parse,
    or it has no [token] parameter, or an empty one.  The token verifier is
    not consulted (the outcome is the same for every verifier); the socket
    is asked to close with code 4002, "Invalid connection URL", before
    anything is written on it and without handlers; it is not registered
    and gets no ping interval; and its 45 s connection timeout stays armed
    and recorded in [connectionTimeouts]. *)
Theorem connection_without_token_is_rejected
    (jwt_verify : string → option jsval) s req uuid :
  inv s →
  req_url_ok req = false ∨ req_token req = None ∨ req_token req = Some ""%string →
  let ws := next_ws s in
  let s' := on_connection jwt_verify req uuid s in
    sockets s' !! ws
    = Some {| readyState := RS_CLOSING; sent := []; pings := 0;
              closeCode := Some (4002, "Invalid connection URL"%string);
              listening := false |}
  ∧ clients s' !! ws = None
  ∧ pingIntervals s' = pingIntervals s
  ∧ connectionTimeouts s' !! ws = Some (next_timer s)
  ∧ timers s' !! next_timer s
    = Some {| due := now s + CONNECTION_TIMEOUT; kind := ConnectionTimeoutK ws |}
  ∧ s' = on_connection (fun _ => None) req uuid s.
Proof.
  intros Hs Hreq ws s'. subst ws s'.
  destruct (inv_fresh_ws s Hs (next_ws s)) as [_ Hcl]; [done|].
  assert (He : extract_token req = None).
  { unfold extract_token. destruct Hreq as [->|[->| ->]]; [done|by destruct (req_url_ok req)..]. }
  unfold on_connection. rewrite He. unfold setTimer, upd_socket. cbn.
  split_and!; try done.
  - by rewrite lookup_alter_eq, lookup_insert_eq.
  - by rewrite lookup_insert_eq.
  - by rewrite lookup_insert_eq.
Qed.

Lemma connection_without_token_witness :
  sockets (on_connection demo_verify
             {| req_url_ok := true; req_token := None; req_ip := "203.0.113.7" |}
             "conn-2" demo_open) !! 1%nat
  = Some {| readyState := RS_CLOSING; sent := []; pings := 0;
            closeCode := Some (4002, "Invalid connection URL"%string);
            listening := false |}.
Proof.
  refine (proj1 (connection_without_token_is_rejected demo_verify demo_open
                  {| req_url_ok := true; req_token := None; req_ip := "203.0.113.7" |}
                  "conn-2" _ _)).
  - apply (reachable_inv demo_verify).
    apply (reach_step demo_verify (EConnection _ _)), reach_init.
  - right. left. reflexivity.
Defined.

(** A socket that is not open stays so from [s] to [s'], with the frames
    and pings it had. *)
Definition silent (ws : nat) (s s' : state) : Prop :=
  ∀ k, sockets s !! ws = Some k → readyState k ≠ RS_OPEN →
    ∃ k', sockets s' !! ws = Some k' ∧ sent k' = sent k ∧ pings k' = pings k
          ∧ readyState k' ≠ RS_OPEN.

Lemma silent_same ws s s' : sockets s' = sockets s → silent ws s s'.
Proof. intros E k Hk Hn. exists k. by rewrite E. Qed.

Lemma silent_trans ws s1 s2 s3 : silent ws s1 s2 → silent ws s2 s3 → silent ws s1 s3.
Proof.
  intros H1 H2 k Hk Hn. destruct (H1 k Hk Hn) as (k1 & Hk1 & Ha & Hb & Hc).
  destruct (H2 k1 Hk1 Hc) as (k2 & Hk2 & Ha' & Hb' & Hc').
  exists k2. split_and!; congruence.
Qed.

Lemma silent_upd_guarded ws c f s :
  ws_open s c = true → silent ws s (upd_socket c f s).
Proof.
  intros Ho k Hk Hn. exists k. cbn. rewrite lookup_alter_ne; [done|].
  intros ->. unfold ws_open in Ho. rewrite Hk in Ho. by destruct (readyState k).
Qed.

Lemma silent_upd_keep ws c f s :
  (∀ k, sent (f k) = sent k ∧ pings (f k) = pings k
        ∧ (readyState k ≠ RS_OPEN → readyState (f k) ≠ RS_OPEN)) →
  silent ws s (upd_socket c f s).
Proof.
  intros Hf k Hk Hn. cbn. rewrite lookup_alter. case_decide as E; [subst c|by exists k].
  rewrite Hk. cbn. exists (f k). destruct (Hf k) as (Ha & Hb & Hc). by split_and!; auto.
Qed.

Lemma ws_close_keeps code reason k :
  sent (ws_close code reason k) = sent k ∧ pings (ws_close code reason k) = pings k
  ∧ (readyState k ≠ RS_OPEN → readyState (ws_close code reason k) ≠ RS_OPEN).
Proof. unfold ws_close. destruct (readyState k) eqn:E; cbn; rewrite ?E; done. Qed.

Lemma silent_sendMessage ws c f s : silent ws s (sendMessage c f s).1.
Proof.
  unfold sendMessage. destruct (ws_open s c) eqn:E; cbn.
  - by apply silent_upd_guarded.
  - by apply silent_same.
Qed.

Lemma silent_handleMessage ws c m s : silent ws s (handleMessage c m s).
Proof.
  unfold handleMessage. destruct (clients s !! c); [|by apply silent_same].
  destruct (in_data m) as [| |type id]; try apply silent_sendMessage.
  destruct (strict_eq type (JStr "PING")); [|apply silent_sendMessage].
  unfold handlePing.
  pose proof (silent_sendMessage ws c (FPong (now s) (if truthy id then Some id else None)) s)
    as H.
  destruct (sendMessage c _ s) as [s1 ok]. cbn in H. destruct ok; [done|].
  eapply silent_trans; [exact H|apply silent_sendMessage].
Qed.

Lemma silent_cleanupClient ws c s : silent ws s (cleanupClient c s).
Proof.
  apply silent_same. by destruct (cleanupClient_fields c s) as (_ & _ & _ & _ & H & _).
Qed.

Lemma silent_fold ws (step : state → nat → state) (l : list nat) s :
  (∀ s c, silent ws s (step s c)) → silent ws s (fold_left step l s).
Proof.
  intros Hst. revert s. induction l as [|c l IH]; intros s; cbn [fold_left].
  - by apply silent_same.
  - eapply silent_trans; [apply Hst|apply IH].
Qed.

Lemma silent_on_connection jwt_verify ws req uuid s :
  inv s → is_Some (sockets s !! ws) →
  sockets (on_connection jwt_verify req uuid s) !! ws = sockets s !! ws.
Proof.
  intros Hs Hk.
  assert (Hne : ws ≠ next_ws s).
  { intros ->. destruct (inv_fresh_ws s Hs (next_ws s)) as [Hn _]; [done|].
    rewrite Hn in Hk. by destruct Hk. }
  unfold on_connection, setTimer, upd_socket, sendMessage, ws_open. cbn.
  rewrite lookup_insert_eq. cbn.
  destruct (extract_token req) as [token|]; [destruct (jwt_verify token)|]; cbn;
    rewrite ?lookup_alter_ne, ?lookup_insert_ne by done; done.
Qed.

(** X9: the server never writes on a socket that is not open.  Whatever
    happens next (a connect, a message, a close or an error on any socket,
    a timer, a broadcast, a send to a user, the shutdown hook), a socket
    that is connecting, closing or closed keeps exactly the frames and the
    protocol pings it had, and does not become open again. *)
Theorem socket_not_open_is_never_written
    (jwt_verify : string → option jsval) ev s ws k :
  inv s →
  sockets s !! ws = Some k →
  readyState k ≠ RS_OPEN →
  ∃ k', sockets (step jwt_verify ev s) !! ws = Some k'
        ∧ sent k' = sent k ∧ pings k' = pings k ∧ readyState k' ≠ RS_OPEN.
Proof.
  intros Hs Hk Hn. revert k Hk Hn. change (silent ws s (step jwt_verify ev s)).
  destruct ev as [req uuid|c m|c|c|c|tid|p ex inc|uid p|]; cbn [step].
  - intros k Hk Hn. exists k. by rewrite silent_on_connection.
  - unfold on_message. destruct (ws_listening s c); [|by apply silent_same].
    destruct (_ <? _); [apply silent_sendMessage|apply silent_handleMessage].
  - by apply silent_same.
  - unfold on_close.
    set (s1 := set_wss_clients _ _).
    assert (H1 : silent ws s s1).
    { intros k Hk Hn. destruct (silent_upd_keep ws c ws_closed s) with (k := k)
        as (k' & Hk' & H); [by intros k0|done|done|]. by exists k'. }
    destruct (ws_listening s c); [|done].
    eapply silent_trans; [exact H1|apply silent_cleanupClient].
  - unfold on_error. destruct (ws_listening s c);
      [apply silent_cleanupClient|by apply silent_same].
  - unfold fire_timer. destruct (timers s !! tid) as [t|]; [|by apply silent_same].
    destruct (kind t) as [c|c].
    + match goal with |- context [ws_open ?st c] => destruct (ws_open st c) eqn:E end.
      * intros k Hk Hn.
        destruct (silent_upd_keep ws c (ws_close 4008 "Connection timeout")
                    (clearTimer tid (set_now (Z.max (now s) (due t)) s))
                    (ws_close_keeps _ _) k Hk Hn) as (k' & Hk' & H).
        by exists k'.
      * by apply silent_same.
    + match goal with |- context [ws_open ?st c] => destruct (ws_open st c) eqn:E end.
      * intros k Hk Hn.
        destruct (silent_upd_guarded ws c ws_ping _ E k Hk Hn) as (k' & Hk' & H).
        by exists k'.
      * by apply silent_same.
  - unfold broadcast. cbv zeta. apply silent_fold. intros s0 c.
    destruct (ws_open s0 c) eqn:E; cbn; [|by apply silent_same].
    destruct (negb _); [by apply silent_upd_guarded|by apply silent_same].
  - unfold sendToUser. apply silent_fold. intros s0 c.
    destruct (ws_open s0 c) eqn:E; cbn; [|by apply silent_same].
    destruct (strict_eq _ _); [by apply silent_upd_guarded|by apply silent_same].
  - unfold cleanup. cbv zeta.
    set (s1 := fold_left _ (wss_clients s) s).
    assert (H1 : silent ws s s1).
    { apply silent_fold. intros s0 c. apply silent_upd_keep, ws_close_keeps. }
    destruct (fold_clear_spec (map_to_list (pingIntervals s1)).*2 s1) as [_ Hr2].
    set (s2 := fold_left _ (map_to_list (pingIntervals s1)).*2 s1) in *.
    destruct (fold_clear_spec (map_to_list (connectionTimeouts s2)).*2 s2) as [_ Hr3].
    set (s3 := fold_left _ (map_to_list (connectionTimeouts s2)).*2 s2) in *.
    eapply silent_trans; [exact H1|]. apply silent_same. cbn.
    apply (f_equal sockets) in Hr2, Hr3. cbn in Hr2, Hr3. congruence.
Qed.

(** A connect without a token on top of the worked session: socket 1 is
    closing from the start. *)
Definition demo_rejected : state :=
  on_connection demo_verify
    {| req_url_ok := true; req_token := None; req_ip := "203.0.113.7" |}
    "conn-2" demo_open.


Lemma socket_not_open_witness :
  ∃ k', sockets (step demo_verify (EBroadcast (PText "hello") [] None) demo_rejected)
          !! 1%nat = Some k'
        ∧ sent k' = [].
Proof.
  destruct (socket_not_open_is_never_written demo_verify
              (EBroadcast (PText "hello") [] None) demo_rejected 1%nat
              {| readyState := RS_CLOSING; sent := []; pings := 0;
                 closeCode := Some (4002, "Invalid connection URL"%string);
                 listening := false |})
    as (k' & Hk' & Hsent & _).
  - unfold demo_rejected, demo_open.
    apply inv_on_connection, inv_on_connection, inv_init.
  - vm_compute. reflexivity.
  - discriminate.
  - exists k'. split; [exact Hk'|exact Hsent].
Defined.

(** *** Ping intervals belong to registered channels *)

(** The tables that sending leaves alone. *)
Definition tables (s : state) :=
  (clients s, connectionTimeouts s, pingIntervals s, timers s, next_ws s, next_timer s).

(** Every armed ping interval is the one recorded for its socket, and a
    socket with a recorded ping interval is registered. *)
Record owned (s : state) : Prop := {
  own_ping : ∀ tid t ws, timers s !! tid = Some t → kind t = PingIntervalK ws →
      pingIntervals s !! ws = Some tid;
  own_fresh : ∀ ws, (next_ws s ≤ ws)%nat → pingIntervals s !! ws = None;
  own_registered : ∀ ws, is_Some (pingIntervals s !! ws) → is_Some (clients s !! ws)
}.

Lemma owned_tables s s' : tables s' = tables s → owned s → owned s'.
Proof.
  unfold tables. intros [= E1 E2 E3 E4 E5 E6] [H1 H2 H3].
  split; rewrite ?E1, ?E3, ?E4, ?E5; done.
Qed.

Lemma owned_upd_socket c f s : owned s → owned (upd_socket c f s).
Proof. intros [H1 H2 H3]. by split. Qed.

Lemma tables_sendMessage ws f s : tables (sendMessage ws f s).1 = tables s.
Proof. unfold sendMessage. by destruct (ws_open s ws). Qed.

Lemma tables_handleMessage ws m s : tables (handleMessage ws m s) = tables s.
Proof.
  unfold handleMessage. destruct (clients s !! ws); [|done].
  destruct (in_data m) as [| |type id]; try apply tables_sendMessage.
  destruct (strict_eq type (JStr "PING")); [|apply tables_sendMessage].
  unfold handlePing.
  pose proof (tables_sendMessage ws (FPong (now s) (if truthy id then Some id else None)) s)
    as H.
  destruct (sendMessage ws _ s) as [s1 ok]. cbn in H. destruct ok; [done|].
  unfold sendError. by rewrite tables_sendMessage.
Qed.

Lemma tables_on_message ws m s : tables (on_message ws m s) = tables s.
Proof.
  unfold on_message. destruct (ws_listening s ws); [|done].
  destruct (_ <? _); [apply tables_sendMessage|apply tables_handleMessage].
Qed.

Lemma tables_fold (step : state → nat → state) (l : list nat) s :
  (∀ s c, tables (step s c) = tables s) → tables (fold_left step l s) = tables s.
Proof.
  intros Hst. revert s. induction l as [|c l IH]; intros s; cbn [fold_left]; [done|].
  by rewrite IH, Hst.
Qed.

Lemma owned_cleanupClient ws s : owned s → owned (cleanupClient ws s).
Proof.
  intros [H1 H2 H3].
  destruct (cleanupClient_fields ws s) as (Hc & Hp & Ht & Htm & _ & _ & _ & _ & Hw & _).
  split; rewrite ?Hc, ?Hp, ?Htm, ?Hw.
  - intros tid t ws' Hl Hk.
    assert (Hold : timers s !! tid = Some t).
    { destruct (connectionTimeouts s !! ws) as [a|], (pingIntervals s !! ws) as [b|];
        cbn in Hl; repeat (rewrite lookup_delete in Hl; case_decide; [done|]); done. }
    pose proof (H1 tid t ws' Hold Hk) as Hown.
    destruct (decide (ws' = ws)) as [->|Hne]; [|by rewrite lookup_delete_ne].
    exfalso. rewrite Hown in Hl.
    destruct (connectionTimeouts s !! ws) as [a|]; cbn in Hl.
    + rewrite lookup_delete in Hl. case_decide; [done|].
      by rewrite lookup_delete_eq in Hl.
    + by rewrite lookup_delete_eq in Hl.
  - intros ws' Hle. rewrite lookup_delete. case_decide; [done|]. by apply H2.
  - intros ws'. rewrite !lookup_delete. case_decide; [by intros [? ?]|]. apply H3.
Qed.

Lemma owned_fire_timer tid s : owned s → owned (fire_timer tid s).
Proof.
  intros [H1 H2 H3]. unfold fire_timer.
  destruct (timers s !! tid) as [t|] eqn:Ht; [|done].
  destruct (kind t) as [ws|ws] eqn:Hk.
  - assert (owned (clearTimer tid (set_now (Z.max (now s) (due t)) s))) as Ho.
    { split; cbn; try done. intros tid' t' ws'. rewrite lookup_delete.
      case_decide; [done|]. apply H1. }
    destruct (ws_open _ ws); [|done]. by apply owned_upd_socket.
  - set (s1 := set_timers _ _).
    assert (owned s1) as Ho.
    { split; cbn; try done. intros tid' t' ws'. rewrite lookup_insert.
      case_decide as E; [|apply H1]. subst tid'. intros [= <-]. cbn.
      intros Hk'. apply (H1 tid t ws' Ht). congruence. }
    destruct (ws_open s1 ws); [|done]. by apply owned_upd_socket.
Qed.

Lemma owned_cleanup s : owned s → owned (cleanup s).
Proof.
  intros [H1 H2 H3]. split.
  - intros tid t ws Hl Hk. exfalso.
    revert Hl. unfold cleanup. cbv zeta.
    destruct (fold_close_spec 1001 "Server shutting down" (wss_clients s) s) as [_ Hr1].
    set (s1 := fold_left _ (wss_clients s) s) in *. clearbody s1.
    destruct (fold_clear_spec (map_to_list (pingIntervals s1)).*2 s1) as [Hs2 _].
    set (s2 := fold_left _ (map_to_list (pingIntervals s1)).*2 s1) in *. clearbody s2.
    destruct (fold_clear_spec (map_to_list (connectionTimeouts s2)).*2 s2) as [Hs3 _].
    set (s3 := fold_left _ (map_to_list (connectionTimeouts s2)).*2 s2) in *. clearbody s3.
    apply (f_equal pingIntervals) in Hr1 as Ea. apply (f_equal timers) in Hr1 as Eb.
    cbn in Ea, Eb. cbn. rewrite Hs3. case_bool_decide; [done|].
    rewrite Hs2, Ea, Eb. case_bool_decide as E; [done|]. intros Hl.
    apply E, list_elem_of_fmap. exists (ws, tid). split; [done|].
    apply elem_of_map_to_list. by apply (H1 tid t).
  - intros ws _. unfold cleanup. cbn. apply lookup_empty.
  - intros ws. unfold cleanup. cbn. rewrite lookup_empty. by intros [? ?].
Qed.

Lemma owned_on_connection jwt_verify req uuid s :
  inv s → owned s → owned (on_connection jwt_verify req uuid s).
Proof.
  intros [I1 I2 I3 I4 I5] [H1 H2 H3]. unfold on_connection.
  pose proof (I3 (next_timer s) ltac:(done)) as Htm.
  pose proof (H2 (next_ws s) ltac:(done)) as Hpi.
  destruct s as [nw sk wc cl ct pi tm nt nws nr]; cbn in *.
  unfold setTimer, clearTimer, upd_socket, sendMessage, ws_open in *; cbn in *.
  rewrite lookup_insert_eq. cbn.
  assert (Hreject : ∀ sk' : gmap nat socket,
    owned {| now := nw; sockets := sk'; wss_clients := wc ++ [nws]; clients := cl;
             connectionTimeouts := <[nws:=nt]> ct; pingIntervals := pi;
             timers := <[nt:={| due := nw + CONNECTION_TIMEOUT;
                                kind := ConnectionTimeoutK nws |}]> tm;
             next_timer := S nt; next_ws := S nws; next_ref := nr |}).
  { intros sk'. split; cbn.
    - intros tid t ws. rewrite lookup_insert. case_decide; [by intros [= <-]|]. apply H1.
    - intros ws Hle. apply H2. lia.
    - done. }
  destruct (extract_token req) as [token|]; [|apply Hreject].
  destruct (jwt_verify token) as [uid|]; [|apply Hreject].
  split; cbn.
  - intros tid t ws. rewrite lookup_insert. case_decide as E.
    + subst tid. intros [= <-]. cbn. intros [= <-]. by rewrite lookup_insert_eq.
    + rewrite lookup_delete. case_decide as E'; [done|].
      rewrite lookup_insert_ne by done. intros Ht Hk.
      pose proof (H1 tid t ws Ht Hk) as Hown.
      rewrite lookup_insert_ne; [done|]. intros <-. congruence.
  - intros ws Hle. rewrite lookup_insert_ne by lia. apply H2. lia.
  - intros ws. rewrite !lookup_insert. case_decide; [by eexists|]. apply H3.
Qed.

Lemma owned_step jwt_verify ev s : inv s → owned s → owned (step jwt_verify ev s).
Proof.
  intros Hi Ho. destruct ev as [req uuid|c m|c|c|c|tid|p ex inc|uid p|]; cbn [step].
  - by apply owned_on_connection.
  - by apply (owned_tables _ _ (tables_on_message c m s)).
  - done.
  - unfold on_close.
    assert (owned (set_wss_clients
                     (List.filter (fun w => negb (Nat.eqb w c)) (wss_clients s))
                     (upd_socket c ws_closed s))) as H.
    { destruct (owned_upd_socket c ws_closed s Ho) as [H1 H2 H3]. by split. }
    destruct (ws_listening s c); [by apply owned_cleanupClient|done].
  - unfold on_error. destruct (ws_listening s c); [by apply owned_cleanupClient|done].
  - by apply owned_fire_timer.
  - refine (owned_tables _ _ _ Ho). unfold broadcast. cbv zeta.
    rewrite tables_fold; [done|]. intros s0 c0. by destruct (_ && _).
  - refine (owned_tables _ _ _ Ho). unfold sendToUser.
    rewrite tables_fold; [done|]. intros s0 c0. by destruct (_ && _).
  - by apply owned_cleanup.
Qed.

Lemma reachable_owned jwt_verify s : reachable jwt_verify s → owned s.
Proof.
  induction 1 as [|ev s Hr IH].
  - split; cbn; try done. intros ws. rewrite lookup_empty. by intros [? ?].
  - apply owned_step; [by apply (reachable_inv jwt_verify)|done].
Qed.

(** X10: in every state the server can reach, every armed ping interval
    is the one recorded in [pingIntervals] for its socket, and that socket
    is registered in [clients]: protocol pings go to registered channels
    only, and no ping interval outlives its table entry. *)
Theorem ping_intervals_belong_to_registered_channels
    (jwt_verify : string → option jsval) s tid t ws :
  reachable jwt_verify s →
  timers s !! tid = Some t →
  kind t = PingIntervalK ws →
  pingIntervals s !! ws = Some tid ∧ is_Some (clients s !! ws).
Proof.
  intros Hr Ht Hk. destruct (reachable_owned jwt_verify s Hr) as [H1 _ H3].
  pose proof (H1 tid t ws Ht Hk) as Hp. split; [done|]. apply H3. by eexists.
Qed.

Lemma ping_intervals_witness :
  pingIntervals demo_open !! 0%nat = Some 2%nat ∧ is_Some (clients demo_open !! 0%nat).
Proof.
  apply (ping_intervals_belong_to_registered_channels demo_verify demo_open 2%nat
           {| due := 30000; kind := PingIntervalK 0 |} 0%nat).
  - exact (reach_step demo_verify (EConnection (demo_request "valid") "conn-1") init
             (reach_init demo_verify)).
  - vm_compute. reflexivity.
  - reflexivity.
Defined.

(** X11: when a socket with handlers attached closes, or raises an error,
    its ping interval is stopped for good: in the state that follows no
    ping interval for that socket is armed, and the socket is in none of
    the tables. *)
Theorem closing_a_channel_stops_its_pings
    (jwt_verify : string → option jsval) s ws :
  reachable jwt_verify s →
  ws_listening s ws = true →
  ∀ s', s' = on_close ws s ∨ s' = on_error ws s →
    (∀ tid t, timers s' !! tid = Some t → kind t ≠ PingIntervalK ws)
    ∧ clients s' !! ws = None
    ∧ pingIntervals s' !! ws = None
    ∧ connectionTimeouts s' !! ws = None.
Proof.
  intros Hr Hl s' Hs'.
  pose proof (reachable_inv jwt_verify s Hr) as Hi.
  pose proof (reachable_owned jwt_verify s Hr) as Ho0.
  assert (Ho : owned s').
  { destruct Hs' as [-> | ->].
    - by apply (owned_step jwt_verify (EClose ws)).
    - by apply (owned_step jwt_verify (EError ws)). }
  assert (Hf : clients s' !! ws = None ∧ pingIntervals s' !! ws = None
               ∧ connectionTimeouts s' !! ws = None).
  { destruct Hs' as [-> | ->].
    - unfold on_close. rewrite Hl.
      set (s1 := set_wss_clients _ _).
      destruct (cleanupClient_fields ws s1) as (Hc & Hp & Ht & _).
      rewrite Hc, Hp, Ht. by rewrite !lookup_delete_eq.
    - unfold on_error. rewrite Hl.
      destruct (cleanupClient_fields ws s) as (Hc & Hp & Ht & _).
      rewrite Hc, Hp, Ht. by rewrite !lookup_delete_eq. }
  destruct Hf as (Hc & Hp & Ht). split_and!; try done.
  intros tid t Htm Hk. pose proof (own_ping s' Ho tid t ws Htm Hk) as H. congruence.
Qed.

Lemma closing_a_channel_witness :
  pingIntervals (on_close 0 demo_open) !! 0%nat = None.
Proof.
  refine (proj1 (proj2 (proj2 (closing_a_channel_stops_its_pings demo_verify demo_open
                                 0%nat _ _ (on_close 0 demo_open) (or_introl eq_refl))))).
  - exact (reach_step demo_verify (EConnection (demo_request "valid") "conn-1") init
             (reach_init demo_verify)).
  - vm_compute. reflexivity.
Defined.

End Server.

(** ** The client of src/unnamed/part_006: component [WebSocketProvider] *)

Module Provider.

(** [WS_CONFIG] *)
Definition MAX_RECONNECT_ATTEMPTS : nat := 10.
Definition RECONNECT_BASE_DELAY : Z := 1000.
Definition MAX_RECONNECT_DELAY : Z := 30000.
Definition HEARTBEAT_INTERVAL : Z := 15000.
Definition CONNECTION_TIMEOUT : Z := 10000.
Definition PONG_TIMEOUT : Z := 10000.
Definition MAX_QUEUE_SIZE : nat := 100.

(** [WS_STATUS] *)
Inductive ws_status := CONNECTING | CONNECTED | DISCONNECTED | RECONNECTING | ERROR.

Definition status_eqb (a b : ws_status) : bool :=
  match a, b with
  | CONNECTING, CONNECTING | CONNECTED, CONNECTED | DISCONNECTED, DISCONNECTED
  | RECONNECTING, RECONNECTING | ERROR, ERROR => true
  | _, _ => false
  end.

(** [CLOSE_CODES], the three the component uses. *)
Definition NORMAL_CLOSURE : Z := 1000.
Definition GOING_AWAY : Z := 1001.
Definition CLOSE_CONNECTION_TIMEOUT : Z := 4008.

(** What a [useCallback] closure sees of the render that created it: the
    [socket] and [connectionStatus] state, and whether
    [isAuthenticated && token] holds. *)
Record env := {
  env_socket : option nat;
  env_status : ws_status;
  env_auth : bool
}.

(** A browser [WebSocket].  [sent] are the objects given to
    [JSON.stringify] and [send]; [closed_with] is the code and reason given
    to [close]; [handlers] is the closure environment of the four [on...]
    handlers, [None] once they are set to [null]. *)
Record websocket := {
  readyState : ready_state;
  sent : list jsobj;
  closed_with : option (Z * string);
  handlers : option env
}.

(** An entry of [pendingPings]: [{ timestamp, resolve }].  [p_timeout] is
    the timer [resolve] clears, [p_env] the closure awaiting the promise.
    [p_has_reject] tells whether the object has a [reject] property. *)
Record probe := {
  p_timestamp : Z;
  p_timeout : nat;
  p_env : env;
  p_has_reject : bool
}.

(** An entry of [messageQueue]; [q_message] is [None] when the [message]
    property is not an object. *)
Record qentry := {
  q_id : string;
  q_message : option jsobj;
  q_timestamp : Z;
  q_retryCount : nat
}.

Record log_entry := { log_id : string; log_type : string; log_message : string }.

Inductive timer_kind :=
| HeartbeatK (e : env)                    (* [setInterval] of [startHeartbeat] *)
| PongTimeoutK (e : env) (pingId : string) (* [setTimeout] of [sendPing] *)
| ReconnectK (e : env)                    (* [setTimeout] of [handleReconnect] *)
| ConnectionTimeoutK (e : env) (sk : nat) (* [setTimeout] of [connect] *)
| DrainK (e : env).                       (* [setTimeout(processMessageQueue, 100)] *)

Record timer := { due : Z; kind : timer_kind }.

(** React state ([socket] to [logs]), refs ([reconnectAttempts] to
    [isExplicitDisconnect]) and the browser around them. *)
Record state := {
  socket : option nat;
  connectionStatus : ws_status;
  lastError : option string;
  logs : list log_entry;
  reconnectAttempts : nat;
  reconnectTimeout : option nat;
  messageQueue : list qentry;
  heartbeatInterval : option nat;
  pongTimeout : option nat;
  connectionTimeout : option nat;
  isMounted : bool;
  pendingPings : list (string * probe);
  reconnectBackoff : Z;
  lastActivity : Z;
  isExplicitDisconnect : bool;
  now : Z;
  timers : gmap nat timer;
  next_timer : nat;
  sockets : gmap nat websocket;
  next_socket : nat;
  uuid_count : nat;        (* calls of [uuidv4()] so far *)
  random_count : nat;      (* calls of [Math.random()] so far *)
  constructions : nat;     (* calls of [new WebSocket(...)] so far *)
  rejected : list string   (* probes whose [reject] was called *)
}.

Definition set_socket (v : option nat) (s : state) : state :=
  {| socket := v; connectionStatus := connectionStatus s; lastError := lastError s; logs
     := logs s; reconnectAttempts := reconnectAttempts s; reconnectTimeout :=
     reconnectTimeout s; messageQueue := messageQueue s; heartbeatInterval :=
     heartbeatInterval s; pongTimeout := pongTimeout s; connectionTimeout :=
     connectionTimeout s; isMounted := isMounted s; pendingPings := pendingPings s;
     reconnectBackoff := reconnectBackoff s; lastActivity := lastActivity s;
     isExplicitDisconnect := isExplicitDisconnect s; now := now s; timers := timers s;
     next_timer := next_timer s; sockets := sockets s; next_socket := next_socket s;
     uuid_count := uuid_count s; random_count := random_count s; constructions :=
     constructions s; rejected := rejected s |}.

Definition set_connectionStatus (v : ws_status) (s : state) : state :=
  {| socket := socket s; connectionStatus := v; lastError := lastError s; logs := logs
     s; reconnectAttempts := reconnectAttempts s; reconnectTimeout := reconnectTimeout
     s; messageQueue := messageQueue s; heartbeatInterval := heartbeatInterval s;
     pongTimeout := pongTimeout s; connectionTimeout := connectionTimeout s; isMounted
     := isMounted s; pendingPings := pendingPings s; reconnectBackoff :=
     reconnectBackoff s; lastActivity := lastActivity s; isExplicitDisconnect :=
     isExplicitDisconnect s; now := now s; timers := timers s; next_timer := next_timer
     s; sockets := sockets s; next_socket := next_socket s; uuid_count := uuid_count s;
     random_count := random_count s; constructions := constructions s; rejected :=
     rejected s |}.

Definition set_lastError (v : option string) (s : state) : state :=
  {| socket := socket s; connectionStatus := connectionStatus s; lastError := v; logs :=
     logs s; reconnectAttempts := reconnectAttempts s; reconnectTimeout :=
     reconnectTimeout s; messageQueue := messageQueue s; heartbeatInterval :=
     heartbeatInterval s; pongTimeout := pongTimeout s; connectionTimeout :=
     connectionTimeout s; isMounted := isMounted s; pendingPings := pendingPings s;
     reconnectBackoff := reconnectBackoff s; lastActivity := lastActivity s;
     isExplicitDisconnect := isExplicitDisconnect s; now := now s; timers := timers s;
     next_timer := next_timer s; sockets := sockets s; next_socket := next_socket s;
     uuid_count := uuid_count s; random_count := random_count s; constructions :=
     constructions s; rejected := rejected s |}.

Definition set_logs (v : list log_entry) (s : state) : state :=
  {| socket := socket s; connectionStatus := connectionStatus s; lastError := lastError
     s; logs := v; reconnectAttempts := reconnectAttempts s; reconnectTimeout :=
     reconnectTimeout s; messageQueue := messageQueue s; heartbeatInterval :=
     heartbeatInterval s; pongTimeout := pongTimeout s; connectionTimeout :=
     connectionTimeout s; isMounted := isMounted s; pendingPings := pendingPings s;
     reconnectBackoff := reconnectBackoff s; lastActivity := lastActivity s;
     isExplicitDisconnect := isExplicitDisconnect s; now := now s; timers := timers s;
     next_timer := next_timer s; sockets := sockets s; next_socket := next_socket s;
     uuid_count := uuid_count s; random_count := random_count s; constructions :=
     constructions s; rejected := rejected s |}.

Definition set_reconnectAttempts (v : nat) (s : state) : state :=
  {| socket := socket s; connectionStatus := connectionStatus s; lastError := lastError
     s; logs := logs s; reconnectAttempts := v; reconnectTimeout := reconnectTimeout s;
     messageQueue := messageQueue s; heartbeatInterval := heartbeatInterval s;
     pongTimeout := pongTimeout s; connectionTimeout := connectionTimeout s; isMounted
     := isMounted s; pendingPings := pendingPings s; reconnectBackoff :=
     reconnectBackoff s; lastActivity := lastActivity s; isExplicitDisconnect :=
     isExplicitDisconnect s; now := now s; timers := timers s; next_timer := next_timer
     s; sockets := sockets s; next_socket := next_socket s; uuid_count := uuid_count s;
     random_count := random_count s; constructions := constructions s; rejected :=
     rejected s |}.

Definition set_reconnectTimeout (v : option nat) (s : state) : state :=
  {| socket := socket s; connectionStatus := connectionStatus s; lastError := lastError
     s; logs := logs s; reconnectAttempts := reconnectAttempts s; reconnectTimeout := v;
     messageQueue := messageQueue s; heartbeatInterval := heartbeatInterval s;
     pongTimeout := pongTimeout s; connectionTimeout := connectionTimeout s; isMounted
     := isMounted s; pendingPings := pendingPings s; reconnectBackoff :=
     reconnectBackoff s; lastActivity := lastActivity s; isExplicitDisconnect :=
     isExplicitDisconnect s; now := now s; timers := timers s; next_timer := next_timer
     s; sockets := sockets s; next_socket := next_socket s; uuid_count := uuid_count s;
     random_count := random_count s; constructions := constructions s; rejected :=
     rejected s |}.

Definition set_messageQueue (v : list qentry) (s : state) : state :=
  {| socket := socket s; connectionStatus := connectionStatus s; lastError := lastError
     s; logs := logs s; reconnectAttempts := reconnectAttempts s; reconnectTimeout :=
     reconnectTimeout s; messageQueue := v; heartbeatInterval := heartbeatInterval s;
     pongTimeout := pongTimeout s; connectionTimeout := connectionTimeout s; isMounted
     := isMounted s; pendingPings := pendingPings s; reconnectBackoff :=
     reconnectBackoff s; lastActivity := lastActivity s; isExplicitDisconnect :=
     isExplicitDisconnect s; now := now s; timers := timers s; next_timer := next_timer
     s; sockets := sockets s; next_socket := next_socket s; uuid_count := uuid_count s;
     random_count := random_count s; constructions := constructions s; rejected :=
     rejected s |}.

Definition set_heartbeatInterval (v : option nat) (s : state) : state :=
  {| socket := socket s; connectionStatus := connectionStatus s; lastError := lastError
     s; logs := logs s; reconnectAttempts := reconnectAttempts s; reconnectTimeout :=
     reconnectTimeout s; messageQueue := messageQueue s; heartbeatInterval := v;
     pongTimeout := pongTimeout s; connectionTimeout := connectionTimeout s; isMounted
     := isMounted s; pendingPings := pendingPings s; reconnectBackoff :=
     reconnectBackoff s; lastActivity := lastActivity s; isExplicitDisconnect :=
     isExplicitDisconnect s; now := now s; timers := timers s; next_timer := next_timer
     s; sockets := sockets s; next_socket := next_socket s; uuid_count := uuid_count s;
     random_count := random_count s; constructions := constructions s; rejected :=
     rejected s |}.

Definition set_pongTimeout (v : option nat) (s : state) : state :=
  {| socket := socket s; connectionStatus := connectionStatus s; lastError := lastError
     s; logs := logs s; reconnectAttempts := reconnectAttempts s; reconnectTimeout :=
     reconnectTimeout s; messageQueue := messageQueue s; heartbeatInterval :=
     heartbeatInterval s; pongTimeout := v; connectionTimeout := connectionTimeout s;
     isMounted := isMounted s; pendingPings := pendingPings s; reconnectBackoff :=
     reconnectBackoff s; lastActivity := lastActivity s; isExplicitDisconnect :=
     isExplicitDisconnect s; now := now s; timers := timers s; next_timer := next_timer
     s; sockets := sockets s; next_socket := next_socket s; uuid_count := uuid_count s;
     random_count := random_count s; constructions := constructions s; rejected :=
     rejected s |}.

Definition set_connectionTimeout (v : option nat) (s : state) : state :=
  {| socket := socket s; connectionStatus := connectionStatus s; lastError := lastError
     s; logs := logs s; reconnectAttempts := reconnectAttempts s; reconnectTimeout :=
     reconnectTimeout s; messageQueue := messageQueue s; heartbeatInterval :=
     heartbeatInterval s; pongTimeout := pongTimeout s; connectionTimeout := v;
     isMounted := isMounted s; pendingPings := pendingPings s; reconnectBackoff :=
     reconnectBackoff s; lastActivity := lastActivity s; isExplicitDisconnect :=
     isExplicitDisconnect s; now := now s; timers := timers s; next_timer := next_timer
     s; sockets := sockets s; next_socket := next_socket s; uuid_count := uuid_count s;
     random_count := random_count s; constructions := constructions s; rejected :=
     rejected s |}.

Definition set_isMounted (v : bool) (s : state) : state :=
  {| socket := socket s; connectionStatus := connectionStatus s; lastError := lastError
     s; logs := logs s; reconnectAttempts := reconnectAttempts s; reconnectTimeout :=
     reconnectTimeout s; messageQueue := messageQueue s; heartbeatInterval :=
     heartbeatInterval s; pongTimeout := pongTimeout s; connectionTimeout :=
     connectionTimeout s; isMounted := v; pendingPings := pendingPings s;
     reconnectBackoff := reconnectBackoff s; lastActivity := lastActivity s;
     isExplicitDisconnect := isExplicitDisconnect s; now := now s; timers := timers s;
     next_timer := next_timer s; sockets := sockets s; next_socket := next_socket s;
     uuid_count := uuid_count s; random_count := random_count s; constructions :=
     constructions s; rejected := rejected s |}.

Definition set_pendingPings (v : list (string * probe)) (s : state) : state :=
  {| socket := socket s; connectionStatus := connectionStatus s; lastError := lastError
     s; logs := logs s; reconnectAttempts := reconnectAttempts s; reconnectTimeout :=
     reconnectTimeout s; messageQueue := messageQueue s; heartbeatInterval :=
     heartbeatInterval s; pongTimeout := pongTimeout s; connectionTimeout :=
     connectionTimeout s; isMounted := isMounted s; pendingPings := v; reconnectBackoff
     := reconnectBackoff s; lastActivity := lastActivity s; isExplicitDisconnect :=
     isExplicitDisconnect s; now := now s; timers := timers s; next_timer := next_timer
     s; sockets := sockets s; next_socket := next_socket s; uuid_count := uuid_count s;
     random_count := random_count s; constructions := constructions s; rejected :=
     rejected s |}.

Definition set_reconnectBackoff (v : Z) (s : state) : state :=
  {| socket := socket s; connectionStatus := connectionStatus s; lastError := lastError
     s; logs := logs s; reconnectAttempts := reconnectAttempts s; reconnectTimeout :=
     reconnectTimeout s; messageQueue := messageQueue s; heartbeatInterval :=
     heartbeatInterval s; pongTimeout := pongTimeout s; connectionTimeout :=
     connectionTimeout s; isMounted := isMounted s; pendingPings := pendingPings s;
     reconnectBackoff := v; lastActivity := lastActivity s; isExplicitDisconnect :=
     isExplicitDisconnect s; now := now s; timers := timers s; next_timer := next_timer
     s; sockets := sockets s; next_socket := next_socket s; uuid_count := uuid_count s;
     random_count := random_count s; constructions := constructions s; rejected :=
     rejected s |}.

Definition set_lastActivity (v : Z) (s : state) : state :=
  {| socket := socket s; connectionStatus := connectionStatus s; lastError := lastError
     s; logs := logs s; reconnectAttempts := reconnectAttempts s; reconnectTimeout :=
     reconnectTimeout s; messageQueue := messageQueue s; heartbeatInterval :=
     heartbeatInterval s; pongTimeout := pongTimeout s; connectionTimeout :=
     connectionTimeout s; isMounted := isMounted s; pendingPings := pendingPings s;
     reconnectBackoff := reconnectBackoff s; lastActivity := v; isExplicitDisconnect :=
     isExplicitDisconnect s; now := now s; timers := timers s; next_timer := next_timer
     s; sockets := sockets s; next_socket := next_socket s; uuid_count := uuid_count s;
     random_count := random_count s; constructions := constructions s; rejected :=
     rejected s |}.

Definition set_isExplicitDisconnect (v : bool) (s : state) : state :=
  {| socket := socket s; connectionStatus := connectionStatus s; lastError := lastError
     s; logs := logs s; reconnectAttempts := reconnectAttempts s; reconnectTimeout :=
     reconnectTimeout s; messageQueue := messageQueue s; heartbeatInterval :=
     heartbeatInterval s; pongTimeout := pongTimeout s; connectionTimeout :=
     connectionTimeout s; isMounted := isMounted s; pendingPings := pendingPings s;
     reconnectBackoff := reconnectBackoff s; lastActivity := lastActivity s;
     isExplicitDisconnect := v; now := now s; timers := timers s; next_timer :=
     next_timer s; sockets := sockets s; next_socket := next_socket s; uuid_count :=
     uuid_count s; random_count := random_count s; constructions := constructions s;
     rejected := rejected s |}.

Definition set_now (v : Z) (s : state) : state :=
  {| socket := socket s; connectionStatus := connectionStatus s; lastError := lastError
     s; logs := logs s; reconnectAttempts := reconnectAttempts s; reconnectTimeout :=
     reconnectTimeout s; messageQueue := messageQueue s; heartbeatInterval :=
     heartbeatInterval s; pongTimeout := pongTimeout s; connectionTimeout :=
     connectionTimeout s; isMounted := isMounted s; pendingPings := pendingPings s;
     reconnectBackoff := reconnectBackoff s; lastActivity := lastActivity s;
     isExplicitDisconnect := isExplicitDisconnect s; now := v; timers := timers s;
     next_timer := next_timer s; sockets := sockets s; next_socket := next_socket s;
     uuid_count := uuid_count s; random_count := random_count s; constructions :=
     constructions s; rejected := rejected s |}.

Definition set_timers (v : gmap nat timer) (s : state) : state :=
  {| socket := socket s; connectionStatus := connectionStatus s; lastError := lastError
     s; logs := logs s; reconnectAttempts := reconnectAttempts s; reconnectTimeout :=
     reconnectTimeout s; messageQueue := messageQueue s; heartbeatInterval :=
     heartbeatInterval s; pongTimeout := pongTimeout s; connectionTimeout :=
     connectionTimeout s; isMounted := isMounted s; pendingPings := pendingPings s;
     reconnectBackoff := reconnectBackoff s; lastActivity := lastActivity s;
     isExplicitDisconnect := isExplicitDisconnect s; now := now s; timers := v;
     next_timer := next_timer s; sockets := sockets s; next_socket := next_socket s;
     uuid_count := uuid_count s; random_count := random_count s; constructions :=
     constructions s; rejected := rejected s |}.

Definition set_next_timer (v : nat) (s : state) : state :=
  {| socket := socket s; connectionStatus := connectionStatus s; lastError := lastError
     s; logs := logs s; reconnectAttempts := reconnectAttempts s; reconnectTimeout :=
     reconnectTimeout s; messageQueue := messageQueue s; heartbeatInterval :=
     heartbeatInterval s; pongTimeout := pongTimeout s; connectionTimeout :=
     connectionTimeout s; isMounted := isMounted s; pendingPings := pendingPings s;
     reconnectBackoff := reconnectBackoff s; lastActivity := lastActivity s;
     isExplicitDisconnect := isExplicitDisconnect s; now := now s; timers := timers s;
     next_timer := v; sockets := sockets s; next_socket := next_socket s; uuid_count :=
     uuid_count s; random_count := random_count s; constructions := constructions s;
     rejected := rejected s |}.

Definition set_sockets (v : gmap nat websocket) (s : state) : state :=
  {| socket := socket s; connectionStatus := connectionStatus s; lastError := lastError
     s; logs := logs s; reconnectAttempts := reconnectAttempts s; reconnectTimeout :=
     reconnectTimeout s; messageQueue := messageQueue s; heartbeatInterval :=
     heartbeatInterval s; pongTimeout := pongTimeout s; connectionTimeout :=
     connectionTimeout s; isMounted := isMounted s; pendingPings := pendingPings s;
     reconnectBackoff := reconnectBackoff s; lastActivity := lastActivity s;
     isExplicitDisconnect := isExplicitDisconnect s; now := now s; timers := timers s;
     next_timer := next_timer s; sockets := v; next_socket := next_socket s; uuid_count
     := uuid_count s; random_count := random_count s; constructions := constructions s;
     rejected := rejected s |}.

Definition set_next_socket (v : nat) (s : state) : state :=
  {| socket := socket s; connectionStatus := connectionStatus s; lastError := lastError
     s; logs := logs s; reconnectAttempts := reconnectAttempts s; reconnectTimeout :=
     reconnectTimeout s; messageQueue := messageQueue s; heartbeatInterval :=
     heartbeatInterval s; pongTimeout := pongTimeout s; connectionTimeout :=
     connectionTimeout s; isMounted := isMounted s; pendingPings := pendingPings s;
     reconnectBackoff := reconnectBackoff s; lastActivity := lastActivity s;
     isExplicitDisconnect := isExplicitDisconnect s; now := now s; timers := timers s;
     next_timer := next_timer s; sockets := sockets s; next_socket := v; uuid_count :=
     uuid_count s; random_count := random_count s; constructions := constructions s;
     rejected := rejected s |}.

Definition set_uuid_count (v : nat) (s : state) : state :=
  {| socket := socket s; connectionStatus := connectionStatus s; lastError := lastError
     s; logs := logs s; reconnectAttempts := reconnectAttempts s; reconnectTimeout :=
     reconnectTimeout s; messageQueue := messageQueue s; heartbeatInterval :=
     heartbeatInterval s; pongTimeout := pongTimeout s; connectionTimeout :=
     connectionTimeout s; isMounted := isMounted s; pendingPings := pendingPings s;
     reconnectBackoff := reconnectBackoff s; lastActivity := lastActivity s;
     isExplicitDisconnect := isExplicitDisconnect s; now := now s; timers := timers s;
     next_timer := next_timer s; sockets := sockets s; next_socket := next_socket s;
     uuid_count := v; random_count := random_count s; constructions := constructions s;
     rejected := rejected s |}.

Definition set_random_count (v : nat) (s : state) : state :=
  {| socket := socket s; connectionStatus := connectionStatus s; lastError := lastError
     s; logs := logs s; reconnectAttempts := reconnectAttempts s; reconnectTimeout :=
     reconnectTimeout s; messageQueue := messageQueue s; heartbeatInterval :=
     heartbeatInterval s; pongTimeout := pongTimeout s; connectionTimeout :=
     connectionTimeout s; isMounted := isMounted s; pendingPings := pendingPings s;
     reconnectBackoff := reconnectBackoff s; lastActivity := lastActivity s;
     isExplicitDisconnect := isExplicitDisconnect s; now := now s; timers := timers s;
     next_timer := next_timer s; sockets := sockets s; next_socket := next_socket s;
     uuid_count := uuid_count s; random_count := v; constructions := constructions s;
     rejected := rejected s |}.

Definition set_constructions (v : nat) (s : state) : state :=
  {| socket := socket s; connectionStatus := connectionStatus s; lastError := lastError
     s; logs := logs s; reconnectAttempts := reconnectAttempts s; reconnectTimeout :=
     reconnectTimeout s; messageQueue := messageQueue s; heartbeatInterval :=
     heartbeatInterval s; pongTimeout := pongTimeout s; connectionTimeout :=
     connectionTimeout s; isMounted := isMounted s; pendingPings := pendingPings s;
     reconnectBackoff := reconnectBackoff s; lastActivity := lastActivity s;
     isExplicitDisconnect := isExplicitDisconnect s; now := now s; timers := timers s;
     next_timer := next_timer s; sockets := sockets s; next_socket := next_socket s;
     uuid_count := uuid_count s; random_count := random_count s; constructions := v;
     rejected := rejected s |}.

Definition set_rejected (v : list string) (s : state) : state :=
  {| socket := socket s; connectionStatus := connectionStatus s; lastError := lastError
     s; logs := logs s; reconnectAttempts := reconnectAttempts s; reconnectTimeout :=
     reconnectTimeout s; messageQueue := messageQueue s; heartbeatInterval :=
     heartbeatInterval s; pongTimeout := pongTimeout s; connectionTimeout :=
     connectionTimeout s; isMounted := isMounted s; pendingPings := pendingPings s;
     reconnectBackoff := reconnectBackoff s; lastActivity := lastActivity s;
     isExplicitDisconnect := isExplicitDisconnect s; now := now s; timers := timers s;
     next_timer := next_timer s; sockets := sockets s; next_socket := next_socket s;
     uuid_count := uuid_count s; random_count := random_count s; constructions :=
     constructions s; rejected := v |}.

Definition init : state :=
  {| socket := None; connectionStatus := DISCONNECTED; lastError := None;
     logs := []; reconnectAttempts := 0; reconnectTimeout := None;
     messageQueue := []; heartbeatInterval := None; pongTimeout := None;
     connectionTimeout := None; isMounted := true; pendingPings := [];
     reconnectBackoff := RECONNECT_BASE_DELAY; lastActivity := 0;
     isExplicitDisconnect := false; now := 0; timers := ∅; next_timer := 1;
     sockets := ∅; next_socket := 0; uuid_count := 0; random_count := 0;
     constructions := 0; rejected := [] |}.

(** *** Browser primitives *)

Definition new_socket (e : env) : websocket :=
  {| readyState := RS_CONNECTING; sent := []; closed_with := None;
     handlers := Some e |}.

(** [socket.send(data)]: throws while connecting ([None]), writes when
    open, and is dropped without an error once closing or closed. *)
Definition sock_send (f : jsobj) (k : websocket) : option websocket :=
  match readyState k with
  | RS_CONNECTING => None
  | RS_OPEN =>
      Some {| readyState := RS_OPEN; sent := sent k ++ [f];
              closed_with := closed_with k; handlers := handlers k |}
  | _ => Some k
  end.

(** The arguments a browser accepts for [close]: the code 1000 or one from
    3000 to 4999, and a reason of at most 123 bytes. *)
Definition close_accepted (code : Z) (reason : string) : bool :=
  ((code =? 1000) || ((3000 <=? code) && (code <=? 4999)))
  && (String.length reason <=? 123)%nat.

(** What [close] does to the socket once its arguments are accepted. *)
Definition sock_closing (code : Z) (reason : string) (k : websocket) : websocket :=
  match readyState k with
  | RS_CONNECTING | RS_OPEN =>
      {| readyState := RS_CLOSING; sent := sent k;
         closed_with := Some (code, reason); handlers := handlers k |}
  | _ => k
  end.

(** [socket.close(code, reason)]: [None] when it throws (InvalidAccessError
    for the code, SyntaxError for the reason), before anything is done. *)
Definition sock_close (code : Z) (reason : string) (k : websocket) : option websocket :=
  if close_accepted code reason then Some (sock_closing code reason k) else None.

Definition sock_null_handlers (k : websocket) : websocket :=
  {| readyState := readyState k; sent := sent k; closed_with := closed_with k;
     handlers := None |}.

Definition sock_set_ready (r : ready_state) (k : websocket) : websocket :=
  {| readyState := r; sent := sent k; closed_with := closed_with k;
     handlers := handlers k |}.

Definition upd_socket (sk : nat) (f : websocket → websocket) (s : state) : state :=
  set_sockets (alter f sk (sockets s)) s.

(** [socket && socket.readyState === WebSocket.OPEN] for a captured socket *)
Definition socket_open (s : state) (o : option nat) : bool :=
  match o with
  | Some sk =>
      match sockets s !! sk with
      | Some k => is_open (readyState k)
      | None => false
      end
  | None => false
  end.

Definition setTimer (k : timer_kind) (delay : Z) (s : state) : nat * state :=
  let tid := next_timer s in
  (tid, set_next_timer (S tid)
          (set_timers (<[tid := {| due := now s + delay; kind := k |}]> (timers s)) s)).

Definition clearTimer (tid : nat) (s : state) : state :=
  set_timers (delete tid (timers s)) s.

(** [if (ref.current) { clearTimeout(ref.current); }]: timer handles are
    positive numbers, so a handle is truthy. *)
Definition clear_handle (h : option nat) (s : state) : state :=
  match h with
  | Some tid => clearTimer tid s
  | None => s
  end.

(** [socket.send(JSON.stringify(f))] on the captured socket; [None] when it
    throws ([socket] is [null], or still connecting). *)
Definition try_send (o : option nat) (f : jsobj) (s : state) : option state :=
  match o with
  | Some sk =>
      match sockets s !! sk with
      | Some k =>
          match sock_send f k with
          | Some k' => Some (set_sockets (<[sk := k']> (sockets s)) s)
          | None => None
          end
      | None => None
      end
  | None => None
  end.

(** [socket.close(code, reason)] on socket [sk]; [None] when it throws. *)
Definition try_close (sk : nat) (code : Z) (reason : string) (s : state) : option state :=
  match sockets s !! sk with
  | Some k =>
      match sock_close code reason k with
      | Some k' => Some (set_sockets (<[sk := k']> (sockets s)) s)
      | None => None
      end
  | None => None
  end.

(** [pendingPings] is a [Map]: insertion order, one entry per key. *)
Definition pp_has (id : string) (l : list (string * probe)) : bool :=
  existsb (fun x => String.eqb x.1 id) l.

Fixpoint pp_get (id : string) (l : list (string * probe)) : option probe :=
  match l with
  | [] => None
  | (k, p) :: l' => if String.eqb k id then Some p else pp_get id l'
  end.

Fixpoint pp_set (id : string) (p : probe) (l : list (string * probe))
    : list (string * probe) :=
  match l with
  | [] => [(id, p)]
  | (k, p') :: l' => if String.eqb k id then (k, p) :: l' else (k, p') :: pp_set id p l'
  end.

Definition pp_delete (id : string) (l : list (string * probe))
    : list (string * probe) :=
  List.filter (fun x => negb (String.eqb x.1 id)) l.

(** *** Backoff *)

(** JavaScript numbers are IEEE 754 doubles: a product or a sum is the
    exact result rounded to the nearest double, ties to the even
    significand.  The doubles are multiples of 2^-1074, so we round
    [x * 2^1074] to a multiple of [2^e], with [e] 52 bits below its leading
    bit, and 0 for the subnormal numbers.  Overflow to [Infinity] (from
    2^1024 on) is left out; the delays are far below it, or capped. *)
Definition round_half_even (q : Q) : Z :=
  let f := Qfloor q in
  match (q - inject_Z f ?= 1 # 2)%Q with
  | Lt => f
  | Eq => if Z.even f then f else f + 1
  | Gt => f + 1
  end.

Definition round_scaled (x : Q) : Z :=
  let e := Z.max (Z.log2 (Qfloor x) - 52) 0 in
  round_half_even (x / inject_Z (2 ^ e)) * 2 ^ e.

Definition to_double (x : Q) : Q :=
  (inject_Z (round_scaled (x * inject_Z (2 ^ 1074))) / inject_Z (2 ^ 1074))%Q.

(** [Math.min(reconnectBackoff.current * Math.pow(1.5, attempts), MAX_RECONNECT_DELAY)];
    [Math.pow] is taken to give the double nearest to the power.  The
    powers that [handleReconnect] gets to compute, up to 1.5^9, are
    doubles themselves. *)
Definition base_delay (backoff : Z) (attempts : nat) : Q :=
  Qmin (to_double (inject_Z backoff * to_double ((3 # 2) ^ Z.of_nat attempts)))
       (inject_Z MAX_RECONNECT_DELAY).

(** [Math.random() * 1000] *)
Definition jitter (rnd : Q) : Q := to_double (rnd * 1000).

(** [Math.floor(baseDelay + jitter)] *)
Definition reconnect_delay (backoff : Z) (attempts : nat) (rnd : Q) : Z :=
  Qfloor (to_double (base_delay backoff attempts + jitter rnd)).

(** The mean of the delay over equally likely values of [Math.random()]. *)
Definition total_delay (backoff : Z) (attempts : nat) (samples : list Q) : Z :=
  fold_right Z.add 0 (map (reconnect_delay backoff attempts) samples).

Definition expected_delay (backoff : Z) (attempts : nat) (samples : list Q) : Q :=
  (inject_Z (total_delay backoff attempts samples)
   / inject_Z (Z.of_nat (length samples)))%Q.

(** *** The component's callbacks *)

Inductive send_result :=
| Returned (b : bool)   (* the promise resolves to [b] *)
| Threw.                (* 'Message must be an object' *)

(** What [new URL(WS_CONFIG.WS_URL)] and [new WebSocket(url)] do in the
    [try] of [connect]: a socket is constructed, or one of them throws an
    error with this message. *)
Inductive construction :=
| Constructed
| ConstructorThrew (message : string).

Section Component.

(** [WS_CONFIG.DEBUG], the values [uuidv4()] and [Math.random()] return on
    their n-th call, [new Date(t).toISOString()], and the outcome of the
    n-th construction of a socket. *)
Variable DEBUG : bool.
Variable uuidv4 : nat → string.
Variable random : nat → Q.
Variable toISOString : Z → string.
Variable new_WebSocket : nat → construction.

Definition fresh_uuid (s : state) : string * state :=
  (uuidv4 (uuid_count s), set_uuid_count (S (uuid_count s)) s).

Definition fresh_random (s : state) : Q * state :=
  (random (random_count s), set_random_count (S (random_count s)) s).

(** [addLog(message, type)]: keeps the last 99 entries and the new one. *)
Definition addLog (message type : string) (s : state) : state :=
  if isMounted s then
    let '(u, s) := fresh_uuid s in
    set_logs (drop (length (logs s) - 99) (logs s)
              ++ [{| log_id := u; log_type := type; log_message := message |}]) s
  else s.

(** [debugLog(level, ...)]: the console aside, only levels error and warn
    reach the state, through [addLog]. *)
Definition debugLog (level message : string) (s : state) : state :=
  if DEBUG then
    if String.eqb level "error" || String.eqb level "warn"
    then addLog message level s else s
  else s.

(** [updateStatus(status, error)] *)
Definition updateStatus (status : ws_status) (error : option string) (s : state)
    : state :=
  if isMounted s then
    let s := set_connectionStatus status s in
    match error with
    | Some msg =>
        addLog (String.append "Error: "
                  (if String.eqb msg "" then "Unknown error occurred" else msg))
               "error" (set_lastError (Some msg) s)
    | None => s
    end
  else s.

(** The loop of [cleanupSocket] over [pendingPings.current.entries()]:
    [reject(new Error('Connection closed'))] then [delete(id)].  Calling a
    [reject] that is [undefined] throws a TypeError and leaves the loop:
    the third component is [true] and the entries not yet deleted stay. *)
Fixpoint reject_pending (ps : list (string * probe)) (rej : list string)
    : list (string * probe) * list string * bool :=
  match ps with
  | [] => ([], rej, false)
  | (id, p) :: rest =>
      if p_has_reject p then reject_pending rest (rej ++ [id])
      else (ps, rej, true)
  end.

(** [cleanupSocket()]; the boolean tells whether it threw. *)
Definition cleanupSocket (e : env) (s : state) : state * bool :=
  let s := match heartbeatInterval s with
           | Some h => set_heartbeatInterval None (clearTimer h s)
           | None => s
           end in
  let s := match pongTimeout s with
           | Some h => set_pongTimeout None (clearTimer h s)
           | None => s
           end in
  let s := match connectionTimeout s with
           | Some h => set_connectionTimeout None (clearTimer h s)
           | None => s
           end in
  let '(ps, rej, threw) := reject_pending (pendingPings s) (rejected s) in
  let s := set_rejected rej (set_pendingPings ps s) in
  if threw then (s, true)
  else
    (match env_socket e with
     | Some sk =>
         match (if socket_open s (Some sk)
                then try_close sk NORMAL_CLOSURE "Client disconnecting" s
                else Some s) with
         | Some s' => upd_socket sk sock_null_handlers s'
         | None => debugLog "error" "Error while cleaning up socket:" s
         end
     | None => s
     end, false).

(** [disconnect(permanent)] *)
Definition disconnect (e : env) (permanent : bool) (s : state) : state :=
  let s := if permanent then set_isExplicitDisconnect true s else s in
  let s := match reconnectTimeout s with
           | Some t => set_reconnectTimeout None (clearTimer t s)
           | None => s
           end in
  match env_socket e with
  | Some sk =>
      if socket_open s (Some sk) then
        match try_close sk (if permanent then NORMAL_CLOSURE else GOING_AWAY)
                (if permanent then "User disconnected" else "Temporary disconnect") s with
        | Some s' => s'
        | None => debugLog "error" "Error while disconnecting:" s
        end
      else
        let '(s', threw) := cleanupSocket e s in
        if threw then debugLog "error" "Error while disconnecting:" s'
        else updateStatus DISCONNECTED None s'
  | None => updateStatus DISCONNECTED None s
  end.

(** [handleReconnect()] *)
Definition handleReconnect (e : env) (s : state) : state :=
  if negb (isMounted s) then s
  else if status_eqb (env_status e) RECONNECTING
          || ((0 <? MAX_RECONNECT_ATTEMPTS)%nat
              && (MAX_RECONNECT_ATTEMPTS <=? reconnectAttempts s)%nat)
  then updateStatus ERROR (Some "Max reconnection attempts reached")
         (debugLog "warn" "Max reconnection attempts reached" s)
  else
    let '(rnd, s) := fresh_random s in
    let delay := reconnect_delay (reconnectBackoff s) (reconnectAttempts s) rnd in
    let s := set_reconnectAttempts (S (reconnectAttempts s)) s in
    let s := updateStatus RECONNECTING None s in
    let s := clear_handle (reconnectTimeout s) s in
    let '(tid, s) := setTimer (ReconnectK e) delay s in
    set_reconnectTimeout (Some tid) s.

Definition queued (u : string) (m : jsobj) (s : state) : qentry :=
  {| q_id := u; q_message := Some m; q_timestamp := now s; q_retryCount := 0 |}.

(** [{ ...message, id: uuidv4(), timestamp: new Date().toISOString() }] *)
Definition stamp (u : string) (ts : string) (m : jsobj) : jsobj :=
  obj_set "timestamp" (JStr ts) (obj_set "id" (JStr u) m).

(** [sendMessage(message, queueIfDisconnected)]; [message] is [None] for
    anything that is not an object. *)
Definition sendMessage (e : env) (message : option jsobj) (queueIfDisconnected : bool)
    (s : state) : state * send_result :=
  match message with
  | None => (s, Threw)
  | Some m =>
      if negb (status_eqb (env_status e) CONNECTED) then
        if queueIfDisconnected then
          if (length (messageQueue s) <? MAX_QUEUE_SIZE)%nat then
            let '(u, s) := fresh_uuid s in
            (set_messageQueue (messageQueue s ++ [queued u m s]) s, Returned true)
          else
            (debugLog "warn" "Message queue full, dropping message" s, Returned false)
        else
          (debugLog "warn"
             "Not connected and queueIfDisconnected is false, dropping message" s,
           Returned false)
      else
        let '(u, s1) := fresh_uuid s in
        match try_send (env_socket e) (stamp u (toISOString (now s1)) m) s1 with
        | Some s2 => (s2, Returned true)
        | None =>
            let s2 := debugLog "error" "Error sending message:" s1 in
            if queueIfDisconnected then
              let '(u', s3) := fresh_uuid s2 in
              (set_messageQueue (messageQueue s3 ++ [queued u' m s3]) s3, Returned true)
            else (s2, Returned false)
        end
  end.

(** One turn of the loop of [processMessageQueue]. *)
Definition drain_entry (e : env) (s : state) (q : qentry) : state :=
  let '(s', r) := sendMessage e (q_message q) false s in
  match r with
  | Returned _ => s'
  | Threw =>
      let s' := debugLog "warn" "Failed to send queued message, will retry" s' in
      set_messageQueue
        (messageQueue s' ++
           [{| q_id := q_id q; q_message := None; q_timestamp := now s';
               q_retryCount := S (q_retryCount q) |}]) s'
  end.

(** [processMessageQueue()] *)
Definition processMessageQueue (e : env) (s : state) : state :=
  if socket_open s (env_socket e) then
    let batch := take 10 (messageQueue s) in
    let s := set_messageQueue (drop 10 (messageQueue s)) s in
    let s := fold_left (drain_entry e) batch s in
    if (0 <? length (messageQueue s))%nat
    then (setTimer (DrainK e) 100 s).2 else s
  else s.

Definition ping_frame (pingId : string) (s : state) : jsobj :=
  [("type", JStr "PING"); ("id", JStr pingId); ("timestamp", JNum (now s))].

(** [sendPing()]: [Some b] when the promise is already resolved to [b] on
    return, [None] while the probe is pending. *)
Definition sendPing (e : env) (s : state) : state * option bool :=
  if socket_open s (env_socket e) then
    let '(pingId, s) := fresh_uuid s in
    let '(tid, s) := setTimer (PongTimeoutK e pingId) PONG_TIMEOUT s in
    let s := set_pendingPings
               (pp_set pingId {| p_timestamp := now s; p_timeout := tid;
                                 p_env := e; p_has_reject := false |}
                       (pendingPings s)) s in
    match try_send (env_socket e) (ping_frame pingId s) s with
    | Some s' => (s', None)
    | None =>
        (set_pendingPings (pp_delete pingId (pendingPings s)) (clearTimer tid s),
         Some false)
    end
  else (s, Some false).

(** [startHeartbeat()] *)
Definition startHeartbeat (e : env) (s : state) : state :=
  let s := clear_handle (heartbeatInterval s) s in
  let '(tid, s) := setTimer (HeartbeatK e) HEARTBEAT_INTERVAL s in
  set_heartbeatInterval (Some tid) s.

(** What follows [await sendPing()] once the promise is resolved to [false]. *)
Definition heartbeat_failed (e : env) (s : state) : state :=
  handleReconnect e (debugLog "warn" "Heartbeat failed, reconnecting..." s).

(** The callback given to [setInterval] in [startHeartbeat]. *)
Definition heartbeat_tick (e : env) (s : state) : state :=
  if negb (isMounted s) || negb (socket_open s (env_socket e)) then s
  else
    let '(s, r) := sendPing e s in
    match r with
    | Some false => heartbeat_failed e s
    | _ => s
    end.

(** [connect()].  A TypeError out of [cleanupSocket] leaves the function;
    an error out of the constructors is caught: the status becomes ERROR
    and a reconnection is asked for. *)
Definition connect (e : env) (s : state) : state :=
  if negb (isMounted s) then
    debugLog "warn" "Attempted to connect after component unmount" s
  else if negb (env_auth e) then
    debugLog "warn" "Not authenticated, cannot connect WebSocket" s
  else
    let '(s, threw) := cleanupSocket e s in
    if threw then s
    else
      let s := updateStatus CONNECTING None s in
      let s := set_isExplicitDisconnect false s in
      let outcome := new_WebSocket (constructions s) in
      let s := set_constructions (S (constructions s)) s in
      match outcome with
      | Constructed =>
          let sk := next_socket s in
          let s := set_next_socket (S sk)
                     (set_sockets (<[sk := new_socket e]> (sockets s)) s) in
          let s := set_socket (Some sk) s in
          let '(tid, s) := setTimer (ConnectionTimeoutK e sk) CONNECTION_TIMEOUT s in
          set_connectionTimeout (Some tid) s
      | ConstructorThrew message =>
          handleReconnect e
            (updateStatus ERROR (Some message)
               (debugLog "error" "Error creating WebSocket:" s))
      end.

(** [reconnect()] *)
Definition reconnect (e : env) (s : state) : state :=
  connect e (disconnect e false s).

(** [newSocket.onopen] *)
Definition onopen (e : env) (s : state) : state :=
  if negb (isMounted s) then s
  else
    let s := updateStatus CONNECTED None s in
    let s := set_reconnectAttempts 0 s in
    let s := set_lastActivity (now s) s in
    let s := startHeartbeat e s in
    processMessageQueue e s.

(** The PONG case of [newSocket.onmessage]; [resolve(true)] clears the
    probe's timeout. *)
Definition on_pong (id : jsval) (s : state) : state :=
  match id with
  | JStr pid =>
      match pp_get pid (pendingPings s) with
      | Some p =>
          clearTimer (p_timeout p)
            (set_pendingPings (pp_delete pid (pendingPings s)) s)
      | None => s
      end
  | _ => s
  end.

(** [newSocket.onmessage]; [data] is [None] when [JSON.parse] or the
    property access throws. *)
Definition onmessage (e : env) (data : option jsobj) (s : state) : state :=
  if negb (isMounted s) then s
  else
    let s := set_lastActivity (now s) s in
    match data with
    | None => debugLog "error" "Error processing message:" s
    | Some m =>
        let type := obj_get "type" m in
        if strict_eq type (JStr "PING") then
          (sendMessage e (Some [("type", JStr "PONG"); ("id", obj_get "id" m)]) true s).1
        else if strict_eq type (JStr "PONG") then on_pong (obj_get "id" m) s
        else s
    end.

(** [newSocket.onerror] *)
Definition onerror (e : env) (s : state) : state :=
  if negb (isMounted s) then s
  else updateStatus ERROR (Some "WebSocket error")
         (debugLog "error" "WebSocket error:" s).

(** [newSocket.onclose]; [reason] is [event.reason || 'Unknown reason']. *)
Definition onclose (e : env) (reason : string) (s : state) : state :=
  if negb (isMounted s) then s
  else
    let '(s, threw) := cleanupSocket e s in
    if threw then s
    else if isExplicitDisconnect s then updateStatus DISCONNECTED None s
    else handleReconnect e
           (updateStatus DISCONNECTED (Some (String.append "Connection closed: " reason)) s).

(** The cleanup of the effect whose only dependency is [cleanupSocket]:
    [isMounted.current = false; cleanupSocket()]. *)
Definition unmount (e : env) (s : state) : state :=
  (cleanupSocket e (set_isMounted false s)).1.

(** *** The event loop *)

(** A timer that falls due is run once and is gone; an interval is armed
    again, its period after the run. *)
Definition fire_timer (tid : nat) (t : timer) (s : state) : state :=
  match kind t with
  | HeartbeatK e =>
      heartbeat_tick e
        (set_timers (<[tid := {| due := now s + HEARTBEAT_INTERVAL; kind := kind t |}]>
                       (timers s)) s)
  | PongTimeoutK e pingId =>
      heartbeat_failed e
        (set_pendingPings (pp_delete pingId (pendingPings s)) (clearTimer tid s))
  | ReconnectK e =>
      let s := clearTimer tid s in
      if isMounted s then connect e s else s
  | ConnectionTimeoutK e sk =>
      let s := clearTimer tid s in
      if status_eqb (env_status e) CONNECTING then
        let s := debugLog "warn" "WebSocket connection timeout" s in
        default s (try_close sk CLOSE_CONNECTION_TIMEOUT "Connection timeout" s)
      else s
  | DrainK e => processMessageQueue e (clearTimer tid s)
  end.

(** Calls from the application ([EConnect] to [EUnmount]) through the
    functions of some render, events of a socket, a timer that is run,
    and time passing. *)
Inductive event :=
| EConnect (e : env)
| EDisconnect (e : env) (permanent : bool)
| EReconnect (e : env)
| ESendMessage (e : env) (message : option jsobj) (queueIfDisconnected : bool)
| EUnmount (e : env)
| EOpen (sk : nat)
| EMessage (sk : nat) (data : option jsobj)
| EError (sk : nat)
| EClose (sk : nat) (reason : string)
| ETimer (tid : nat)
| EAdvance (t : Z).

(** Run the handler of socket [sk], if handlers are attached. *)
Definition with_handlers (sk : nat) (h : env → state → state) (s : state) : state :=
  match sockets s !! sk with
  | Some k =>
      match handlers k with
      | Some e => h e s
      | None => s
      end
  | None => s
  end.

(** What an event does by itself; [None] when it cannot happen: a timer
    is not run before it is due (it may be run late), the clock does not
    go back, a socket opens once and closes once, and delivers messages in
    between. *)
Definition handle (ev : event) (s : state) : option state :=
  match ev with
  | EConnect e => Some (connect e s)
  | EDisconnect e permanent => Some (disconnect e permanent s)
  | EReconnect e => Some (reconnect e s)
  | ESendMessage e m q => Some (sendMessage e m q s).1
  | EUnmount e => Some (unmount e s)
  | EOpen sk =>
      match sockets s !! sk with
      | Some k =>
          match readyState k with
          | RS_CONNECTING =>
              Some (with_handlers sk onopen (upd_socket sk (sock_set_ready RS_OPEN) s))
          | _ => None
          end
      | None => None
      end
  | EMessage sk data =>
      match sockets s !! sk with
      | Some k =>
          match readyState k with
          | RS_OPEN | RS_CLOSING => Some (with_handlers sk (fun e => onmessage e data) s)
          | _ => None
          end
      | None => None
      end
  | EError sk => Some (with_handlers sk onerror s)
  | EClose sk reason =>
      match sockets s !! sk with
      | Some k =>
          match readyState k with
          | RS_CLOSED => None
          | _ =>
              Some (with_handlers sk (fun e => onclose e reason)
                      (upd_socket sk (sock_set_ready RS_CLOSED) s))
          end
      | None => None
      end
  | ETimer tid =>
      match timers s !! tid with
      | Some t => if due t <=? now s then Some (fire_timer tid t s) else None
      | None => None
      end
  | EAdvance t => if now s <=? t then Some (set_now t s) else None
  end.

(** The closures of the render that shows the state [s]. *)
Definition render (auth : bool) (s : state) : env :=
  {| env_socket := socket s; env_status := connectionStatus s; env_auth := auth |}.

(** React renders again after a state update.  The effect of the component
    depends on [cleanupSocket], which is a new function whenever [socket]
    has changed: then the cleanup of the effect is run, with the
    [cleanupSocket] of the render before. *)
Definition commit (before after : state) : state :=
  if bool_decide (socket after = socket before) then after
  else unmount (render true before) after.

(** One turn of the event loop. *)
Definition step (ev : event) (s : state) : option state :=
  match handle ev s with
  | Some s' => Some (commit s s')
  | None => None
  end.

(** A run of events from a state.  The closures that the calls of the
    application go through are not restricted: they may be those of any
    render, also of one that is out of date. *)
Fixpoint run (evs : list event) (s : state) : option state :=
  match evs with
  | [] => Some s
  | ev :: evs' =>
      match step ev s with
      | Some s' => run evs' s'
      | None => None
      end
  end.

(** The event is a call through the functions of the render that shows
    [s], or not a call of the application. *)
Definition of_this_render (ev : event) (s : state) : bool :=
  match ev with
  | EConnect e | EDisconnect e _ | EReconnect e | ESendMessage e _ _ | EUnmount e =>
      bool_decide (env_socket e = socket s)
      && status_eqb (env_status e) (connectionStatus s)
  | _ => true
  end.

(** The states a provider can be in. *)
Inductive reachable : state → Prop :=
| reach_init : reachable init
| reach_step ev s s' : reachable s → step ev s = Some s' → reachable s'.

(** A run in which every call goes through the latest render. *)
Fixpoint session_run (evs : list event) (s : state) : option state :=
  match evs with
  | [] => Some s
  | ev :: evs' =>
      if of_this_render ev s then
        match step ev s with
        | Some s' => session_run evs' s'
        | None => None
        end
      else None
  end.

End Component.

(** *** Values for worked examples *)

Definition demo_uuid (n : nat) : string := String (Ascii.ascii_of_nat (65 + n)) "".
Definition demo_random (n : nat) : Q := 1 # 2.
Definition demo_iso (t : Z) : string := "2024-01-01T00:00:00.000Z".
Definition demo_socket (n : nat) : construction := Constructed.

(** Closures that see socket 0 and the status CONNECTED. *)
Definition demo_env : env :=
  {| env_socket := Some 0%nat; env_status := CONNECTED; env_auth := true |}.

(** *** [sendMessage]: the queue bound and the stamp *)

Section SendMessage.

Variable DEBUG : bool.
Variable uuidv4 : nat → string.
Variable toISOString : Z → string.

Abbreviation sendMessage := (sendMessage DEBUG uuidv4 toISOString).

(** Calling [sendMessage(m)] for each message of a list in turn. *)
Fixpoint send_all (e : env) (msgs : list jsobj) (s : state)
    : state * list send_result :=
  match msgs with
  | [] => (s, [])
  | m :: msgs' =>
      let '(s1, r) := sendMessage e (Some m) true s in
      let '(s2, rs) := send_all e msgs' s1 in
      (s2, r :: rs)
  end.

Lemma addLog_messageQueue m ty s :
  messageQueue (addLog uuidv4 m ty s) = messageQueue s.
Proof. unfold addLog. by destruct (isMounted s). Qed.

Lemma debugLog_messageQueue l m s :
  messageQueue (debugLog DEBUG uuidv4 l m s) = messageQueue s.
Proof.
  unfold debugLog. destruct DEBUG; [|done].
  destruct (_ || _); [apply addLog_messageQueue|done].
Qed.

Lemma status_eqb_neq a b : a ≠ b → status_eqb a b = false.
Proof. by destruct a, b. Qed.

(** Disconnected with room in the queue: the message is appended. *)
Lemma sendMessage_enqueues e m s :
  env_status e ≠ CONNECTED →
  (length (messageQueue s) < MAX_QUEUE_SIZE)%nat →
  (sendMessage e (Some m) true s).2 = Returned true ∧
  messageQueue (sendMessage e (Some m) true s).1
    = messageQueue s ++ [queued (uuidv4 (uuid_count s)) m s].
Proof.
  intros He Hlen. unfold Provider.sendMessage.
  rewrite (status_eqb_neq _ _ He). simpl.
  destruct (_ <? _)%nat eqn:E; [done|]. apply Nat.ltb_ge in E. lia.
Qed.

(** Disconnected with the queue at capacity: refused, queue untouched. *)
Lemma sendMessage_queue_full e m s :
  env_status e ≠ CONNECTED →
  (MAX_QUEUE_SIZE ≤ length (messageQueue s))%nat →
  (sendMessage e (Some m) true s).2 = Returned false ∧
  messageQueue (sendMessage e (Some m) true s).1 = messageQueue s.
Proof.
  intros He Hlen. unfold Provider.sendMessage.
  rewrite (status_eqb_neq _ _ He). simpl.
  destruct (_ <? _)%nat eqn:E; [apply Nat.ltb_lt in E; lia|].
  simpl. split; [done|apply debugLog_messageQueue].
Qed.

Lemma send_all_spec e msgs s :
  env_status e ≠ CONNECTED →
  (length (messageQueue s) ≤ MAX_QUEUE_SIZE)%nat →
  (send_all e msgs s).2
    = replicate (length msgs `min` (MAX_QUEUE_SIZE - length (messageQueue s)))
        (Returned true)
      ++ replicate (length msgs - (MAX_QUEUE_SIZE - length (messageQueue s)))
           (Returned false) ∧
  length (messageQueue (send_all e msgs s).1)
    = ((length (messageQueue s) + length msgs) `min` MAX_QUEUE_SIZE)%nat.
Proof.
  intros He. revert s. induction msgs as [|m msgs IH]; intros s Hle.
  { simpl. split; [done|lia]. }
  cbn [send_all length].
  destruct (decide (length (messageQueue s) < MAX_QUEUE_SIZE)%nat) as [Hlt|Hge].
  - destruct (sendMessage_enqueues e m s He Hlt) as [Hr Hq].
    destruct (sendMessage e (Some m) true s) as [s1 r]. cbn [fst snd] in Hr, Hq.
    subst r.
    assert (length (messageQueue s1) = S (length (messageQueue s))) as Hl1.
    { rewrite Hq, length_app. simpl. lia. }
    destruct (IH s1) as [Ha Hb]; [lia|].
    destruct (send_all e msgs s1) as [s2 rs]. cbn [fst snd] in *.
    rewrite Ha, Hb, Hl1. split; [|lia].
    destruct (MAX_QUEUE_SIZE - length (messageQueue s))%nat as [|room] eqn:Er; [lia|].
    replace (MAX_QUEUE_SIZE - S (length (messageQueue s)))%nat with room by lia.
    replace (S (length msgs) `min` S room)%nat with (S (length msgs `min` room)) by lia.
    replace (S (length msgs) - S room)%nat with (length msgs - room)%nat by lia.
    done.
  - destruct (sendMessage_queue_full e m s He) as [Hr Hq]; [lia|].
    destruct (sendMessage e (Some m) true s) as [s1 r]. cbn [fst snd] in Hr, Hq.
    subst r.
    destruct (IH s1) as [Ha Hb]; [rewrite Hq; lia|].
    destruct (send_all e msgs s1) as [s2 rs]. cbn [fst snd] in *.
    rewrite Ha, Hb, Hq. split; [|lia].
    replace (MAX_QUEUE_SIZE - length (messageQueue s))%nat with 0%nat by lia.
    rewrite !Nat.min_0_r, !Nat.sub_0_r. done.
Qed.

(** C6.  While the captured status is not CONNECTED, [sendMessage] on a
    queue at capacity resolves to [false] without a deferred step and leaves
    the queue as it was; and [MAX_QUEUE_SIZE + 1] messages sent into an empty
    queue give [MAX_QUEUE_SIZE] times [true], then one [false], with
    [MAX_QUEUE_SIZE] entries queued. *)
Theorem C6_queue_capacity (e : env) (s : state) :
  env_status e ≠ CONNECTED →
  (∀ m, (MAX_QUEUE_SIZE ≤ length (messageQueue s))%nat →
        (sendMessage e (Some m) true s).2 = Returned false ∧
        messageQueue (sendMessage e (Some m) true s).1 = messageQueue s) ∧
  (∀ msgs, messageQueue s = [] → length msgs = S MAX_QUEUE_SIZE →
           (send_all e msgs s).2
             = replicate MAX_QUEUE_SIZE (Returned true) ++ [Returned false] ∧
           length (messageQueue (send_all e msgs s).1) = MAX_QUEUE_SIZE).
Proof.
  intros He. split.
  - intros m Hlen. by apply sendMessage_queue_full.
  - intros msgs Hq Hlen.
    destruct (send_all_spec e msgs s He) as [Ha Hb]; [rewrite Hq; simpl; lia|].
    rewrite Ha, Hb, Hq, Hlen. simpl length.
    replace (S MAX_QUEUE_SIZE `min` (MAX_QUEUE_SIZE - 0))%nat with MAX_QUEUE_SIZE by lia.
    replace (S MAX_QUEUE_SIZE - (MAX_QUEUE_SIZE - 0))%nat with 1%nat by lia.
    split; [done|lia].
Qed.

(** Every frame [sendMessage] writes carries the id and the timestamp it
    generated for this call, whatever [id] the caller's message had. *)
Lemma sendMessage_stamps e m q s sk k :
  sockets s !! sk = Some k →
  ∃ k', sockets (sendMessage e (Some m) q s).1 !! sk = Some k' ∧
        (sent k' = sent k ∨
         sent k' = sent k ++ [stamp (uuidv4 (uuid_count s)) (toISOString (now s)) m]).
Proof.
  intros Hk. unfold Provider.sendMessage.
  assert (∀ l msg st, sockets st = sockets s →
            sockets (debugLog DEBUG uuidv4 l msg st) = sockets s) as Hdbg.
  { intros l msg st Hst. unfold debugLog. destruct DEBUG; [|done].
    destruct (_ || _); [|done]. unfold addLog. by destruct (isMounted st). }
  destruct (negb _).
  - exists k. split; [|by left].
    destruct q; [destruct (_ <? _)%nat|]; simpl; rewrite ?Hdbg; done.
  - cbn [fresh_uuid]. unfold try_send.
    destruct (env_socket e) as [sk'|]; cycle 1.
    { exists k. split; [|by left]. destruct q; simpl; rewrite ?Hdbg; done. }
    change (sockets (set_uuid_count (S (uuid_count s)) s)) with (sockets s).
    destruct (sockets s !! sk') as [k0|] eqn:Ek0; cycle 1.
    { exists k. split; [|by left]. destruct q; simpl; rewrite ?Hdbg; done. }
    unfold sock_send. destruct (readyState k0) eqn:Er.
    + exists k. split; [|by left]. destruct q; simpl; rewrite ?Hdbg; done.
    + simpl. destruct (decide (sk' = sk)) as [->|Hne].
      * rewrite lookup_insert_eq. eexists. split; [done|]. right.
        simpl. congruence.
      * rewrite lookup_insert_ne by done. exists k. split; [done|by left].
    + simpl. destruct (decide (sk' = sk)) as [->|Hne].
      * rewrite lookup_insert_eq. exists k0. split; [done|]. left. congruence.
      * rewrite lookup_insert_ne by done. exists k. split; [done|by left].
    + simpl. destruct (decide (sk' = sk)) as [->|Hne].
      * rewrite lookup_insert_eq. exists k0. split; [done|]. left. congruence.
      * rewrite lookup_insert_ne by done. exists k. split; [done|by left].
Qed.

Lemma stamp_id u ts m : obj_get "id" (stamp u ts m) = JStr u.
Proof.
  unfold stamp. rewrite obj_get_set_ne by done. apply obj_get_set_eq.
Qed.

Lemma stamp_timestamp u ts m : obj_get "timestamp" (stamp u ts m) = JStr ts.
Proof. unfold stamp. apply obj_get_set_eq. Qed.

Lemma stamp_other key u ts m :
  key ≠ "id"%string → key ≠ "timestamp"%string →
  obj_get key (stamp u ts m) = obj_get key m.
Proof.
  intros H1 H2. unfold stamp. rewrite !obj_get_set_ne by done. done.
Qed.

(** C10.  A frame that [sendMessage] writes on a socket is the caller's
    message with [id] set to the uuid generated for this call and
    [timestamp] to the current time: a caller-supplied [id] is lost.  In
    particular the reply to an inbound PING, sent through [sendMessage] as
    [{ type: PONG, id: <the PING's id> }], goes out, if it goes out, as a
    PONG whose [id] is that new uuid; when the uuid differs from the PING's
    id, as a fresh uuid does, the reply does not carry the PING's id.  With
    the captured status CONNECTED and the captured socket open the reply
    does go out. *)
Theorem C10_sendMessage_overwrites_id
    (e : env) (m ping : jsobj) (q : bool) (s : state) (sk : nat) (k : websocket) :
  sockets s !! sk = Some k →
  (∃ k', sockets (sendMessage e (Some m) q s).1 !! sk = Some k' ∧
         (sent k' = sent k ∨
          ∃ f, sent k' = sent k ++ [f] ∧
               obj_get "id" f = JStr (uuidv4 (uuid_count s)) ∧
               obj_get "timestamp" f = JStr (toISOString (now s)))) ∧
  (isMounted s = true → obj_get "type" ping = JStr "PING" →
   ∃ k', sockets (onmessage DEBUG uuidv4 toISOString e (Some ping) s) !! sk = Some k' ∧
         (sent k' = sent k ∨
          ∃ f, sent k' = sent k ++ [f] ∧
               obj_get "type" f = JStr "PONG" ∧
               obj_get "id" f = JStr (uuidv4 (uuid_count s)) ∧
               (JStr (uuidv4 (uuid_count s)) ≠ obj_get "id" ping →
                obj_get "id" f ≠ obj_get "id" ping)) ∧
         (env_status e = CONNECTED → env_socket e = Some sk →
          readyState k = RS_OPEN → sent k' ≠ sent k)).
Proof.
  intros Hk. split.
  - destruct (sendMessage_stamps e m q s sk k Hk) as (k' & Hk' & [Hs|Hs]).
    + exists k'. split; [done|by left].
    + exists k'. split; [done|]. right. eexists. split; [done|].
      by rewrite stamp_id, stamp_timestamp.
  - intros Hm Hty. unfold onmessage. rewrite Hm. cbn [negb]. cbv zeta.
    rewrite Hty. cbn [strict_eq String.eqb Ascii.eqb Bool.eqb].
    set (s0 := set_lastActivity (now s) s).
    set (reply := [("type", JStr "PONG"); ("id", obj_get "id" ping)]).
    destruct (sendMessage_stamps e reply true s0 sk k Hk) as (k' & Hk' & Hs).
    exists k'. split; [done|]. split.
    + destruct Hs as [Hs|Hs]; [by left|]. right. eexists. split; [exact Hs|].
      split; [by rewrite stamp_other|]. rewrite stamp_id. split; [done|].
      intros Hne. exact Hne.
    + intros Hst Hsk Hopen.
      revert Hk'. unfold Provider.sendMessage. rewrite Hst. cbn [status_eqb negb].
      cbn [fresh_uuid]. unfold try_send. rewrite Hsk.
      change (sockets (set_uuid_count (S (uuid_count s0)) s0)) with (sockets s).
      rewrite Hk. unfold sock_send. rewrite Hopen. cbn [fst sockets set_sockets].
      rewrite lookup_insert_eq. intros [= <-]. simpl.
      intros Habs. apply (f_equal length) in Habs. rewrite length_app in Habs.
      simpl in Habs. lia.
Qed.

End SendMessage.

(** The closures of a render that sees no socket and status DISCONNECTED. *)
Definition demo_offline : env :=
  {| env_socket := None; env_status := DISCONNECTED; env_auth := true |}.

Definition demo_message : jsobj := [("type", JStr "CHAT"); ("payload", JStr "hi")].

Lemma C6_queue_capacity_witness :
  (send_all true demo_uuid demo_iso demo_offline
     (replicate (S MAX_QUEUE_SIZE) demo_message) init).2
    = replicate MAX_QUEUE_SIZE (Returned true) ++ [Returned false] ∧
  length (messageQueue (send_all true demo_uuid demo_iso demo_offline
                          (replicate (S MAX_QUEUE_SIZE) demo_message) init).1)
    = MAX_QUEUE_SIZE.
Proof.
  apply (C6_queue_capacity true demo_uuid demo_iso demo_offline init).
  - discriminate.
  - reflexivity.
  - apply length_replicate.
Defined.

(** Socket 0 is open with the handlers of [demo_env], and the status is
    CONNECTED. *)
Definition demo_live : state :=
  set_sockets {[ 0%nat := {| readyState := RS_OPEN; sent := []; closed_with := None;
                             handlers := Some demo_env |} ]}
    (set_next_socket 1 (set_socket (Some 0%nat) (set_connectionStatus CONNECTED init))).

(** A PING from the server. *)
Definition demo_ping : jsobj := [("type", JStr "PING"); ("id", JStr "srv-1")].

Lemma C10_witness :
  ∃ k', sockets (onmessage true demo_uuid demo_iso demo_env (Some demo_ping) demo_live)
          !! 0%nat = Some k' ∧
        sent k' = [[("type", JStr "PONG"); ("id", JStr "A");
                    ("timestamp", JStr "2024-01-01T00:00:00.000Z")]].
Proof.
  assert (sockets demo_live !! 0%nat
            = Some {| readyState := RS_OPEN; sent := []; closed_with := None;
                      handlers := Some demo_env |}) as Hk by (vm_compute; reflexivity).
  destruct (C10_sendMessage_overwrites_id true demo_uuid demo_iso demo_env
              demo_message demo_ping true demo_live 0 _ Hk) as [_ H].
  destruct (H eq_refl eq_refl) as (k' & Hk' & [Hs|(f & Hs & Hty & Hid & _)] & Hsent).
  { exfalso. by apply (Hsent eq_refl eq_refl eq_refl). }
  exists k'. split; [exact Hk'|].
  clear H Hsent Hs Hty Hid.
  vm_compute in Hk'. injection Hk' as <-. reflexivity.
Defined.

(** *** The reconnect delay *)

Lemma round_half_even_floor q :
  Qfloor q ≤ round_half_even q ≤ Qfloor q + 1.
Proof.
  unfold round_half_even. cbv zeta.
  destruct (_ ?= _)%Q; [destruct (Z.even _)|..]; lia.
Qed.

Lemma round_half_even_mono q1 q2 :
  (q1 <= q2)%Q → round_half_even q1 ≤ round_half_even q2.
Proof.
  intros Hq. pose proof (Qfloor_resp_le _ _ Hq) as Hf.
  pose proof (round_half_even_floor q1) as H1.
  pose proof (round_half_even_floor q2) as H2.
  destruct (Z.eq_dec (Qfloor q1) (Qfloor q2)) as [E|N]; [|lia].
  revert H1 H2. unfold round_half_even. cbv zeta. rewrite <- E. intros _ _.
  destruct (q1 - inject_Z (Qfloor q1) ?= 1 # 2)%Q eqn:C1;
    destruct (q2 - inject_Z (Qfloor q1) ?= 1 # 2)%Q eqn:C2;
    try (destruct (Z.even (Qfloor q1)); lia); try lia; exfalso.
  - apply Qeq_alt in C1. apply Qlt_alt in C2.
    apply (Qlt_irrefl (1 # 2)). rewrite <- C1 at 1.
    eapply Qle_lt_trans; [|exact C2]. apply Qplus_le_compat; [done|apply Qle_refl].
  - apply Qgt_alt in C1. apply Qeq_alt in C2.
    apply (Qlt_irrefl (1 # 2)). rewrite <- C2 at 2.
    eapply Qlt_le_trans; [exact C1|]. apply Qplus_le_compat; [done|apply Qle_refl].
  - apply Qgt_alt in C1. apply Qlt_alt in C2.
    apply (Qlt_irrefl (1 # 2)). eapply Qlt_trans; [exact C1|].
    eapply Qle_lt_trans; [|exact C2]. apply Qplus_le_compat; [done|apply Qle_refl].
Qed.

Lemma round_half_even_int z : round_half_even (inject_Z z) = z.
Proof.
  unfold round_half_even. cbv zeta. rewrite Qfloor_Z.
  assert ((inject_Z z - inject_Z z ?= 1 # 2)%Q = Lt) as ->; [|done].
  apply Qlt_alt. unfold Qminus. rewrite Qplus_opp_r. done.
Qed.

Lemma Qdiv_le_int (x : Q) (a b : Z) :
  0 < b → (x <= inject_Z (a * b))%Q → (x / inject_Z b <= inject_Z a)%Q.
Proof.
  intros Hb Hx. apply Qle_shift_div_r.
  - rewrite (Zlt_Qlt 0 b) in Hb. exact Hb.
  - by rewrite <- inject_Z_mult.
Qed.

Lemma Qdiv_ge_int (x : Q) (a b : Z) :
  0 < b → (inject_Z (a * b) <= x)%Q → (inject_Z a <= x / inject_Z b)%Q.
Proof.
  intros Hb Hx. apply Qle_shift_div_l.
  - rewrite (Zlt_Qlt 0 b) in Hb. exact Hb.
  - by rewrite <- inject_Z_mult.
Qed.

(** Rounding keeps the order: within one binade it is the rounding of the
    significand, and across binades the power of two between the two
    numbers is a double. *)
Lemma round_scaled_mono x y : (x <= y)%Q → round_scaled x ≤ round_scaled y.
Proof.
  intros Hxy. unfold round_scaled. cbv zeta.
  pose proof (Qfloor_resp_le _ _ Hxy) as Hf.
  pose proof (Z.log2_le_mono _ _ Hf) as Hl.
  set (ex := Z.max (Z.log2 (Qfloor x) - 52) 0).
  set (ey := Z.max (Z.log2 (Qfloor y) - 52) 0).
  assert (0 ≤ ex ≤ ey) as [Hex Hexy] by (subst ex ey; lia).
  assert (0 < 2 ^ ex ∧ 0 < 2 ^ ey) as [Px Py] by (split; apply Z.pow_pos_nonneg; lia).
  destruct (Z.eq_dec ex ey) as [E|N].
  - rewrite <- E. apply Z.mul_le_mono_nonneg_r; [lia|].
    apply round_half_even_mono. apply Qmult_le_compat_r; [done|].
    apply Qinv_le_0_compat. change 0%Q with (inject_Z 0). rewrite <- Zle_Qle. lia.
  - set (L := Z.log2 (Qfloor y)).
    assert (ey = L - 52 ∧ 53 ≤ L) as [Ey HL] by (subst ex ey L; lia).
    assert (0 < Qfloor y) as Hy0.
    { destruct (Z_lt_le_dec 0 (Qfloor y)); [done|].
      pose proof (Z.log2_nonpos (Qfloor y)). subst L. lia. }
    assert (2 ^ L ≤ Qfloor y) as HyL by (apply Z.log2_spec; done).
    assert (Qfloor x < 2 ^ L) as HxL.
    { destruct (Z_lt_le_dec 0 (Qfloor x)) as [Hx0|Hx0].
      - apply Z.log2_lt_pow2; [done|]. subst ex ey L. lia.
      - pose proof (Z.pow_pos_nonneg 2 L). lia. }
    transitivity (2 ^ L).
    + replace (2 ^ L) with (2 ^ (L - ex) * 2 ^ ex)
        by (rewrite <- Z.pow_add_r by lia; f_equal; lia).
      apply Z.mul_le_mono_nonneg_r; [lia|].
      rewrite <- (round_half_even_int (2 ^ (L - ex))).
      apply round_half_even_mono. apply Qdiv_le_int; [done|].
      rewrite <- Z.pow_add_r by lia. replace (L - ex + ex) with L by lia.
      apply Qlt_le_weak. eapply Qlt_le_trans; [apply Qlt_floor|].
      rewrite <- Zle_Qle. lia.
    + replace (2 ^ L) with (2 ^ 52 * 2 ^ ey)
        by (rewrite <- Z.pow_add_r by lia; f_equal; lia).
      apply Z.mul_le_mono_nonneg_r; [lia|].
      rewrite <- (round_half_even_int (2 ^ 52)) at 1.
      apply round_half_even_mono. apply Qdiv_ge_int; [done|].
      rewrite <- Z.pow_add_r by lia. replace (52 + ey) with L by lia.
      eapply Qle_trans; [|apply Qfloor_le]. rewrite <- Zle_Qle. done.
Qed.

Lemma to_double_mono x y : (x <= y)%Q → (to_double x <= to_double y)%Q.
Proof.
  intros Hxy. unfold to_double. apply Qmult_le_compat_r.
  - rewrite <- Zle_Qle. apply round_scaled_mono.
    apply Qmult_le_compat_r; [done|]. done.
  - done.
Qed.

Lemma to_double_comp x y : (x == y)%Q → (to_double x == to_double y)%Q.
Proof.
  intros H. apply Qle_antisym; apply to_double_mono; rewrite H; apply Qle_refl.
Qed.

(** Whole numbers of milliseconds in the range of the delays are doubles. *)
Lemma to_double_0 : (to_double 0 == 0)%Q.
Proof. vm_compute. reflexivity. Qed.

Lemma to_double_1000 : (to_double 1000 == 1000)%Q.
Proof. vm_compute. reflexivity. Qed.

Lemma to_double_31000 : (to_double 31000 == 31000)%Q.
Proof. vm_compute. reflexivity. Qed.

Lemma base_delay_le_max b a : (base_delay b a <= inject_Z MAX_RECONNECT_DELAY)%Q.
Proof. apply Q.le_min_r. Qed.

Lemma base_delay_mono b a : 0 ≤ b → (base_delay b a <= base_delay b (S a))%Q.
Proof.
  intros Hb. unfold base_delay. apply Q.min_le_compat_r. apply to_double_mono.
  rewrite !(Qmult_comm (inject_Z b)). apply Qmult_le_compat_r.
  - apply to_double_mono. apply Qpower_le_compat_l; [lia|]. unfold Qle. simpl. lia.
  - rewrite (Zle_Qle 0 b) in Hb. exact Hb.
Qed.

Lemma reconnect_delay_mono b a r :
  0 ≤ b → reconnect_delay b a r ≤ reconnect_delay b (S a) r.
Proof.
  intros Hb. unfold reconnect_delay. apply Qfloor_resp_le. apply to_double_mono.
  apply Qplus_le_compat; [by apply base_delay_mono|apply Qle_refl].
Qed.

Lemma jitter_bounds r : (0 <= r)%Q → (r <= 1)%Q → (0 <= jitter r <= 1000)%Q.
Proof.
  intros H0 H1. unfold jitter. split.
  - rewrite <- to_double_0. apply to_double_mono.
    apply Qmult_le_0_compat; [done|discriminate].
  - rewrite <- to_double_1000 at 2. apply to_double_mono.
    change 1000%Q with (1 * 1000)%Q at 2. apply Qmult_le_compat_r; [done|discriminate].
Qed.

Lemma reconnect_delay_bound b a r :
  (0 <= r)%Q → (r <= 1)%Q → reconnect_delay b a r ≤ MAX_RECONNECT_DELAY + 1000.
Proof.
  intros H0 H1. unfold reconnect_delay.
  change (MAX_RECONNECT_DELAY + 1000) with (Qfloor 31000).
  apply Qfloor_resp_le. rewrite <- to_double_31000. apply to_double_mono.
  change 31000%Q with (inject_Z MAX_RECONNECT_DELAY + 1000)%Q.
  apply Qplus_le_compat; [apply base_delay_le_max|by apply jitter_bounds].
Qed.

(** Up to the last attempt the capped exponential is computed without
    rounding, and so is its sum with 1000. *)
Lemma base_delay_exact a :
  (a < MAX_RECONNECT_ATTEMPTS)%nat →
  (base_delay RECONNECT_BASE_DELAY a
   == Qmin (1000 * (3 # 2) ^ Z.of_nat a) (inject_Z MAX_RECONNECT_DELAY))%Q
  ∧ (to_double (base_delay RECONNECT_BASE_DELAY a) == base_delay RECONNECT_BASE_DELAY a)%Q
  ∧ (to_double (base_delay RECONNECT_BASE_DELAY a + 1000)
     == base_delay RECONNECT_BASE_DELAY a + 1000)%Q.
Proof.
  unfold MAX_RECONNECT_ATTEMPTS. intros Ha.
  do 10 (destruct a as [|a]; [split_and!; vm_compute; reflexivity|]). lia.
Qed.

Lemma total_delay_mono b a samples :
  0 ≤ b → total_delay b a samples ≤ total_delay b (S a) samples.
Proof.
  intros Hb. unfold total_delay. induction samples as [|r l IH]; simpl; [lia|].
  pose proof (reconnect_delay_mono b a r Hb). lia.
Qed.

Lemma expected_delay_mono b a samples :
  0 ≤ b → (expected_delay b a samples <= expected_delay b (S a) samples)%Q.
Proof.
  intros Hb. unfold expected_delay, Qdiv. apply Qmult_le_compat_r.
  - rewrite <- Zle_Qle. by apply total_delay_mono.
  - apply Qinv_le_0_compat.
    assert (0 ≤ Z.of_nat (length samples)) as H by lia.
    rewrite (Zle_Qle 0) in H. exact H.
Qed.

(** The first attempts with no jitter: 1000, 1500, 2250, 3375, 5062 ms, and
    30000 ms from the ninth on. *)
Example reconnect_delay_table :
  map (fun a => reconnect_delay RECONNECT_BASE_DELAY a 0) [0; 1; 2; 3; 4; 8; 9]%nat
    = [1000; 1500; 2250; 3375; 5062; 25628; 30000].
Proof. vm_compute. reflexivity. Qed.

(** Rounding shows: the exact sum of 1000 and this jitter is just below
    1117, its double is 1117; and with the largest value of
    [Math.random()] the delay is the base plus a full 1000. *)
Example reconnect_delay_rounds :
  reconnect_delay RECONNECT_BASE_DELAY 0 (131730289100587 # 2 ^ 50) = 1117
  ∧ Qfloor (1000 + (131730289100587 # 2 ^ 50) * 1000) = 1116
  ∧ reconnect_delay RECONNECT_BASE_DELAY 0 (2 ^ 53 - 1 # 2 ^ 53) = 2000.
Proof. vm_compute. done. Qed.

(** C9.  When [handleReconnect] schedules a reconnection (mounted, the
    captured status not RECONNECTING, fewer than MAX_RECONNECT_ATTEMPTS
    attempts so far, the backoff ref at its base), it arms [connect] after
    [Math.floor(baseDelay + jitter)] milliseconds and increments the
    attempt counter.  [baseDelay] is min(1000 * 1.5^attempts, 30000)
    exactly; [jitter] is the double [Math.random() * 1000], between 0 and
    1000; their sum as a double is between [baseDelay] and
    [baseDelay + 1000], and the delay is that sum rounded down to whole
    milliseconds.  So the delay is at most MAX_RECONNECT_DELAY + 1000; for
    every jitter it is non-decreasing in the attempt number, and so is its
    mean over any sample of jitters. *)
Theorem C9_reconnect_backoff
    (DEBUG : bool) (uuidv4 : nat → string) (random : nat → Q) (e : env) (s : state) :
  isMounted s = true →
  env_status e ≠ RECONNECTING →
  (reconnectAttempts s < MAX_RECONNECT_ATTEMPTS)%nat →
  (0 <= random (random_count s))%Q →
  (random (random_count s) < 1)%Q →
  reconnectBackoff s = RECONNECT_BASE_DELAY →
  let base := Qmin (1000 * (3 # 2) ^ Z.of_nat (reconnectAttempts s))
                   (inject_Z MAX_RECONNECT_DELAY) in
  let jit := to_double (random (random_count s) * 1000) in
  let delay := Qfloor (to_double (base + jit)) in
  (∃ tid,
     reconnectTimeout (handleReconnect DEBUG uuidv4 random e s) = Some tid ∧
     timers (handleReconnect DEBUG uuidv4 random e s) !! tid
       = Some {| due := now s + delay; kind := ReconnectK e |}) ∧
  reconnectAttempts (handleReconnect DEBUG uuidv4 random e s)
    = S (reconnectAttempts s) ∧
  (0 <= jit <= 1000)%Q ∧
  (base <= to_double (base + jit) <= base + 1000)%Q ∧
  (inject_Z delay <= to_double (base + jit) < inject_Z (delay + 1))%Q ∧
  delay ≤ MAX_RECONNECT_DELAY + 1000 ∧
  (∀ a r, reconnect_delay (reconnectBackoff s) a r
            ≤ reconnect_delay (reconnectBackoff s) (S a) r) ∧
  (∀ a samples, (expected_delay (reconnectBackoff s) a samples
                   <= expected_delay (reconnectBackoff s) (S a) samples)%Q).
Proof.
  intros Hm He Ha Hr0 Hr Hb base jit delay.
  destruct (base_delay_exact (reconnectAttempts s) Ha) as (Eb & Eb0 & Eb1).
  fold base in Eb.
  assert (Hj : (0 <= jit <= 1000)%Q).
  { apply jitter_bounds; [done|by apply Qlt_le_weak]. }
  assert (Hsum : (to_double (base_delay RECONNECT_BASE_DELAY (reconnectAttempts s)
                             + jitter (random (random_count s)))
                  == to_double (base + jit))%Q).
  { apply to_double_comp. by rewrite Eb. }
  assert (Hd : reconnect_delay (reconnectBackoff s) (reconnectAttempts s)
                 (random (random_count s)) = delay).
  { unfold reconnect_delay. rewrite Hb. by apply Qfloor_comp. }
  assert (Hbounds : (base <= to_double (base + jit) <= base + 1000)%Q).
  { rewrite <- Hsum, <- Eb. split.
    - rewrite <- Eb0 at 1. apply to_double_mono.
      rewrite <- (Qplus_0_r (base_delay _ _)) at 1.
      apply Qplus_le_compat; [apply Qle_refl|apply Hj].
    - rewrite <- Eb1. apply to_double_mono.
      apply Qplus_le_compat; [apply Qle_refl|apply Hj]. }
  split_and!.
  - unfold handleReconnect. rewrite Hm, (status_eqb_neq _ _ He).
    cbn [negb orb]. apply Nat.leb_gt in Ha. rewrite Ha, andb_false_r.
    cbn [fresh_random]. cbv zeta.
    set (s1 := set_random_count (S (random_count s)) s).
    change (reconnect_delay (reconnectBackoff s1) (reconnectAttempts s1) _)
      with (reconnect_delay (reconnectBackoff s) (reconnectAttempts s)
              (random (random_count s))).
    rewrite Hd.
    set (s2 := set_reconnectAttempts (S (reconnectAttempts s1)) s1).
    set (s3 := updateStatus uuidv4 RECONNECTING None s2).
    set (s4 := clear_handle (reconnectTimeout s3) s3).
    assert (now s4 = now s ∧ next_timer s4 = next_timer s) as [Hnow Hnt].
    { subst s4. assert (now s3 = now s ∧ next_timer s3 = next_timer s) as [<- <-].
      { subst s3. unfold updateStatus. by destruct (isMounted s2). }
      by destruct (reconnectTimeout s3). }
    clearbody s4 delay. unfold setTimer. simpl. exists (next_timer s4).
    split; [done|]. rewrite lookup_insert_eq, Hnow. done.
  - unfold handleReconnect. rewrite Hm, (status_eqb_neq _ _ He).
    cbn [negb orb]. apply Nat.leb_gt in Ha. rewrite Ha, andb_false_r.
    cbn [fresh_random]. cbv zeta.
    set (s1 := set_random_count (S (random_count s)) s).
    set (s2 := set_reconnectAttempts (S (reconnectAttempts s1)) s1).
    set (s3 := updateStatus uuidv4 RECONNECTING None s2).
    assert (reconnectAttempts s3 = S (reconnectAttempts s)) as H3.
    { subst s3. unfold updateStatus. by destruct (isMounted s2). }
    set (s4 := clear_handle (reconnectTimeout s3) s3).
    assert (reconnectAttempts s4 = S (reconnectAttempts s)) as H4.
    { subst s4. by destruct (reconnectTimeout s3). }
    clearbody s4. unfold setTimer. simpl. done.
  - apply Hj.
  - apply Hj.
  - apply Hbounds.
  - apply Hbounds.
  - apply Qfloor_le.
  - apply Qlt_floor.
  - rewrite <- Hd. apply reconnect_delay_bound; [done|by apply Qlt_le_weak].
  - intros a r. apply reconnect_delay_mono. rewrite Hb. done.
  - intros a samples. apply expected_delay_mono. rewrite Hb. done.
Qed.

Lemma C9_reconnect_backoff_witness :
  reconnectAttempts
    (handleReconnect true demo_uuid demo_random
       {| env_socket := None; env_status := DISCONNECTED; env_auth := true |} init)
    = 1%nat ∧
  Qfloor (to_double (Qmin (1000 * (3 # 2) ^ Z.of_nat (reconnectAttempts init))
                          (inject_Z MAX_RECONNECT_DELAY)
                     + to_double (demo_random (random_count init) * 1000)))
    ≤ MAX_RECONNECT_DELAY + 1000.
Proof.
  destruct (C9_reconnect_backoff true demo_uuid demo_random
              {| env_socket := None; env_status := DISCONNECTED; env_auth := true |}
              init) as (_ & H1 & _ & _ & _ & H2 & _).
  - reflexivity.
  - discriminate.
  - unfold MAX_RECONNECT_ATTEMPTS. simpl. lia.
  - discriminate.
  - reflexivity.
  - reflexivity.
  - split; [exact H1|exact H2].
Defined.

(** *** Further properties of the provider *)

Section ProviderProperties.

Variable DEBUG : bool.
Variable uuidv4 : nat → string.
Variable random : nat → Q.
Variable toISOString : Z → string.
Variable new_WebSocket : nat → construction.

Abbreviation addLog := (addLog uuidv4).
Abbreviation debugLog := (debugLog DEBUG uuidv4).
Abbreviation updateStatus := (updateStatus uuidv4).
Abbreviation cleanupSocket := (cleanupSocket DEBUG uuidv4).
Abbreviation sendMessage := (sendMessage DEBUG uuidv4 toISOString).
Abbreviation handleReconnect := (handleReconnect DEBUG uuidv4 random).
Abbreviation processMessageQueue := (processMessageQueue DEBUG uuidv4 toISOString).
Abbreviation drain_entry := (drain_entry DEBUG uuidv4 toISOString).
Abbreviation sendPing := (sendPing uuidv4).
Abbreviation disconnect := (disconnect DEBUG uuidv4).
Abbreviation connect := (connect DEBUG uuidv4 random new_WebSocket).
Abbreviation reconnect := (reconnect DEBUG uuidv4 random new_WebSocket).
Abbreviation unmount := (unmount DEBUG uuidv4).
Abbreviation onopen := (onopen DEBUG uuidv4 toISOString).
Abbreviation onmessage := (onmessage DEBUG uuidv4 toISOString).
Abbreviation onerror := (onerror DEBUG uuidv4).
Abbreviation onclose := (onclose DEBUG uuidv4 random).
Abbreviation heartbeat_tick := (heartbeat_tick DEBUG uuidv4 random).
Abbreviation heartbeat_failed := (heartbeat_failed DEBUG uuidv4 random).
Abbreviation fire_timer := (fire_timer DEBUG uuidv4 random toISOString new_WebSocket).
Abbreviation handle := (handle DEBUG uuidv4 random toISOString new_WebSocket).
Abbreviation commit := (commit DEBUG uuidv4).
Abbreviation step := (step DEBUG uuidv4 random toISOString new_WebSocket).
Abbreviation run := (run DEBUG uuidv4 random toISOString new_WebSocket).
Abbreviation session_run := (session_run DEBUG uuidv4 random toISOString new_WebSocket).
Abbreviation reachable := (reachable DEBUG uuidv4 random toISOString new_WebSocket).

(** X12: the log is capped.  A call of [addLog] on a mounted provider puts
    the new entry last, keeps the most recent 99 of the entries there were,
    in order, and so never leaves more than 100; on an unmounted provider
    it does nothing. *)
Theorem addLog_keeps_the_last_hundred message type s :
  (isMounted s = false → addLog message type s = s)
  ∧ (isMounted s = true →
     ∃ older,
       logs (addLog message type s)
       = older ++ [{| log_id := uuidv4 (uuid_count s); log_type := type;
                      log_message := message |}]
       ∧ older `suffix_of` logs s
       ∧ length older = Nat.min 99 (length (logs s))
       ∧ (length (logs (addLog message type s)) ≤ 100)%nat).
Proof.
  unfold Provider.addLog. split; intros ->; [done|]. cbn -[Nat.min Nat.sub].
  exists (drop (length (logs s) - 99) (logs s)). split_and!.
  - done.
  - apply suffix_drop.
  - rewrite length_drop. lia.
  - rewrite length_app, length_drop. cbn [length]. lia.
Qed.

(** What [sendMessage] cannot change. *)
Definition session (s : state) :=
  (socket s, connectionStatus s, lastError s, reconnectAttempts s, reconnectTimeout s,
   heartbeatInterval s, pongTimeout s, connectionTimeout s, isMounted s,
   pendingPings s, reconnectBackoff s, lastActivity s, isExplicitDisconnect s,
   now s, timers s, next_timer s, next_socket s, random_count s, rejected s).

Lemma addLog_session m ty s : session (addLog m ty s) = session s.
Proof. unfold Provider.addLog. by destruct (isMounted s). Qed.

Lemma debugLog_session l m s : session (debugLog l m s) = session s.
Proof.
  unfold Provider.debugLog. destruct DEBUG; [|done].
  destruct (_ || _); [apply addLog_session|done].
Qed.

Lemma addLog_keeps_sockets m ty s : sockets (addLog m ty s) = sockets s.
Proof. unfold Provider.addLog. by destruct (isMounted s). Qed.

Lemma debugLog_keeps_sockets l m s : sockets (debugLog l m s) = sockets s.
Proof.
  unfold Provider.debugLog. destruct DEBUG; [|done].
  destruct (_ || _); [apply addLog_keeps_sockets|done].
Qed.

Lemma try_send_session o f s s' : try_send o f s = Some s' → session s' = session s.
Proof.
  unfold try_send. destruct o as [sk|]; [|done].
  destruct (sockets s !! sk) as [k|]; [|done].
  destruct (sock_send f k); [|done]. by intros [= <-].
Qed.

Lemma sendMessage_session e m q s : session (sendMessage e m q s).1 = session s.
Proof.
  unfold Provider.sendMessage. destruct m as [m|]; [|done].
  destruct (negb _).
  - destruct q; [|apply debugLog_session].
    destruct (_ <? _)%nat; [done|apply debugLog_session].
  - cbn. destruct (try_send _ _ _) as [s2|] eqn:E; cbn.
    + by rewrite (try_send_session _ _ _ _ E).
    + set (s2 := Provider.debugLog _ _ _ _ _).
      assert (Hs2 : session s2 = session s) by (subst s2; by rewrite debugLog_session).
      clearbody s2. by destruct q.
Qed.

(** X13: [sendMessage] with the status CONNECTED on an open socket.  One
    frame is written on the socket and the call returns [true]; the frame
    is the message with its [id] set to a fresh uuid and its [timestamp]
    to the current time, every other property as the caller gave it; the
    queue is not touched. *)
Theorem sendMessage_connected_writes_one_frame e m q s sk k :
  env_status e = CONNECTED →
  env_socket e = Some sk →
  sockets s !! sk = Some k →
  readyState k = RS_OPEN →
  let frame := stamp (uuidv4 (uuid_count s)) (toISOString (now s)) m in
    (sendMessage e (Some m) q s).2 = Returned true
  ∧ sockets (sendMessage e (Some m) q s).1
    = <[sk := {| readyState := RS_OPEN; sent := sent k ++ [frame];
                 closed_with := closed_with k; handlers := handlers k |}]> (sockets s)
  ∧ messageQueue (sendMessage e (Some m) q s).1 = messageQueue s
  ∧ obj_get "id" frame = JStr (uuidv4 (uuid_count s))
  ∧ obj_get "timestamp" frame = JStr (toISOString (now s))
  ∧ (∀ key, key ≠ "id"%string → key ≠ "timestamp"%string →
       obj_get key frame = obj_get key m).
Proof.
  intros He Hsk Hk Ho frame. unfold Provider.sendMessage. rewrite He. cbn.
  unfold try_send. rewrite Hsk. cbn. rewrite Hk. unfold sock_send. rewrite Ho. cbn.
  split_and!; try done.
  - apply stamp_id.
  - apply stamp_timestamp.
  - intros key H1 H2. by apply stamp_other.
Qed.

(** X14: [sendMessage(message, false)] never queues.  Whatever the status
    and the socket, and whether the send succeeds, fails or is skipped,
    the queue afterwards is the queue before. *)
Theorem sendMessage_without_queueing_keeps_the_queue e m s :
  messageQueue (sendMessage e m false s).1 = messageQueue s.
Proof.
  unfold Provider.sendMessage. destruct m as [m|]; [|done].
  destruct (negb _); [apply debugLog_messageQueue|]. cbn.
  destruct (try_send _ _ _) as [s2|] eqn:E; cbn.
  - revert E. unfold try_send. destruct (env_socket e) as [sk|]; [|done]. cbn.
    destruct (sockets s !! sk) as [k|]; [|done].
    destruct (sock_send _ k); [|done]. by intros [= <-].
  - by rewrite debugLog_messageQueue.
Qed.

(** X15: the capacity check is on the disconnected path only.  When the
    status seen by the closure is CONNECTED but the send throws (the
    closure holds no socket, or the socket is still connecting),
    [sendMessage(message, true)] queues the message and returns [true]
    whatever the length of the queue, also at or above [MAX_QUEUE_SIZE]. *)
Theorem sendMessage_send_error_queues_past_capacity e m s :
  env_status e = CONNECTED →
  (env_socket e = None
   ∨ ∃ sk k, env_socket e = Some sk ∧ sockets s !! sk = Some k
             ∧ readyState k = RS_CONNECTING) →
  (sendMessage e (Some m) true s).2 = Returned true
  ∧ ∃ u, messageQueue (sendMessage e (Some m) true s).1
         = messageQueue s ++ [{| q_id := u; q_message := Some m;
                                 q_timestamp := now s; q_retryCount := 0 |}].
Proof.
  intros He Hs. unfold Provider.sendMessage. rewrite He. cbn.
  assert (Hf : try_send (env_socket e)
                 (stamp (uuidv4 (uuid_count s)) (toISOString (now s)) m)
                 (set_uuid_count (S (uuid_count s)) s) = None).
  { unfold try_send. destruct Hs as [->|(sk & k & -> & Hk & Hr)]; [done|]. cbn.
    rewrite Hk. unfold sock_send. by rewrite Hr. }
  rewrite Hf. cbn. split; [done|]. eexists. unfold queued.
  rewrite debugLog_messageQueue. cbn.
  pose proof (debugLog_session "error" "Error sending message:"
                (set_uuid_count (S (uuid_count s)) s)) as Hv.
  apply (f_equal (fun v => v.1.1.1.1.1.2)) in Hv. cbn in Hv. by rewrite Hv.
Qed.

(** X16: [handleReconnect] gives up.  On a mounted provider, once
    [MAX_RECONNECT_ATTEMPTS] attempts were made, or when the closure saw
    the status RECONNECTING, it arms no timer and does not count an
    attempt: it sets the status to ERROR and records the error "Max
    reconnection attempts reached". *)
Theorem handleReconnect_gives_up_at_the_limit e s :
  isMounted s = true →
  (MAX_RECONNECT_ATTEMPTS ≤ reconnectAttempts s)%nat ∨ env_status e = RECONNECTING →
  connectionStatus (handleReconnect e s) = ERROR
  ∧ lastError (handleReconnect e s) = Some "Max reconnection attempts reached"%string
  ∧ timers (handleReconnect e s) = timers s
  ∧ reconnectTimeout (handleReconnect e s) = reconnectTimeout s
  ∧ reconnectAttempts (handleReconnect e s) = reconnectAttempts s.
Proof.
  intros Hm Hlim. unfold Provider.handleReconnect. rewrite Hm. cbn [negb].
  assert ((status_eqb (env_status e) RECONNECTING
           || (0 <? MAX_RECONNECT_ATTEMPTS)%nat
              && (MAX_RECONNECT_ATTEMPTS <=? reconnectAttempts s)%nat) = true) as ->.
  { destruct Hlim as [H| ->]; [|done]. apply Nat.leb_le in H. rewrite H.
    by rewrite orb_true_r. }
  pose proof (debugLog_session "warn" "Max reconnection attempts reached" s) as Hv.
  set (s1 := debugLog _ _ s) in *. clearbody s1.
  assert (Hm1 : isMounted s1 = true).
  { apply (f_equal (fun v => v.1.1.1.1.1.1.1.1.1.1.2)) in Hv. cbn in Hv. congruence. }
  unfold Provider.updateStatus. rewrite Hm1.
  set (s2 := set_lastError _ _).
  pose proof (addLog_session "Error: Max reconnection attempts reached" "error" s2) as Hv2.
  unfold session in Hv, Hv2. cbn in Hv2.
  injection Hv as E1 E2 E3 E4 E5 E6 E7 E8 E9 E10 E11 E12 E13 E14 E15 E16 E17 E18 E19.
  injection Hv2 as F1 F2 F3 F4 F5 F6 F7 F8 F9 F10 F11 F12 F13 F14 F15 F16 F17 F18 F19.
  change (String.append "Error: " (if String.eqb _ _ then _ else _))
    with "Error: Max reconnection attempts reached"%string.
  split_and!; congruence.
Qed.

Lemma sendMessage_connected_open e m q s sk k :
  env_status e = CONNECTED → env_socket e = Some sk →
  sockets s !! sk = Some k → readyState k = RS_OPEN →
  sendMessage e (Some m) q s
  = (set_sockets
       (<[sk := {| readyState := RS_OPEN;
                   sent := sent k ++ [stamp (uuidv4 (uuid_count s)) (toISOString (now s)) m];
                   closed_with := closed_with k; handlers := handlers k |}]> (sockets s))
       (set_uuid_count (S (uuid_count s)) s), Returned true).
Proof.
  intros He Hsk Hk Ho. unfold Provider.sendMessage. rewrite He. cbn.
  unfold try_send. rewrite Hsk. cbn. rewrite Hk. unfold sock_send. by rewrite Ho.
Qed.

(** The frames a drain writes for a batch: each message stamped with the
    next uuid and the time of the drain. *)
Definition drained (first : nat) (t : Z) (batch : list qentry) : list jsobj :=
  imap (fun i q => stamp (uuidv4 (first + i)) (toISOString t) (default [] (q_message q)))
       batch.

Lemma drain_loop_connected e sk (l : list qentry) s k :
  env_status e = CONNECTED → env_socket e = Some sk →
  sockets s !! sk = Some k → readyState k = RS_OPEN →
  Forall (fun q => is_Some (q_message q)) l →
  sockets (fold_left (drain_entry e) l s)
  = <[sk := {| readyState := RS_OPEN;
               sent := sent k ++ drained (uuid_count s) (now s) l;
               closed_with := closed_with k; handlers := handlers k |}]> (sockets s)
  ∧ messageQueue (fold_left (drain_entry e) l s) = messageQueue s
  ∧ session (fold_left (drain_entry e) l s) = session s.
Proof.
  intros He Hsk. revert s k. induction l as [|q l IH]; intros s k Hk Ho Hall.
  { cbn. rewrite app_nil_r. split_and!; try done.
    symmetry. apply insert_id. rewrite Hk. by destruct k; cbn in *; subst. }
  apply Forall_cons in Hall as [[m Hm] Hall]. cbn [fold_left].
  assert (Hstep : drain_entry e s q
                  = set_sockets
                      (<[sk := {| readyState := RS_OPEN;
                                  sent := sent k ++ [stamp (uuidv4 (uuid_count s))
                                                       (toISOString (now s)) m];
                                  closed_with := closed_with k;
                                  handlers := handlers k |}]> (sockets s))
                      (set_uuid_count (S (uuid_count s)) s)).
  { unfold Provider.drain_entry. rewrite Hm.
    by rewrite (sendMessage_connected_open e m false s sk k He Hsk Hk Ho). }
  rewrite Hstep.
  set (k1 := {| readyState := RS_OPEN; sent := sent k ++ [_]; closed_with := _;
                handlers := _ |}).
  set (s1 := set_sockets _ _).
  destruct (IH s1 k1) as (Hs & Hq & Hv);
    [subst s1; cbn; apply lookup_insert_eq|done|done|].
  rewrite Hs, Hq, Hv. split_and!; try done.
  subst s1 k1. cbn. rewrite insert_insert_eq. f_equal. f_equal.
  rewrite <- app_assoc. f_equal. unfold drained. cbn. rewrite Hm. cbn.
  rewrite Nat.add_0_r. unfold stamp. f_equal. apply imap_ext. intros i q' _. cbn.
  by replace (uuid_count s + S i)%nat with (S (uuid_count s + i))%nat by lia.
Qed.

(** X17: a drain by a closure that sees the status CONNECTED and an open
    socket.  The first ten entries of the queue leave it and are written
    on the socket in queue order, each stamped with the next uuid and the
    time of the drain; the rest of the queue stays, and when something
    stays the next drain is armed 100 ms later. *)
Theorem drain_writes_the_first_ten_in_order e s sk k :
  env_status e = CONNECTED →
  env_socket e = Some sk →
  sockets s !! sk = Some k →
  readyState k = RS_OPEN →
  Forall (fun q => is_Some (q_message q)) (take 10 (messageQueue s)) →
    sockets (processMessageQueue e s)
    = <[sk := {| readyState := RS_OPEN;
                 sent := sent k
                         ++ drained (uuid_count s) (now s) (take 10 (messageQueue s));
                 closed_with := closed_with k; handlers := handlers k |}]> (sockets s)
  ∧ messageQueue (processMessageQueue e s) = drop 10 (messageQueue s)
  ∧ (drop 10 (messageQueue s) = [] → timers (processMessageQueue e s) = timers s)
  ∧ (drop 10 (messageQueue s) ≠ [] →
       timers (processMessageQueue e s)
       = <[next_timer s := {| due := now s + 100; kind := DrainK e |}]> (timers s)).
Proof.
  intros He Hsk Hk Ho Hall. unfold Provider.processMessageQueue.
  unfold socket_open. rewrite Hsk, Hk, Ho. cbn [is_open]. cbv zeta.
  set (s0 := set_messageQueue (drop 10 (messageQueue s)) s).
  destruct (drain_loop_connected e sk (take 10 (messageQueue s)) s0 k He Hsk Hk Ho Hall)
    as (Hs & Hq & Hv).
  set (s1 := fold_left _ _ s0) in *. clearbody s1.
  unfold session in Hv. cbn in Hv.
  injection Hv as E1 E2 E3 E4 E5 E6 E7 E8 E9 E10 E11 E12 E13 E14 E15 E16 E17 E18 E19.
  cbn in Hs, Hq. rewrite Hq.
  destruct (drop 10 (messageQueue s)) as [|q0 rest] eqn:Ed; cbn.
  - split_and!; try done.
  - split_and!; try done. intros _. by rewrite E14, E15, E16.
Qed.

Lemma drain_loop_stale e (l : list qentry) s :
  env_status e ≠ CONNECTED →
  Forall (fun q => is_Some (q_message q)) l →
  sockets (fold_left (drain_entry e) l s) = sockets s
  ∧ messageQueue (fold_left (drain_entry e) l s) = messageQueue s
  ∧ session (fold_left (drain_entry e) l s) = session s.
Proof.
  intros He. revert s. induction l as [|q l IH]; intros s Hall; [done|].
  apply Forall_cons in Hall as [[m Hm] Hall]. cbn [fold_left].
  assert (Hstep : drain_entry e s q
                  = debugLog "warn"
                      "Not connected and queueIfDisconnected is false, dropping message" s).
  { unfold Provider.drain_entry, Provider.sendMessage.
    by rewrite Hm, (status_eqb_neq _ _ He). }
  rewrite Hstep. destruct (IH (debugLog "warn"
      "Not connected and queueIfDisconnected is false, dropping message" s) Hall)
    as (Hs & Hq & Hv).
  by rewrite Hs, Hq, Hv, debugLog_keeps_sockets, debugLog_messageQueue, debugLog_session.
Qed.

(** X18: a drain by a closure that does not see the status CONNECTED but
    whose socket is open.  [sendMessage(message, false)] refuses every
    entry and returns [false], which the drain does not look at: the first
    ten entries leave the queue and nothing is written on any socket. *)
Theorem drain_without_connected_status_drops_the_batch e s :
  env_status e ≠ CONNECTED →
  socket_open s (env_socket e) = true →
  Forall (fun q => is_Some (q_message q)) (take 10 (messageQueue s)) →
  messageQueue (processMessageQueue e s) = drop 10 (messageQueue s)
  ∧ sockets (processMessageQueue e s) = sockets s.
Proof.
  intros He Ho Hall. unfold Provider.processMessageQueue. rewrite Ho. cbv zeta.
  set (s0 := set_messageQueue (drop 10 (messageQueue s)) s).
  destruct (drain_loop_stale e (take 10 (messageQueue s)) s0 He Hall) as (Hs & Hq & _).
  set (s1 := fold_left _ _ s0) in *. clearbody s1.
  by destruct (0 <? length (messageQueue s1))%nat.
Qed.

Lemma drain_fold_session e (l : list qentry) s :
  session (fold_left (drain_entry e) l s) = session s.
Proof.
  revert s. induction l as [|q l IH]; intros s; cbn [fold_left]; [done|].
  rewrite IH. unfold Provider.drain_entry.
  pose proof (sendMessage_session e (q_message q) false s) as H.
  destruct (Provider.sendMessage _ _ _ e (q_message q) false s) as [s' r].
  cbn in H. destruct r; [done|]. cbv zeta.
  transitivity (session (debugLog "warn" "Failed to send queued message, will retry" s'));
    [done|by rewrite debugLog_session].
Qed.

(** The drain changes the timer table by at most the timer of the next
    drain. *)
Lemma processMessageQueue_session e s :
  (session (processMessageQueue e s) = session s)
  ∨ (∃ s1, session s1 = session s ∧ processMessageQueue e s = (setTimer (DrainK e) 100 s1).2).
Proof.
  unfold Provider.processMessageQueue. destruct (socket_open s (env_socket e)); [|by left].
  cbv zeta. set (s0 := set_messageQueue (drop 10 (messageQueue s)) s).
  pose proof (drain_fold_session e (take 10 (messageQueue s)) s0) as Hv.
  set (s1 := fold_left _ _ s0) in *. clearbody s1.
  destruct (0 <? length (messageQueue s1))%nat; [right; by exists s1|by left].
Qed.

(** X19: the open event of a socket, on a mounted provider.  The status
    becomes CONNECTED, the reconnect-attempt counter is reset to 0, the
    time is recorded as last activity, and a heartbeat interval is armed
    [HEARTBEAT_INTERVAL] later and stored in [heartbeatInterval], after
    the interval that was stored there, if any, was cleared.  The backoff
    base is not reset, and the last error is kept. *)
Theorem onopen_connects_and_starts_the_heartbeat e s :
  isMounted s = true →
  let s' := onopen e s in
    connectionStatus s' = CONNECTED
  ∧ reconnectAttempts s' = 0%nat
  ∧ lastActivity s' = now s
  ∧ heartbeatInterval s' = Some (next_timer s)
  ∧ timers s' !! next_timer s
    = Some {| due := now s + HEARTBEAT_INTERVAL; kind := HeartbeatK e |}
  ∧ (∀ h, heartbeatInterval s = Some h → (h < next_timer s)%nat →
       timers s' !! h = None)
  ∧ reconnectBackoff s' = reconnectBackoff s
  ∧ lastError s' = lastError s.
Proof.
  intros Hm s'. subst s'. unfold Provider.onopen. rewrite Hm. cbn [negb]. cbv zeta.
  unfold Provider.updateStatus. rewrite Hm.
  set (s1 := set_lastActivity _ _).
  assert (E1 : session (startHeartbeat e s1)
               = session (set_heartbeatInterval (Some (next_timer s))
                            (set_next_timer (S (next_timer s))
                               (set_timers
                                  (<[next_timer s := {| due := now s + HEARTBEAT_INTERVAL;
                                                        kind := HeartbeatK e |}]>
                                     (match heartbeatInterval s with
                                      | Some h => delete h (timers s)
                                      | None => timers s
                                      end)) s1)))).
  { unfold startHeartbeat, clear_handle, setTimer. subst s1. cbn.
    by destruct (heartbeatInterval s). }
  set (s2 := startHeartbeat e s1) in *. clearbody s2.
  assert (Hgoal : ∀ s3, session s3 = session s2 →
            connectionStatus s3 = CONNECTED ∧ reconnectAttempts s3 = 0%nat
            ∧ lastActivity s3 = now s ∧ heartbeatInterval s3 = Some (next_timer s)
            ∧ timers s3 !! next_timer s
              = Some {| due := now s + HEARTBEAT_INTERVAL; kind := HeartbeatK e |}
            ∧ (∀ h, heartbeatInterval s = Some h → (h < next_timer s)%nat →
                 timers s3 !! h = None)
            ∧ reconnectBackoff s3 = reconnectBackoff s ∧ lastError s3 = lastError s
            ∧ next_timer s3 = S (next_timer s)).
  { intros s3 E3. rewrite E1 in E3. unfold session in E3. subst s1. cbn in E3.
    injection E3 as F1 F2 F3 F4 F5 F6 F7 F8 F9 F10 F11 F12 F13 F14 F15 F16 F17 F18 F19.
    rewrite F2, F3, F4, F6, F11, F12, F15, F16. split_and!; try done.
    - by rewrite lookup_insert_eq.
    - intros h -> Hne. rewrite lookup_insert_ne by lia. by rewrite lookup_delete_eq. }
  destruct (processMessageQueue_session e s2) as [Hv|(s3 & Hv & ->)].
  - destruct (Hgoal _ Hv) as (G1 & G2 & G3 & G4 & G5 & G6 & G7 & G8 & _). done.
  - destruct (Hgoal _ Hv) as (G1 & G2 & G3 & G4 & G5 & G6 & G7 & G8 & G9).
    unfold setTimer. cbn. rewrite G9. split_and!; try done.
    + rewrite lookup_insert_ne by lia. done.
    + intros h Hh Hlt. rewrite lookup_insert_ne by lia. by apply G6.
Qed.

(** *** After the unmount *)

(** The React state of the component, and the mounted flag. *)
Definition react (s : state) :=
  (socket s, connectionStatus s, lastError s, logs s, isMounted s).

Lemma addLog_unmounted m ty s : isMounted s = false → addLog m ty s = s.
Proof. intros H. unfold Provider.addLog. by rewrite H. Qed.

Lemma debugLog_unmounted l m s : isMounted s = false → debugLog l m s = s.
Proof.
  intros H. unfold Provider.debugLog. destruct DEBUG; [|done].
  destruct (_ || _); [by apply addLog_unmounted|done].
Qed.

Lemma updateStatus_unmounted st err s : isMounted s = false → updateStatus st err s = s.
Proof. intros H. unfold Provider.updateStatus. by rewrite H. Qed.

Lemma react_isMounted s s' : react s' = react s → isMounted s' = isMounted s.
Proof. unfold react. congruence. Qed.

Lemma try_close_session sk code reason s s' :
  try_close sk code reason s = Some s' → session s' = session s.
Proof.
  unfold try_close. destruct (sockets s !! sk) as [k|]; [|done].
  destruct (sock_close code reason k); [|done]. by intros [= <-].
Qed.

Lemma try_close_react sk code reason s s' :
  try_close sk code reason s = Some s' → react s' = react s.
Proof.
  unfold try_close. destruct (sockets s !! sk) as [k|]; [|done].
  destruct (sock_close code reason k); [|done]. by intros [= <-].
Qed.

(** A close with arguments the browser accepts. *)
Lemma try_close_accepted sk code reason s k :
  sockets s !! sk = Some k → close_accepted code reason = true →
  try_close sk code reason s
  = Some (set_sockets (<[sk := sock_closing code reason k]> (sockets s)) s).
Proof. intros Hk Ha. unfold try_close, sock_close. by rewrite Hk, Ha. Qed.

(** A close with arguments the browser refuses. *)
Lemma try_close_refused sk code reason s :
  close_accepted code reason = false → try_close sk code reason s = None.
Proof.
  intros Ha. unfold try_close, sock_close. rewrite Ha. by destruct (sockets s !! sk).
Qed.

Lemma socket_open_lookup s sk :
  socket_open s (Some sk) = true →
  ∃ k, sockets s !! sk = Some k ∧ readyState k = RS_OPEN.
Proof.
  unfold socket_open. destruct (sockets s !! sk) as [k|]; [|done].
  intros H. exists k. split; [done|]. by destruct (readyState k).
Qed.

(** The [try] of [cleanupSocket] does not throw: the code is 1000 and the
    reason is short.  So the socket of the closure loses its handlers,
    after it was asked to close if it was open. *)
Lemma cleanupSocket_eq e s :
  cleanupSocket e s
  = let s := match heartbeatInterval s with
             | Some h => set_heartbeatInterval None (clearTimer h s)
             | None => s
             end in
    let s := match pongTimeout s with
             | Some h => set_pongTimeout None (clearTimer h s)
             | None => s
             end in
    let s := match connectionTimeout s with
             | Some h => set_connectionTimeout None (clearTimer h s)
             | None => s
             end in
    let '(ps, rej, threw) := reject_pending (pendingPings s) (rejected s) in
    let s := set_rejected rej (set_pendingPings ps s) in
    if threw then (s, true)
    else
      (match env_socket e with
       | Some sk =>
           upd_socket sk
             (fun k => sock_null_handlers
                         (if is_open (readyState k)
                          then sock_closing NORMAL_CLOSURE "Client disconnecting" k
                          else k)) s
       | None => s
       end, false).
Proof.
  unfold Provider.cleanupSocket. cbv zeta.
  set (s1 := match heartbeatInterval s with Some _ => _ | None => _ end). clearbody s1.
  set (s2 := match pongTimeout s1 with Some _ => _ | None => _ end). clearbody s2.
  set (s3 := match connectionTimeout s2 with Some _ => _ | None => _ end). clearbody s3.
  destruct (reject_pending (pendingPings s3) (rejected s3)) as [[ps rej] threw].
  destruct threw; [done|]. f_equal.
  set (s4 := set_rejected rej (set_pendingPings ps s3)). clearbody s4.
  destruct (env_socket e) as [sk|]; [|done].
  destruct (socket_open s4 (Some sk)) eqn:Ho.
  - destruct (socket_open_lookup _ _ Ho) as (k & Hk & Hr).
    rewrite (try_close_accepted sk NORMAL_CLOSURE "Client disconnecting" s4 k Hk eq_refl).
    unfold upd_socket.
    transitivity (set_sockets
                    (alter sock_null_handlers sk
                       (<[sk := sock_closing NORMAL_CLOSURE "Client disconnecting" k]>
                          (sockets s4))) s4); [reflexivity|].
    f_equal. apply map_eq. intros j.
    destruct (decide (j = sk)) as [->|Hne].
    + rewrite !lookup_alter_eq, lookup_insert_eq, Hk. cbn. by rewrite Hr.
    + by rewrite !lookup_alter_ne, lookup_insert_ne.
  - unfold upd_socket. f_equal. apply map_eq. intros j.
    destruct (decide (j = sk)) as [->|Hne].
    + rewrite !lookup_alter_eq. revert Ho. unfold socket_open.
      destruct (sockets s4 !! sk) as [k|]; [|done]. cbn. by intros ->.
    + by rewrite !lookup_alter_ne.
Qed.

Lemma cleanupSocket_react e s : react (cleanupSocket e s).1 = react s.
Proof.
  rewrite cleanupSocket_eq. cbv zeta.
  set (s1 := match heartbeatInterval s with Some _ => _ | None => _ end).
  assert (react s1 = react s) as H1 by (subst s1; by destruct (heartbeatInterval s)).
  clearbody s1.
  set (s2 := match pongTimeout s1 with Some _ => _ | None => _ end).
  assert (react s2 = react s1) as H2 by (subst s2; by destruct (pongTimeout s1)).
  clearbody s2.
  set (s3 := match connectionTimeout s2 with Some _ => _ | None => _ end).
  assert (react s3 = react s2) as H3 by (subst s3; by destruct (connectionTimeout s2)).
  clearbody s3.
  destruct (reject_pending (pendingPings s3) (rejected s3)) as [[ps rej] threw].
  transitivity (react s3); [|congruence].
  destruct threw; cbn; [done|]. by destruct (env_socket e).
Qed.

Lemma disconnect_react e permanent s :
  isMounted s = false → react (disconnect e permanent s) = react s.
Proof.
  intros Hm. unfold Provider.disconnect. cbv zeta.
  set (s1 := if permanent then _ else _).
  assert (react s1 = react s) as H1 by (subst s1; by destruct permanent).
  clearbody s1.
  set (s2 := match reconnectTimeout s1 with Some _ => _ | None => _ end).
  assert (react s2 = react s) as H2.
  { rewrite <- H1. subst s2. by destruct (reconnectTimeout s1). }
  clearbody s2. clear s1 H1.
  assert (Hm2 : isMounted s2 = false) by (rewrite <- Hm; by apply react_isMounted).
  destruct (env_socket e) as [sk|]; [|by rewrite updateStatus_unmounted].
  destruct (socket_open s2 (Some sk)).
  - destruct (try_close sk _ _ s2) as [s3|] eqn:E.
    + by rewrite (try_close_react _ _ _ _ _ E).
    + by rewrite debugLog_unmounted.
  - pose proof (cleanupSocket_react e s2) as H3.
    destruct (cleanupSocket e s2) as [s3 threw]. cbn in H3.
    assert (Hm3 : isMounted s3 = false) by (rewrite <- Hm2; by apply react_isMounted).
    destruct threw; [rewrite debugLog_unmounted|rewrite updateStatus_unmounted]; congruence.
Qed.

Lemma connect_unmounted e s : isMounted s = false → connect e s = s.
Proof. intros Hm. unfold Provider.connect. rewrite Hm. by apply debugLog_unmounted. Qed.

Lemma handleReconnect_unmounted e s : isMounted s = false → handleReconnect e s = s.
Proof. intros Hm. unfold Provider.handleReconnect. by rewrite Hm. Qed.

Lemma sendMessage_react e m q s :
  isMounted s = false → react (sendMessage e m q s).1 = react s.
Proof.
  intros Hm. unfold Provider.sendMessage. destruct m as [m|]; [|done].
  destruct (negb _).
  - destruct q; [|by rewrite debugLog_unmounted].
    destruct (_ <? _)%nat; [done|by rewrite debugLog_unmounted].
  - cbn. destruct (try_send _ _ _) as [s2|] eqn:E; cbn.
    + revert E. unfold try_send. destruct (env_socket e) as [sk|]; [|done]. cbn.
      destruct (sockets s !! sk) as [k|]; [|done].
      destruct (sock_send _ k); [|done]. by intros [= <-].
    + rewrite debugLog_unmounted by done. by destruct q.
Qed.

Lemma drain_fold_react e (l : list qentry) s :
  isMounted s = false → react (fold_left (drain_entry e) l s) = react s.
Proof.
  revert s. induction l as [|q l IH]; intros s Hm; cbn [fold_left]; [done|].
  assert (H : react (drain_entry e s q) = react s).
  { unfold Provider.drain_entry.
    pose proof (sendMessage_react e (q_message q) false s Hm) as H.
    destruct (Provider.sendMessage _ _ _ e (q_message q) false s) as [s' r].
    cbn in H. destruct r; [done|]. cbv zeta.
    rewrite debugLog_unmounted; [done|]. rewrite <- Hm. by apply react_isMounted. }
  rewrite IH; [done|]. rewrite <- Hm. by apply react_isMounted.
Qed.

Lemma processMessageQueue_react e s :
  isMounted s = false → react (processMessageQueue e s) = react s.
Proof.
  intros Hm. unfold Provider.processMessageQueue.
  destruct (socket_open s (env_socket e)); [|done]. cbv zeta.
  pose proof (drain_fold_react e (take 10 (messageQueue s))
                (set_messageQueue (drop 10 (messageQueue s)) s) Hm) as H.
  set (s1 := fold_left _ _ _) in *. clearbody s1.
  by destruct (0 <? length (messageQueue s1))%nat.
Qed.

Lemma fire_timer_react tid t s :
  isMounted s = false → react (fire_timer tid t s) = react s.
Proof.
  intros Hm. unfold Provider.fire_timer. destruct (kind t) as [e|e pid|e|e sk|e].
  - unfold Provider.heartbeat_tick. cbn. by rewrite Hm.
  - unfold Provider.heartbeat_failed.
    rewrite debugLog_unmounted, handleReconnect_unmounted by done. done.
  - cbn. by rewrite Hm.
  - cbv zeta. destruct (status_eqb (env_status e) CONNECTING); [|done].
    rewrite debugLog_unmounted by done.
    destruct (try_close sk _ _ _) as [s'|] eqn:E; [|done]. cbn.
    by rewrite (try_close_react _ _ _ _ _ E).
  - by rewrite processMessageQueue_react.
Qed.

Lemma handle_react ev s s' :
  isMounted s = false → handle ev s = Some s' → react s' = react s.
Proof.
  intros Hm. destruct ev as [e|e p|e|e m q|e|sk|sk d|sk|sk r|tid|t]; cbn.
  - intros [= <-]. by rewrite connect_unmounted.
  - intros [= <-]. by apply disconnect_react.
  - intros [= <-]. unfold Provider.reconnect.
    pose proof (disconnect_react e false s Hm) as H.
    rewrite connect_unmounted; [exact H|]. by rewrite (react_isMounted _ _ H).
  - intros [= <-]. by apply sendMessage_react.
  - intros [= <-]. unfold Provider.unmount. rewrite cleanupSocket_react.
    unfold react. cbn. by rewrite Hm.
  - destruct (sockets s !! sk) as [k|]; [|done].
    destruct (readyState k); try done. intros [= <-].
    unfold with_handlers. cbn. destruct (alter _ sk (sockets s) !! sk) as [k'|]; [|done].
    destruct (handlers k'); [|done]. unfold Provider.onopen. cbn. by rewrite Hm.
  - destruct (sockets s !! sk) as [k|]; [|done].
    assert (H : react (with_handlers sk (fun e => onmessage e d) s) = react s).
    { unfold with_handlers. destruct (sockets s !! sk) as [k'|]; [|done].
      destruct (handlers k'); [|done]. unfold Provider.onmessage. by rewrite Hm. }
    destruct (readyState k); try done; by intros [= <-].
  - intros [= <-]. unfold with_handlers. destruct (sockets s !! sk) as [k'|]; [|done].
    destruct (handlers k'); [|done]. unfold Provider.onerror. by rewrite Hm.
  - destruct (sockets s !! sk) as [k|]; [|done].
    assert (H : react (with_handlers sk (fun e => onclose e r)
                         (upd_socket sk (sock_set_ready RS_CLOSED) s)) = react s).
    { unfold with_handlers. cbn.
      destruct (alter _ sk (sockets s) !! sk) as [k'|]; [|done].
      destruct (handlers k'); [|done]. unfold Provider.onclose. cbn. by rewrite Hm. }
    destruct (readyState k); try done; by intros [= <-].
  - destruct (timers s !! tid) as [tm|]; [|done].
    destruct (due tm <=? now s); [|done]. intros [= <-]. by apply fire_timer_react.
  - destruct (_ <=? _); [|done]. by intros [= <-].
Qed.

(** The cleanup of the effect, run again, changes no React state. *)
Lemma commit_react before after :
  isMounted after = false → react (commit before after) = react after.
Proof.
  intros Hm. unfold Provider.commit. case_bool_decide; [done|].
  unfold Provider.unmount. rewrite cleanupSocket_react. unfold react. cbn. by rewrite Hm.
Qed.

Lemma step_react ev s s' :
  isMounted s = false → step ev s = Some s' → react s' = react s.
Proof.
  intros Hm. unfold Provider.step.
  destruct (handle ev s) as [s1|] eqn:E; [|done]. intros [= <-].
  pose proof (handle_react ev s s1 Hm E) as H1.
  rewrite commit_react; [done|]. rewrite <- Hm. by apply react_isMounted.
Qed.

(** X20: nothing reaches the React state of an unmounted provider.  Once
    [isMounted] is false, whatever events follow (calls of [connect],
    [disconnect], [reconnect] or [sendMessage] through a stale reference,
    socket events, timers that were still armed), the [socket],
    [connectionStatus], [lastError] and [logs] state never change again,
    and the provider stays unmounted. *)
Theorem nothing_updates_react_state_after_unmount evs s s' :
  isMounted s = false →
  run evs s = Some s' →
  isMounted s' = false
  ∧ socket s' = socket s
  ∧ connectionStatus s' = connectionStatus s
  ∧ lastError s' = lastError s
  ∧ logs s' = logs s.
Proof.
  intros Hm Hrun.
  assert (H : react s' = react s).
  { revert s Hm Hrun. induction evs as [|ev evs IH]; intros s Hm; cbn.
    - by intros [= <-].
    - destruct (Provider.step _ _ _ _ _ ev s) as [s1|] eqn:E; [|done]. intros Hrun.
      pose proof (step_react ev s s1 Hm E) as H1.
      rewrite (IH s1); [done| |done]. rewrite <- Hm. by apply react_isMounted. }
  unfold react in H. injection H as H1 H2 H3 H4 H5. split_and!; congruence.
Qed.

(** *** Probes, disconnect and connect *)

Lemma pp_get_set id p l : pp_get id (pp_set id p l) = Some p.
Proof.
  induction l as [|[k p'] l IH]; cbn; [by rewrite String.eqb_refl|].
  destruct (String.eqb k id) eqn:E; cbn; by rewrite ?E.
Qed.

Lemma pp_delete_set id p l : pp_delete id (pp_set id p l) = pp_delete id l.
Proof.
  unfold pp_delete. induction l as [|[k p'] l IH]; cbn; [by rewrite String.eqb_refl|].
  destruct (String.eqb k id) eqn:E; cbn; rewrite ?E; cbn; [done|by rewrite IH].
Qed.

Lemma pp_delete_absent id l : pp_get id l = None → pp_delete id l = l.
Proof.
  unfold pp_delete. induction l as [|[k p'] l IH]; cbn; [done|].
  destruct (String.eqb k id) eqn:E; cbn; [done|]. intros H. by rewrite IH.
Qed.

(** X21: a ping and its pong.  On an open socket [sendPing] writes one
    PING frame with a fresh id, records the probe under that id and arms
    its timeout [PONG_TIMEOUT] later; the promise is still pending.  A
    PONG with that id then removes the probe and disarms the timeout: no
    probe is pending under the id, and when the id was not pending before
    and the timer id was free, the probes and the timers are back to what
    they were before the ping.  A PONG whose id is not a pending one
    changes nothing. *)
Theorem pong_settles_its_probe e s sk k :
  env_socket e = Some sk →
  sockets s !! sk = Some k →
  readyState k = RS_OPEN →
  let id := uuidv4 (uuid_count s) in
  let s1 := (sendPing e s).1 in
  let s2 := on_pong (JStr id) s1 in
    (sendPing e s).2 = None
  ∧ sockets s1 !! sk
    = Some {| readyState := RS_OPEN;
              sent := sent k ++ [[("type", JStr "PING"); ("id", JStr id);
                                  ("timestamp", JNum (now s))]];
              closed_with := closed_with k; handlers := handlers k |}
  ∧ pp_get id (pendingPings s1)
    = Some {| p_timestamp := now s; p_timeout := next_timer s; p_env := e;
              p_has_reject := false |}
  ∧ timers s1 !! next_timer s
    = Some {| due := now s + PONG_TIMEOUT; kind := PongTimeoutK e id |}
  ∧ pp_get id (pendingPings s2) = None
  ∧ timers s2 !! next_timer s = None
  ∧ (pp_get id (pendingPings s) = None → pendingPings s2 = pendingPings s)
  ∧ (timers s !! next_timer s = None → timers s2 = timers s)
  ∧ (∀ other s0, pp_get other (pendingPings s0) = None → on_pong (JStr other) s0 = s0).
Proof.
  intros Hsk Hk Ho id s1 s2.
  assert (E1 : sendPing e s
    = (set_sockets
         (<[sk := {| readyState := RS_OPEN;
                     sent := sent k ++ [[("type", JStr "PING"); ("id", JStr id);
                                         ("timestamp", JNum (now s))]];
                     closed_with := closed_with k; handlers := handlers k |}]> (sockets s))
         (set_pendingPings
            (pp_set id {| p_timestamp := now s; p_timeout := next_timer s; p_env := e;
                          p_has_reject := false |} (pendingPings s))
            (set_next_timer (S (next_timer s))
               (set_timers (<[next_timer s := {| due := now s + PONG_TIMEOUT;
                                                 kind := PongTimeoutK e id |}]> (timers s))
                  (set_uuid_count (S (uuid_count s)) s)))), None)).
  { unfold Provider.sendPing, socket_open. rewrite Hsk, Hk, Ho. cbn.
    unfold try_send. cbn. rewrite Hk. unfold sock_send. rewrite Ho. done. }
  subst s2 s1. rewrite E1. cbn [fst snd]. unfold on_pong.
  cbn [pendingPings set_sockets set_pendingPings]. rewrite pp_get_set.
  cbn. rewrite pp_delete_set. split_and!; try done.
  - by rewrite lookup_insert_eq.
  - by rewrite lookup_insert_eq.
  - clear. unfold pp_delete. induction (pendingPings s) as [|[k p] l IH]; cbn; [done|].
    destruct (String.eqb k id) eqn:E; cbn; by rewrite ?E.
  - by rewrite lookup_delete_eq.
  - apply pp_delete_absent.
  - intros Hfree. rewrite delete_insert_eq. by apply delete_id.
  - intros other s0 H. by rewrite H.
Qed.

(** What [disconnect] does before it looks at the socket: it remembers a
    permanent disconnect and cancels the scheduled reconnection. *)
Lemma disconnect_prologue (permanent : bool) (s : state) :
  let s1 := if permanent then set_isExplicitDisconnect true s else s in
  let s2 := match reconnectTimeout s1 with
            | Some t => set_reconnectTimeout None (clearTimer t s1)
            | None => s1
            end in
    sockets s2 = sockets s ∧ reconnectTimeout s2 = None
  ∧ (∀ t, reconnectTimeout s = Some t → timers s2 !! t = None)
  ∧ isExplicitDisconnect s2 = permanent || isExplicitDisconnect s
  ∧ connectionStatus s2 = connectionStatus s
  ∧ heartbeatInterval s2 = heartbeatInterval s
  ∧ pendingPings s2 = pendingPings s
  ∧ (logs s2, isMounted s2, rejected s2, uuid_count s2)
    = (logs s, isMounted s, rejected s, uuid_count s).
Proof.
  intros s1 s2.
  assert (H1 : sockets s1 = sockets s ∧ reconnectTimeout s1 = reconnectTimeout s
               ∧ timers s1 = timers s
               ∧ isExplicitDisconnect s1 = permanent || isExplicitDisconnect s
               ∧ connectionStatus s1 = connectionStatus s
               ∧ heartbeatInterval s1 = heartbeatInterval s
               ∧ pendingPings s1 = pendingPings s
               ∧ (logs s1, isMounted s1, rejected s1, uuid_count s1)
                 = (logs s, isMounted s, rejected s, uuid_count s))
    by (subst s1; by destruct permanent).
  clearbody s1. destruct H1 as (A1 & A2 & A3 & A4 & A5 & A6 & A7 & A8).
  subst s2. rewrite <- A2. destruct (reconnectTimeout s1) as [t|] eqn:Er; cbn.
  - split_and!; try done. intros t' [= <-]. by rewrite lookup_delete_eq.
  - split_and!; done.
Qed.

(** X22: a permanent [disconnect] on an open socket.  The scheduled
    reconnection, if any, is cancelled; the socket is asked to close with
    code 1000, "User disconnected", which a browser accepts; the
    disconnect is remembered in [isExplicitDisconnect].  Nothing else is
    done at that point: the status, the heartbeat and the pending probes
    are left for the close handler. *)
Theorem disconnect_closes_an_open_socket e s sk k :
  env_socket e = Some sk →
  sockets s !! sk = Some k →
  readyState k = RS_OPEN →
  let s' := disconnect e true s in
    sockets s'
    = <[sk := {| readyState := RS_CLOSING; sent := sent k;
                 closed_with := Some (1000, "User disconnected"%string);
                 handlers := handlers k |}]> (sockets s)
  ∧ reconnectTimeout s' = None
  ∧ (∀ t, reconnectTimeout s = Some t → timers s' !! t = None)
  ∧ isExplicitDisconnect s' = true
  ∧ connectionStatus s' = connectionStatus s
  ∧ heartbeatInterval s' = heartbeatInterval s
  ∧ pendingPings s' = pendingPings s.
Proof.
  intros Hsk Hk Ho s'. subst s'. unfold Provider.disconnect. cbv zeta. rewrite Hsk.
  destruct (disconnect_prologue true s) as (B1 & B2 & B3 & B4 & B5 & B6 & B7 & _).
  cbv zeta in B1, B2, B3, B4, B5, B6, B7.
  set (s2 := match reconnectTimeout _ with Some _ => _ | None => _ end) in *.
  clearbody s2.
  unfold socket_open. rewrite B1, Hk, Ho. cbn [is_open].
  rewrite (try_close_accepted sk NORMAL_CLOSURE "User disconnected" s2 k);
    [|by rewrite B1|done].
  cbn. unfold sock_closing. rewrite Ho, B1. done.
Qed.

(** X23: the close handler after a permanent disconnect.  With
    [isExplicitDisconnect] set and no probe pending, the close of the
    socket stops the heartbeat and clears the pong and connection
    timeouts, sets the status to DISCONNECTED without recording an error,
    and schedules nothing: no timer is armed that was not armed before,
    and no reconnection attempt is counted. *)
Theorem close_after_permanent_disconnect_does_not_reconnect e reason s :
  isMounted s = true →
  isExplicitDisconnect s = true →
  pendingPings s = [] →
  let s' := onclose e reason s in
    connectionStatus s' = DISCONNECTED
  ∧ lastError s' = lastError s
  ∧ reconnectAttempts s' = reconnectAttempts s
  ∧ reconnectTimeout s' = reconnectTimeout s
  ∧ heartbeatInterval s' = None
  ∧ pongTimeout s' = None
  ∧ connectionTimeout s' = None
  ∧ (∀ tid t, timers s' !! tid = Some t → timers s !! tid = Some t)
  ∧ (∀ h, heartbeatInterval s = Some h → timers s' !! h = None).
Proof.
  intros Hm Hx Hp s'. subst s'. unfold Provider.onclose. rewrite Hm. cbn [negb].
  rewrite cleanupSocket_eq. cbv zeta.
  set (s1 := match heartbeatInterval s with Some _ => _ | None => _ end).
  assert (H1 : session (set_heartbeatInterval (heartbeatInterval s) s1)
               = session (set_timers (timers s1) s)
               ∧ heartbeatInterval s1 = None
               ∧ (∀ tid t, timers s1 !! tid = Some t → timers s !! tid = Some t)
               ∧ (∀ h, heartbeatInterval s = Some h → timers s1 !! h = None)).
  { subst s1. destruct (heartbeatInterval s) as [h|] eqn:Eh; unfold session; cbn;
      rewrite ?Eh; [|by split_and!].
    split_and!; try done.
    - intros tid t. rewrite lookup_delete. by case_decide.
    - intros h' [= <-]. by rewrite lookup_delete_eq. }
  clearbody s1. destruct H1 as (A1 & A2 & A3 & A4).
  set (s2 := match pongTimeout s1 with Some _ => _ | None => _ end).
  assert (H2 : session (set_pongTimeout (pongTimeout s1) s2)
               = session (set_timers (timers s2) s1)
               ∧ pongTimeout s2 = None
               ∧ (∀ tid t, timers s2 !! tid = Some t → timers s1 !! tid = Some t)).
  { subst s2. destruct (pongTimeout s1) as [h|] eqn:Eh; unfold session; cbn;
      rewrite ?Eh; [|by split_and!].
    split_and!; try done. intros tid t. rewrite lookup_delete. by case_decide. }
  clearbody s2. destruct H2 as (B1 & B2 & B3).
  set (s3 := match connectionTimeout s2 with Some _ => _ | None => _ end).
  assert (H3 : session (set_connectionTimeout (connectionTimeout s2) s3)
               = session (set_timers (timers s3) s2)
               ∧ connectionTimeout s3 = None
               ∧ (∀ tid t, timers s3 !! tid = Some t → timers s2 !! tid = Some t)).
  { subst s3. destruct (connectionTimeout s2) as [h|] eqn:Eh; unfold session; cbn;
      rewrite ?Eh; [|by split_and!].
    split_and!; try done. intros tid t. rewrite lookup_delete. by case_decide. }
  clearbody s3. destruct H3 as (C1 & C2 & C3).
  unfold session in A1, B1, C1. cbn in A1, B1, C1.
  injection A1; intros. injection B1; intros. injection C1; intros.
  assert (Hp3 : pendingPings s3 = []) by congruence.
  rewrite Hp3. cbn [reject_pending].
  set (s4 := match env_socket e with Some _ => _ | None => _ end).
  assert (Hs4 : session s4 = session s3).
  { subst s4. unfold session. destruct (env_socket e); cbn; by rewrite Hp3. }
  clearbody s4. unfold session in Hs4. injection Hs4; intros.
  assert (Ht4 : timers s4 = timers s3) by congruence.
  cbn [fst snd]. cbv iota beta.
  assert (Hx4 : isExplicitDisconnect s4 = true) by congruence. rewrite Hx4.
  assert (Hm4 : isMounted s4 = true) by congruence.
  unfold Provider.updateStatus. rewrite Hm4. cbn.
  split_and!; try congruence.
  - intros tid t Ht. apply A3, B3, C3. congruence.
  - intros h Hh. destruct (timers s4 !! h) as [t|] eqn:Et; [|done].
    rewrite Ht4 in Et. apply C3, B3 in Et. by rewrite (A4 h Hh) in Et.
Qed.

(** [cleanupSocket] with no probe pending: it does not throw. *)
Lemma cleanupSocket_no_probes e s :
  pendingPings s = [] →
  (cleanupSocket e s).2 = false
  ∧ heartbeatInterval (cleanupSocket e s).1 = None
  ∧ pongTimeout (cleanupSocket e s).1 = None
  ∧ connectionTimeout (cleanupSocket e s).1 = None
  ∧ react (cleanupSocket e s).1 = react s
  ∧ (now (cleanupSocket e s).1, next_timer (cleanupSocket e s).1,
     next_socket (cleanupSocket e s).1, isExplicitDisconnect (cleanupSocket e s).1)
    = (now s, next_timer s, next_socket s, isExplicitDisconnect s)
  ∧ (∀ tid t, timers (cleanupSocket e s).1 !! tid = Some t → timers s !! tid = Some t)
  ∧ sockets (cleanupSocket e s).1
    = match env_socket e with
      | Some sk =>
          alter (fun k => sock_null_handlers
                            (if is_open (readyState k)
                             then sock_closing NORMAL_CLOSURE "Client disconnecting" k
                             else k)) sk (sockets s)
      | None => sockets s
      end
  ∧ (reconnectAttempts (cleanupSocket e s).1, reconnectTimeout (cleanupSocket e s).1,
     reconnectBackoff (cleanupSocket e s).1, random_count (cleanupSocket e s).1,
     constructions (cleanupSocket e s).1, pendingPings (cleanupSocket e s).1)
    = (reconnectAttempts s, reconnectTimeout s, reconnectBackoff s, random_count s,
       constructions s, []).
Proof.
  intros Hp. pose proof (cleanupSocket_react e s) as Hreact. revert Hreact.
  rewrite cleanupSocket_eq. cbv zeta.
  set (s1 := match heartbeatInterval s with Some _ => _ | None => _ end).
  assert (H1 : heartbeatInterval s1 = None ∧ pendingPings s1 = []
               ∧ sockets s1 = sockets s
               ∧ (now s1, next_timer s1, next_socket s1, isExplicitDisconnect s1)
                 = (now s, next_timer s, next_socket s, isExplicitDisconnect s)
               ∧ (∀ tid t, timers s1 !! tid = Some t → timers s !! tid = Some t)
               ∧ (reconnectAttempts s1, reconnectTimeout s1, reconnectBackoff s1,
                  random_count s1, constructions s1)
                 = (reconnectAttempts s, reconnectTimeout s, reconnectBackoff s,
                    random_count s, constructions s)).
  { subst s1. destruct (heartbeatInterval s) as [h|] eqn:Eh; cbn; [|by split_and!].
    split_and!; try done. intros tid t. rewrite lookup_delete. by case_decide. }
  clearbody s1. destruct H1 as (A1 & A2 & A3 & A4 & A5 & A6).
  set (s2 := match pongTimeout s1 with Some _ => _ | None => _ end).
  assert (H2 : heartbeatInterval s2 = None ∧ pongTimeout s2 = None ∧ pendingPings s2 = []
               ∧ sockets s2 = sockets s
               ∧ (now s2, next_timer s2, next_socket s2, isExplicitDisconnect s2)
                 = (now s, next_timer s, next_socket s, isExplicitDisconnect s)
               ∧ (∀ tid t, timers s2 !! tid = Some t → timers s !! tid = Some t)
               ∧ (reconnectAttempts s2, reconnectTimeout s2, reconnectBackoff s2,
                  random_count s2, constructions s2)
                 = (reconnectAttempts s, reconnectTimeout s, reconnectBackoff s,
                    random_count s, constructions s)).
  { subst s2. rewrite <- A4, <- A6. destruct (pongTimeout s1) as [h|] eqn:Eh; cbn;
      [|by split_and!].
    split_and!; try done. intros tid t. rewrite lookup_delete.
    case_decide; [done|]. apply A5. }
  clearbody s2. clear s1 A1 A2 A3 A4 A5 A6.
  destruct H2 as (B1 & B2 & B3 & B4 & B5 & B6 & B7).
  set (s3 := match connectionTimeout s2 with Some _ => _ | None => _ end).
  assert (H3 : heartbeatInterval s3 = None ∧ pongTimeout s3 = None
               ∧ connectionTimeout s3 = None ∧ pendingPings s3 = []
               ∧ sockets s3 = sockets s
               ∧ (now s3, next_timer s3, next_socket s3, isExplicitDisconnect s3)
                 = (now s, next_timer s, next_socket s, isExplicitDisconnect s)
               ∧ (∀ tid t, timers s3 !! tid = Some t → timers s !! tid = Some t)
               ∧ (reconnectAttempts s3, reconnectTimeout s3, reconnectBackoff s3,
                  random_count s3, constructions s3)
                 = (reconnectAttempts s, reconnectTimeout s, reconnectBackoff s,
                    random_count s, constructions s)).
  { subst s3. rewrite <- B5, <- B7. destruct (connectionTimeout s2) as [h|] eqn:Eh; cbn;
      [|by split_and!].
    split_and!; try done. intros tid t. rewrite lookup_delete.
    case_decide; [done|]. apply B6. }
  clearbody s3. clear s2 B1 B2 B3 B4 B5 B6 B7.
  destruct H3 as (C1 & C2 & C3 & C4 & C5 & C6 & C7 & C8).
  rewrite C4. cbn [reject_pending fst snd]. cbv iota beta. intros Hreact.
  rewrite <- C5, <- C6. injection C8 as D1 D2 D3 D4 D5.
  destruct (env_socket e) as [sk|]; cbn; split_and!; try done; congruence.
Qed.

(** X24: [connect].  It does nothing to the sockets, the timers or the
    status when the provider is unmounted or the user is not
    authenticated.  Otherwise, with no probe pending, it first cleans up:
    the socket its closure holds loses its handlers and, if open, is asked
    to close with code 1000; the status is set to CONNECTING and
    [isExplicitDisconnect] cleared.  When the constructors succeed it
    creates a socket in state CONNECTING with handlers of its own closure,
    stores it in [socket] and arms the connection timeout
    [CONNECTION_TIMEOUT] later; no heartbeat and no pong timeout survive
    the call.  When a constructor throws, no socket is created and
    [socket] is left as it was; the error is recorded, and
    [handleReconnect] is called: with attempts left and a closure that did
    not see RECONNECTING the status ends as RECONNECTING with the attempt
    counted and a reconnection armed, otherwise as ERROR with no timer. *)
Theorem connect_opens_a_new_socket e s :
  (isMounted s = false ∨ env_auth e = false →
     session (connect e s) = session s ∧ sockets (connect e s) = sockets s)
  ∧ (isMounted s = true → env_auth e = true → pendingPings s = [] →
     new_WebSocket (constructions s) = Constructed →
     let sk := next_socket s in
     let s' := connect e s in
       socket s' = Some sk
     ∧ sockets s' !! sk
       = Some {| readyState := RS_CONNECTING; sent := []; closed_with := None;
                 handlers := Some e |}
     ∧ connectionStatus s' = CONNECTING
     ∧ isExplicitDisconnect s' = false
     ∧ connectionTimeout s' = Some (next_timer s)
     ∧ timers s' !! next_timer s
       = Some {| due := now s + CONNECTION_TIMEOUT; kind := ConnectionTimeoutK e sk |}
     ∧ heartbeatInterval s' = None
     ∧ pongTimeout s' = None
     ∧ (∀ old k, env_socket e = Some old → old ≠ sk → sockets s !! old = Some k →
          sockets s' !! old
          = Some (sock_null_handlers
                    (if is_open (readyState k)
                     then sock_closing NORMAL_CLOSURE "Client disconnecting" k else k))))
  ∧ (∀ message,
     isMounted s = true → env_auth e = true → pendingPings s = [] →
     new_WebSocket (constructions s) = ConstructorThrew message →
     let s' := connect e s in
       socket s' = socket s
     ∧ next_socket s' = next_socket s
     ∧ (∀ sk, sockets s' !! sk = None ↔ sockets s !! sk = None)
     ∧ isExplicitDisconnect s' = false
     ∧ connectionTimeout s' = None
     ∧ ((reconnectAttempts s < MAX_RECONNECT_ATTEMPTS)%nat →
        env_status e ≠ RECONNECTING →
          connectionStatus s' = RECONNECTING
        ∧ lastError s' = Some message
        ∧ reconnectAttempts s' = S (reconnectAttempts s)
        ∧ ∃ tid t, reconnectTimeout s' = Some tid ∧ timers s' !! tid = Some t
                   ∧ kind t = ReconnectK e)
     ∧ ((MAX_RECONNECT_ATTEMPTS ≤ reconnectAttempts s)%nat
        ∨ env_status e = RECONNECTING →
          connectionStatus s' = ERROR
        ∧ lastError s' = Some "Max reconnection attempts reached"%string
        ∧ reconnectAttempts s' = reconnectAttempts s
        ∧ reconnectTimeout s' = reconnectTimeout s)).
Proof.
  split_and!.
  - intros Hg. unfold Provider.connect.
    destruct (isMounted s) eqn:Hm; cbn [negb].
    + destruct Hg as [?|Ha]; [done|]. rewrite Ha. cbn [negb].
      by rewrite debugLog_session, debugLog_keeps_sockets.
    + by rewrite debugLog_unmounted.
  - intros Hm Ha Hp Hc sk s'. subst sk s'. unfold Provider.connect.
    rewrite Hm, Ha. cbn [negb].
    destruct (cleanupSocket_no_probes e s Hp)
      as (D1 & D2 & D3 & D4 & D5 & D6 & D7 & D8 & D9).
    destruct (cleanupSocket e s) as [s1 threw]. cbn [fst snd] in *. subst threw.
    unfold react in D5. injection D5 as R1 R2 R3 R4 R5. injection D6 as T1 T2 T3 T4.
    injection D9 as U1 U2 U3 U4 U5 U6.
    unfold Provider.updateStatus. rewrite R5, Hm. cbn. rewrite U5, Hc. cbn.
    rewrite T1, T2, T3.
    split_and!; try done.
    + by rewrite lookup_insert_eq.
    + by rewrite lookup_insert_eq.
    + intros old k Ho Hne Hk. rewrite lookup_insert_ne by done.
      rewrite D8, Ho, lookup_alter_eq, Hk. done.
  - intros message Hm Ha Hp Hc s'. subst s'. unfold Provider.connect.
    rewrite Hm, Ha. cbn [negb].
    destruct (cleanupSocket_no_probes e s Hp)
      as (D1 & D2 & D3 & D4 & D5 & D6 & D7 & D8 & D9).
    destruct (cleanupSocket e s) as [s1 threw]. cbn [fst snd] in *. subst threw.
    unfold react in D5. injection D5 as R1 R2 R3 R4 R5. injection D6 as T1 T2 T3 T4.
    injection D9 as U1 U2 U3 U4 U5 U6.
    cbv zeta.
    assert (Hu : updateStatus CONNECTING None s1 = set_connectionStatus CONNECTING s1).
    { unfold Provider.updateStatus. by rewrite R5, Hm. }
    rewrite Hu. cbn [constructions set_isExplicitDisconnect set_connectionStatus].
    rewrite U5, Hc.
    set (s2 := set_constructions _ _).
    set (s3 := debugLog "error" "Error creating WebSocket:" s2).
    assert (Hs3 : session s3 = session s2 ∧ sockets s3 = sockets s2).
    { subst s3. by rewrite debugLog_session, debugLog_keeps_sockets. }
    clearbody s3. destruct Hs3 as (Hs3 & Hk3). subst s2. cbn in Hk3.
    unfold session in Hs3. cbn in Hs3.
    injection Hs3 as F1 F2 F3 F4 F5 F6 F7 F8 F9 F10 F11 F12 F13 F14 F15 F16 F17 F18 F19.
    set (s4 := updateStatus ERROR (Some message) s3).
    assert (Hs5 : session s4
                  = session (set_lastError (Some message)
                               (set_connectionStatus ERROR s3))
                  ∧ sockets s4 = sockets s3).
    { subst s4. unfold Provider.updateStatus. rewrite F9, R5, Hm.
      by rewrite addLog_session, addLog_keeps_sockets. }
    clearbody s4. destruct Hs5 as (Hs5 & Hk5).
    unfold session in Hs5. cbn in Hs5.
    injection Hs5 as G1 G2 G3 G4 G5 G6 G7 G8 G9 G10 G11 G12 G13 G14 G15 G16 G17 G18 G19.
    assert (Hsock : ∀ sk, sockets s4 !! sk = None ↔ sockets s !! sk = None).
    { intros sk. rewrite Hk5, Hk3, D8. destruct (env_socket e) as [old|]; [|done].
      destruct (decide (sk = old)) as [->|Hne].
      - rewrite lookup_alter_eq. by destruct (sockets s !! old).
      - by rewrite lookup_alter_ne. }
    assert (Hm4 : isMounted s4 = true) by congruence.
    unfold Provider.handleReconnect. rewrite Hm4. cbn [negb].
    destruct (status_eqb (env_status e) RECONNECTING
              || (0 <? MAX_RECONNECT_ATTEMPTS)%nat
                 && (MAX_RECONNECT_ATTEMPTS <=? reconnectAttempts s4)%nat) eqn:Eg.
    + pose proof (debugLog_session "warn" "Max reconnection attempts reached" s4) as Hv.
      pose proof (debugLog_keeps_sockets "warn" "Max reconnection attempts reached" s4)
        as Hvk.
      set (s5 := debugLog _ _ s4) in *. clearbody s5.
      unfold session in Hv.
      injection Hv as E1 E2 E3 E4 E5 E6 E7 E8 E9 E10 E11 E12 E13 E14 E15 E16 E17 E18 E19.
      unfold Provider.updateStatus. rewrite E9, Hm4.
      set (s6 := set_lastError _ _).
      pose proof (addLog_session "Error: Max reconnection attempts reached" "error" s6)
        as Hv2.
      pose proof (addLog_keeps_sockets "Error: Max reconnection attempts reached" "error"
                    s6) as Hvk2.
      change (String.append "Error: " (if String.eqb _ _ then _ else _))
        with "Error: Max reconnection attempts reached"%string.
      unfold session in Hv2. cbn in Hv2.
      injection Hv2 as H1 H2 H3 H4 H5 H6 H7 H8 H9 H10 H11 H12 H13 H14 H15 H16 H17 H18 H19.
      split_and!; try congruence.
      * intros sk. rewrite Hvk2. subst s6. cbn. rewrite Hvk. apply Hsock.
      * intros Hlt Hne. exfalso. rewrite (status_eqb_neq _ _ Hne), orb_false_l in Eg.
        apply andb_true_iff in Eg as [_ Eg]. apply Nat.leb_le in Eg.
        assert (reconnectAttempts s4 = reconnectAttempts s) as Hra by congruence. lia.
      * intros _. split_and!; congruence.
    + apply orb_false_iff in Eg as [Eg1 Eg2].
      apply andb_false_iff in Eg2 as [Eg2|Eg2]; [done|]. apply Nat.leb_gt in Eg2.
      cbn [fresh_random]. cbv zeta.
      set (s5 := set_random_count (S (random_count s4)) s4).
      set (d := reconnect_delay _ _ _). clearbody d.
      set (s6 := set_reconnectAttempts (S (reconnectAttempts s5)) s5).
      assert (Hm6 : isMounted s6 = true) by (subst s6 s5; cbn; congruence).
      unfold Provider.updateStatus. rewrite Hm6.
      set (s7 := set_connectionStatus RECONNECTING s6).
      set (s8 := clear_handle (reconnectTimeout s7) s7).
      assert (Hs8 : (socket s8, next_socket s8, sockets s8, isExplicitDisconnect s8,
                     connectionTimeout s8, connectionStatus s8, lastError s8,
                     reconnectAttempts s8)
                    = (socket s4, next_socket s4, sockets s4, isExplicitDisconnect s4,
                       connectionTimeout s4, RECONNECTING, lastError s4,
                       S (reconnectAttempts s4))).
      { subst s8. by destruct (reconnectTimeout s7). }
      clearbody s8. injection Hs8 as K1 K2 K3 K4 K5 K6 K7 K8.
      unfold setTimer. cbn.
      split_and!; try congruence.
      * intros sk. rewrite K3. apply Hsock.
      * intros _ _. split_and!; try congruence.
        eexists _, _. split; [done|]. rewrite lookup_insert_eq. done.
      * intros [Hge|Hst]; exfalso.
        -- assert (reconnectAttempts s4 = reconnectAttempts s) as Hra by congruence. lia.
        -- rewrite Hst in Eg1. done.
Qed.

(** *** The provider and its sockets *)

(** What decides whether a probe can be recorded. *)
Definition shell (s : state) :=
  (isMounted s, socket s, sockets s, pendingPings s, next_socket s).

(** Sockets come from [connect] only, and [connect] stores the new socket
    in [socket]; the cleanup of the effect then runs.  So a provider that
    is still mounted has no socket, one that has a socket counts as
    unmounted, and the heartbeat, which wants both, never records a
    probe. *)
Record dormant (s : state) : Prop := {
  dormant_probes : pendingPings s = [];
  dormant_mounted : isMounted s = true → sockets s = ∅ ∧ socket s = None
}.

Lemma shell_probes s s' : shell s' = shell s → pendingPings s' = pendingPings s.
Proof. unfold shell. congruence. Qed.

Lemma session_probes s s' : session s' = session s → pendingPings s' = pendingPings s.
Proof. unfold session. intros H. by injection H. Qed.

Lemma addLog_shell m ty s : shell (addLog m ty s) = shell s.
Proof. unfold Provider.addLog. by destruct (isMounted s). Qed.

Lemma debugLog_shell l m s : shell (debugLog l m s) = shell s.
Proof.
  unfold Provider.debugLog. destruct DEBUG; [|done].
  destruct (_ || _); [apply addLog_shell|done].
Qed.

Lemma updateStatus_shell st err s : shell (updateStatus st err s) = shell s.
Proof.
  unfold Provider.updateStatus. destruct (isMounted s) eqn:Hm; [|done].
  destruct err; [|by unfold shell; cbn; rewrite Hm].
  rewrite addLog_shell. unfold shell. cbn. by rewrite Hm.
Qed.

Lemma handleReconnect_shell e s : shell (handleReconnect e s) = shell s.
Proof.
  unfold Provider.handleReconnect. destruct (negb (isMounted s)); [done|].
  destruct (_ || _).
  - by rewrite updateStatus_shell, debugLog_shell.
  - cbn [fresh_random]. cbv zeta.
    set (s1 := set_random_count _ s).
    set (s2 := set_reconnectAttempts _ s1).
    set (s3 := updateStatus RECONNECTING None s2).
    assert (H3 : shell s3 = shell s) by (subst s3; by rewrite updateStatus_shell).
    clearbody s3. set (s4 := clear_handle _ s3).
    assert (H4 : shell s4 = shell s) by (subst s4; by destruct (reconnectTimeout s3)).
    clearbody s4. done.
Qed.

Lemma alter_nothing (f : websocket → websocket) sk :
  alter f sk (∅ : gmap nat websocket) = ∅.
Proof. apply map_eq. intros j. rewrite lookup_alter, !lookup_empty. by case_decide. Qed.

Lemma try_send_bare o f s : sockets s = ∅ → try_send o f s = None.
Proof. intros H. unfold try_send. destruct o; [|done]. by rewrite H, lookup_empty. Qed.

Lemma try_close_bare sk code reason s : sockets s = ∅ → try_close sk code reason s = None.
Proof. intros H. unfold try_close. by rewrite H, lookup_empty. Qed.

Lemma socket_open_bare s o : sockets s = ∅ → socket_open s o = false.
Proof. intros H. unfold socket_open. destruct o; [|done]. by rewrite H, lookup_empty. Qed.

Lemma sendMessage_bare e m q s :
  sockets s = ∅ → shell (sendMessage e m q s).1 = shell s.
Proof.
  intros Hs. unfold Provider.sendMessage. destruct m as [m|]; [|done].
  destruct (negb _).
  - destruct q; [|apply debugLog_shell].
    destruct (_ <? _)%nat; [done|apply debugLog_shell].
  - cbn. rewrite try_send_bare by done.
    set (s2 := Provider.debugLog _ _ _ _ _).
    assert (H2 : shell s2 = shell s) by (subst s2; by rewrite debugLog_shell).
    clearbody s2. by destruct q.
Qed.

Lemma processMessageQueue_bare e s : sockets s = ∅ → processMessageQueue e s = s.
Proof. intros Hs. unfold Provider.processMessageQueue. by rewrite socket_open_bare. Qed.

(** With no probe pending [cleanupSocket] does not throw and leaves none. *)
Lemma cleanupSocket_idle e s :
  pendingPings s = [] →
  pendingPings (cleanupSocket e s).1 = [] ∧ isMounted (cleanupSocket e s).1 = isMounted s
  ∧ (cleanupSocket e s).2 = false.
Proof.
  intros Hp.
  destruct (cleanupSocket_no_probes e s Hp) as (D1 & _ & _ & _ & D5 & _ & _ & _ & D9).
  unfold react in D5. injection D5 as R1 R2 R3 R4 R5. injection D9 as U1 U2 U3 U4 U5 U6.
  done.
Qed.

Lemma cleanupSocket_bare e s :
  sockets s = ∅ → pendingPings s = [] →
  shell (cleanupSocket e s).1 = shell s ∧ (cleanupSocket e s).2 = false.
Proof.
  intros Hs Hp.
  destruct (cleanupSocket_no_probes e s Hp) as (D1 & _ & _ & _ & D5 & D6 & _ & D8 & D9).
  split; [|done]. unfold react in D5. injection D5 as R1 R2 R3 R4 R5.
  injection D6 as T1 T2 T3 T4.
  injection D9 as U1 U2 U3 U4 U5 U6. unfold shell. rewrite R5, R1, U6, Hp, D8, Hs, T3.
  destruct (env_socket e); by rewrite ?alter_nothing.
Qed.

Lemma disconnect_idle e permanent s :
  pendingPings s = [] → pendingPings (disconnect e permanent s) = [].
Proof.
  intros Hp. unfold Provider.disconnect. cbv zeta.
  destruct (disconnect_prologue permanent s) as (_ & _ & _ & _ & _ & _ & B7 & _).
  cbv zeta in B7.
  set (s2 := match reconnectTimeout _ with Some _ => _ | None => _ end) in *.
  clearbody s2. rewrite Hp in B7.
  destruct (env_socket e) as [sk|].
  - destruct (socket_open s2 (Some sk)).
    + destruct (try_close sk _ _ s2) as [s3|] eqn:E.
      * by rewrite (session_probes _ _ (try_close_session _ _ _ _ _ E)).
      * by rewrite (shell_probes _ _ (debugLog_shell _ _ _)).
    + destruct (cleanupSocket_idle e s2 B7) as (H1 & _ & H2).
      destruct (cleanupSocket e s2) as [s3 threw]. cbn in H1, H2. subst threw.
      by rewrite (shell_probes _ _ (updateStatus_shell _ _ _)).
  - by rewrite (shell_probes _ _ (updateStatus_shell _ _ _)).
Qed.

Lemma disconnect_bare e permanent s :
  sockets s = ∅ → pendingPings s = [] → shell (disconnect e permanent s) = shell s.
Proof.
  intros Hs Hp. unfold Provider.disconnect. cbv zeta.
  set (s1 := if permanent then _ else _).
  assert (H1 : shell s1 = shell s) by (subst s1; by destruct permanent).
  clearbody s1.
  set (s2 := match reconnectTimeout s1 with Some _ => _ | None => _ end).
  assert (H2 : shell s2 = shell s).
  { rewrite <- H1. subst s2. by destruct (reconnectTimeout s1). }
  clearbody s2. clear s1 H1.
  assert (Hs2 : sockets s2 = ∅) by (unfold shell in H2; congruence).
  assert (Hp2 : pendingPings s2 = []) by (unfold shell in H2; congruence).
  destruct (env_socket e) as [sk|].
  - rewrite socket_open_bare by done.
    destruct (cleanupSocket_bare e s2 Hs2 Hp2) as (H3 & Ht).
    destruct (cleanupSocket e s2) as [s3 threw]. cbn in H3, Ht. subst threw.
    by rewrite updateStatus_shell, H3.
  - by rewrite updateStatus_shell.
Qed.

(** [connect] on a provider that has no socket: the sockets stay as they
    were, or a socket was constructed and stored. *)
Lemma connect_bare e s :
  sockets s = ∅ → pendingPings s = [] →
  pendingPings (connect e s) = []
  ∧ (shell (connect e s) = shell s ∨ socket (connect e s) = Some (next_socket s)).
Proof.
  intros Hs Hp. unfold Provider.connect.
  destruct (negb (isMounted s)).
  { rewrite debugLog_shell. split; [|by left].
    by rewrite (shell_probes _ _ (debugLog_shell _ _ _)). }
  destruct (negb (env_auth e)).
  { rewrite debugLog_shell. split; [|by left].
    by rewrite (shell_probes _ _ (debugLog_shell _ _ _)). }
  destruct (cleanupSocket_bare e s Hs Hp) as (H1 & Ht).
  destruct (cleanupSocket e s) as [s1 threw]. cbn in H1, Ht. subst threw. cbv zeta.
  set (s2 := set_isExplicitDisconnect false (updateStatus CONNECTING None s1)).
  assert (H2 : shell s2 = shell s).
  { subst s2. transitivity (shell (updateStatus CONNECTING None s1)); [done|].
    by rewrite updateStatus_shell. }
  clearbody s2.
  destruct (new_WebSocket (constructions s2)) as [|message].
  - cbn. unfold shell in H2. injection H2 as _ _ _ -> ->. split; [done|by right].
  - set (s4 := updateStatus ERROR (Some message) _).
    assert (H4 : shell s4 = shell s).
    { subst s4. rewrite updateStatus_shell, debugLog_shell. exact H2. }
    clearbody s4. rewrite handleReconnect_shell.
    split; [|by left]. by rewrite (shell_probes _ _ (handleReconnect_shell _ _)),
                                   (shell_probes _ _ H4).
Qed.

Lemma fire_timer_bare tid t s :
  sockets s = ∅ → pendingPings s = [] →
  pendingPings (fire_timer tid t s) = []
  ∧ (shell (fire_timer tid t s) = shell s ∨
     socket (fire_timer tid t s) = Some (next_socket s)).
Proof.
  intros Hs Hp. unfold Provider.fire_timer. destruct (kind t) as [e|e pid|e|e sk|e].
  - unfold Provider.heartbeat_tick.
    rewrite socket_open_bare by done. rewrite orb_true_r. cbn. split; [done|by left].
  - unfold Provider.heartbeat_failed.
    set (s1 := set_pendingPings _ _).
    assert (H1 : shell s1 = shell s) by (unfold shell; subst s1; cbn; by rewrite Hp).
    clearbody s1.
    assert (H2 : shell (handleReconnect e
                          (debugLog "warn" "Heartbeat failed, reconnecting..." s1))
                 = shell s)
      by (by rewrite handleReconnect_shell, debugLog_shell).
    split; [|by left]. by rewrite (shell_probes _ _ H2).
  - cbv zeta. destruct (isMounted (clearTimer tid s)); [|split; [done|by left]].
    apply (connect_bare e (clearTimer tid s)); done.
  - cbv zeta. destruct (status_eqb (env_status e) CONNECTING); [|split; [done|by left]].
    rewrite try_close_bare by (by rewrite debugLog_keeps_sockets).
    cbn. split; [|left; by rewrite debugLog_shell].
    by rewrite (shell_probes _ _ (debugLog_shell _ _ _)).
  - rewrite processMessageQueue_bare by done. split; [done|by left].
Qed.

(** A provider without sockets: what an event can do. *)
Lemma handle_bare ev s s' :
  sockets s = ∅ → pendingPings s = [] → handle ev s = Some s' →
  pendingPings s' = []
  ∧ (shell s' = shell s ∨ isMounted s' = false ∨ socket s' = Some (next_socket s)).
Proof.
  intros Hs Hp. destruct ev as [e|e p|e|e m q|e|sk|sk d|sk|sk r|tid|t]; cbn.
  - intros [= <-]. destruct (connect_bare e s Hs Hp) as (H1 & [H2|H2]); eauto.
  - intros [= <-]. pose proof (disconnect_bare e p s Hs Hp) as H.
    split; [|by left]. by rewrite (shell_probes _ _ H).
  - intros [= <-]. unfold Provider.reconnect.
    pose proof (disconnect_bare e false s Hs Hp) as H.
    set (s1 := disconnect e false s) in *. clearbody s1.
    assert (Hs1 : sockets s1 = ∅) by (unfold shell in H; congruence).
    assert (Hp1 : pendingPings s1 = []) by (unfold shell in H; congruence).
    assert (Hn1 : next_socket s1 = next_socket s) by (unfold shell in H; congruence).
    destruct (connect_bare e s1 Hs1 Hp1) as (G1 & [G2|G2]).
    + split; [done|]. left. by rewrite G2.
    + split; [done|]. right. right. by rewrite <- Hn1.
  - intros [= <-]. pose proof (sendMessage_bare e m q s Hs) as H.
    split; [|by left]. by rewrite (shell_probes _ _ H).
  - intros [= <-]. unfold Provider.unmount.
    destruct (cleanupSocket_idle e (set_isMounted false s) Hp) as (H1 & H2 & _).
    split; [done|]. right. by left.
  - by rewrite Hs, lookup_empty.
  - by rewrite Hs, lookup_empty.
  - intros [= <-]. unfold with_handlers. rewrite Hs, lookup_empty.
    split; [done|by left].
  - by rewrite Hs, lookup_empty.
  - destruct (timers s !! tid) as [tm|]; [|done].
    destruct (due tm <=? now s); [|done]. intros [= <-].
    destruct (fire_timer_bare tid tm s Hs Hp) as (H1 & [H2|H2]); eauto.
  - destruct (_ <=? _); [|done]. intros [= <-]. split; [done|by left].
Qed.

(** An unmounted provider records no probe, whatever the event. *)
Lemma handle_unmounted_idle ev s s' :
  isMounted s = false → pendingPings s = [] → handle ev s = Some s' →
  pendingPings s' = [].
Proof.
  intros Hm Hp. destruct ev as [e|e p|e|e m q|e|sk|sk d|sk|sk r|tid|t]; cbn.
  - intros [= <-]. by rewrite connect_unmounted.
  - intros [= <-]. by apply disconnect_idle.
  - intros [= <-]. unfold Provider.reconnect.
    rewrite connect_unmounted; [by apply disconnect_idle|].
    rewrite <- Hm. apply react_isMounted. by apply disconnect_react.
  - intros [= <-]. by rewrite (session_probes _ _ (sendMessage_session e m q s)).
  - intros [= <-]. unfold Provider.unmount.
    by destruct (cleanupSocket_idle e (set_isMounted false s) Hp) as (H1 & _).
  - destruct (sockets s !! sk) as [k|]; [|done].
    destruct (readyState k); try done. intros [= <-].
    unfold with_handlers. cbn. destruct (alter _ sk (sockets s) !! sk) as [k'|]; [|done].
    destruct (handlers k'); [|done]. unfold Provider.onopen. cbn. by rewrite Hm.
  - destruct (sockets s !! sk) as [k|]; [|done].
    assert (H : pendingPings (with_handlers sk (fun e => onmessage e d) s) = []).
    { unfold with_handlers. destruct (sockets s !! sk) as [k'|]; [|done].
      destruct (handlers k'); [|done]. unfold Provider.onmessage. by rewrite Hm. }
    destruct (readyState k); try done; by intros [= <-].
  - intros [= <-]. unfold with_handlers. destruct (sockets s !! sk) as [k'|]; [|done].
    destruct (handlers k'); [|done]. unfold Provider.onerror. by rewrite Hm.
  - destruct (sockets s !! sk) as [k|]; [|done].
    assert (H : pendingPings (with_handlers sk (fun e => onclose e r)
                                (upd_socket sk (sock_set_ready RS_CLOSED) s)) = []).
    { unfold with_handlers. cbn.
      destruct (alter _ sk (sockets s) !! sk) as [k'|]; [|done].
      destruct (handlers k'); [|done]. unfold Provider.onclose. cbn. by rewrite Hm. }
    destruct (readyState k); try done; by intros [= <-].
  - destruct (timers s !! tid) as [tm|]; [|done].
    destruct (due tm <=? now s); [|done]. intros [= <-].
    unfold Provider.fire_timer. destruct (kind tm) as [e|e pid|e|e sk|e].
    + unfold Provider.heartbeat_tick. cbn. by rewrite Hm.
    + unfold Provider.heartbeat_failed.
      rewrite debugLog_unmounted, handleReconnect_unmounted by done. cbn. by rewrite Hp.
    + cbn. by rewrite Hm.
    + cbv zeta. destruct (status_eqb (env_status e) CONNECTING); [|done].
      rewrite debugLog_unmounted by done.
      destruct (try_close sk _ _ _) as [s3|] eqn:E; [|done]. cbn.
      by rewrite (session_probes _ _ (try_close_session _ _ _ _ _ E)).
    + destruct (processMessageQueue_session e (clearTimer tid s)) as [H|(s1 & H & ->)].
      * by rewrite (session_probes _ _ H).
      * cbn. by rewrite (session_probes _ _ H).
  - destruct (_ <=? _); [|done]. by intros [= <-].
Qed.

Lemma dormant_init : dormant init.
Proof. by split. Qed.

Lemma step_dormant ev s s' : dormant s → step ev s = Some s' → dormant s'.
Proof.
  intros [Hp Hmo]. unfold Provider.step.
  destruct (handle ev s) as [s1|] eqn:E; [|done]. intros [= <-].
  assert (H1 : pendingPings s1 = []
               ∧ (isMounted s1 = true → socket s1 = socket s →
                  sockets s1 = ∅ ∧ socket s1 = None)).
  { destruct (isMounted s) eqn:Hm.
    - destruct (Hmo eq_refl) as (Hs & Hk).
      destruct (handle_bare ev s s1 Hs Hp E) as (G1 & [G2|[G2|G2]]).
      + split; [done|]. intros _ _. unfold shell in G2. split; congruence.
      + split; [done|]. congruence.
      + split; [done|]. congruence.
    - split; [by apply (handle_unmounted_idle ev s s1)|].
      pose proof (react_isMounted _ _ (handle_react ev s s1 Hm E)). congruence. }
  destruct H1 as (Hp1 & Hm1). unfold Provider.commit. case_bool_decide as Hsock.
  - split; [done|]. intros Hm. by apply Hm1.
  - unfold Provider.unmount.
    destruct (cleanupSocket_idle (render true s) (set_isMounted false s1) Hp1)
      as (G1 & G2 & _).
    split; [done|]. rewrite G2. done.
Qed.

Lemma reachable_dormant s : reachable s → dormant s.
Proof. induction 1; [apply dormant_init|by eapply step_dormant]. Qed.

Lemma session_run_run evs s s' : session_run evs s = Some s' → run evs s = Some s'.
Proof.
  revert s. induction evs as [|ev evs IH]; intros s; cbn; [done|].
  destruct (of_this_render ev s); [|done].
  destruct (Provider.step _ _ _ _ _ ev s) as [s1|]; [|done]. apply IH.
Qed.

Lemma run_reachable evs s s' : reachable s → run evs s = Some s' → reachable s'.
Proof.
  revert s. induction evs as [|ev evs IH]; intros s Hr; cbn.
  - by intros [= <-].
  - destruct (Provider.step _ _ _ _ _ ev s) as [s1|] eqn:E; [|done].
    apply IH. by eapply reach_step.
Qed.

(** *** The heartbeat and its probes *)

Lemma sendPing_open e s sk k :
  env_socket e = Some sk → sockets s !! sk = Some k → readyState k = RS_OPEN →
  sendPing e s
  = (set_sockets
       (<[sk := {| readyState := RS_OPEN;
                   sent := sent k ++ [ping_frame (uuidv4 (uuid_count s)) s];
                   closed_with := closed_with k; handlers := handlers k |}]> (sockets s))
       (set_pendingPings
          (pp_set (uuidv4 (uuid_count s))
                  {| p_timestamp := now s; p_timeout := next_timer s; p_env := e;
                     p_has_reject := false |} (pendingPings s))
          (set_next_timer (S (next_timer s))
             (set_timers (<[next_timer s := {| due := now s + PONG_TIMEOUT;
                                               kind := PongTimeoutK e (uuidv4 (uuid_count s))
                                            |}]> (timers s))
                (set_uuid_count (S (uuid_count s)) s)))), None).
Proof.
  intros Hsk Hk Ho. unfold Provider.sendPing, socket_open. rewrite Hsk, Hk, Ho. cbn.
  unfold try_send. cbn. rewrite Hk. unfold sock_send. rewrite Ho. done.
Qed.


(** *** [disconnect] on an open socket *)


(** *** The transition to CONNECTED *)

Lemma onopen_mounted e s :
  isMounted s = true →
  onopen e s
  = processMessageQueue e
      (startHeartbeat e
         (set_lastActivity (now s)
            (set_reconnectAttempts 0 (set_connectionStatus CONNECTED s)))).
Proof.
  intros Hm. unfold Provider.onopen. rewrite Hm. cbn [negb]. cbv zeta.
  unfold Provider.updateStatus. by rewrite Hm.
Qed.

Lemma startHeartbeat_keeps e s :
  (connectionStatus (startHeartbeat e s), reconnectAttempts (startHeartbeat e s),
   reconnectBackoff (startHeartbeat e s), now (startHeartbeat e s))
  = (connectionStatus s, reconnectAttempts s, reconnectBackoff s, now s)
  ∧ sockets (startHeartbeat e s) = sockets s
  ∧ messageQueue (startHeartbeat e s) = messageQueue s
  ∧ uuid_count (startHeartbeat e s) = uuid_count s
  ∧ heartbeatInterval (startHeartbeat e s) = Some (next_timer s)
  ∧ next_timer (startHeartbeat e s) = S (next_timer s)
  ∧ timers (startHeartbeat e s) !! next_timer s
    = Some {| due := now s + HEARTBEAT_INTERVAL; kind := HeartbeatK e |}.
Proof.
  unfold startHeartbeat, clear_handle, setTimer.
  destruct (heartbeatInterval s) as [h|] eqn:Eh; cbn; rewrite ?Eh;
    split_and!; try done; by rewrite lookup_insert_eq.
Qed.


End ProviderProperties.

(** *** The handler registry: [on] and [off] *)

(** [messageHandlers]: a [Map] from message type to the [Set] of handlers
    registered for it.  Handlers are functions, compared by identity. *)
Abbreviation handler_map := (gmap string (gset nat)).

(** The second argument of [on]: a function, or anything else. *)
Inductive handler_arg := Fn (h : nat) | NotFn.

(** [on(messageType, handler)]; [None] when it throws 'Handler must be a
    function'. *)
Definition on (ty : string) (h : handler_arg) (m : handler_map) : option handler_map :=
  match h with
  | NotFn => None
  | Fn f => Some (<[ty := default ∅ (m !! ty) ∪ {[ f ]}]> m)
  end.

(** [off(messageType, handler)], which is also what the function returned
    by [on] does. *)
Definition off (ty : string) (f : nat) (m : handler_map) : handler_map :=
  match m !! ty with
  | Some hs =>
      if decide (hs ∖ {[ f ]} = ∅) then delete ty m else <[ty := hs ∖ {[ f ]}]> m
  | None => m
  end.

(** No message type is mapped to an empty set. *)
Definition tidy (m : handler_map) : Prop := ∀ ty hs, m !! ty = Some hs → hs ≠ ∅.

(** X25: unsubscribing undoes subscribing.  In a registry where no type
    is mapped to an empty set, registering a handler that was not
    registered for the type and then calling [off] (or the function [on]
    returned) gives back the registry as it was; and both [on] and [off]
    keep the registry free of empty sets, starting from the empty one. *)
Theorem off_undoes_on ty f m :
  tidy m →
  f ∉ default ∅ (m !! ty) →
  (off ty f <$> on ty (Fn f) m) = Some m
  ∧ (∀ m', on ty (Fn f) m = Some m' → tidy m')
  ∧ tidy (off ty f m)
  ∧ tidy ∅.
Proof.
  intros Ht Hf. split_and!.
  - unfold on. cbn [fmap option_fmap option_map]. f_equal. unfold off.
    rewrite lookup_insert_eq.
    destruct (m !! ty) as [hs|] eqn:E; cbn [default from_option id] in *.
    + assert ((hs ∪ {[f]}) ∖ {[f]} = hs) as -> by set_solver.
      destruct (decide (hs = ∅)) as [->|_]; [by apply Ht in E|].
      rewrite insert_insert_eq. by apply insert_id.
    + assert (((∅ : gset nat) ∪ {[f]}) ∖ {[f]} = ∅) as -> by set_solver.
      rewrite decide_True by done. rewrite delete_insert_eq. by apply delete_id.
  - intros m' [= <-] ty' hs. rewrite lookup_insert. case_decide; [|apply Ht].
    intros [= <-]. set_solver.
  - unfold off. destruct (m !! ty) as [hs|] eqn:E; [|done].
    destruct (decide (hs ∖ {[f]} = ∅)) as [He|Hne].
    + intros ty' hs'. rewrite lookup_delete. case_decide; [done|]. apply Ht.
    + intros ty' hs'. rewrite lookup_insert. case_decide; [|apply Ht]. by intros [= <-].
  - intros ty' hs. by rewrite lookup_empty.
Qed.

Lemma off_undoes_on_witness :
  (off "CHAT" 7 <$> on "CHAT" (Fn 7) (∅ : handler_map)) = Some ∅.
Proof.
  refine (proj1 (off_undoes_on "CHAT" 7 ∅ _ _)).
  - intros ty hs. by rewrite lookup_empty.
  - rewrite lookup_empty. cbn. apply not_elem_of_empty.
Defined.

(** X26: the handlers of a type form a set.  Registering a handler a
    second time changes nothing, so a single [off] removes it however
    often it was registered: after [off] the handler is not registered for
    the type, the other handlers of the type still are, and the handlers
    of every other type are untouched.  A handler that is not a function
    is refused and the registry is not changed. *)
Theorem one_off_removes_a_handler_registered_twice ty f m :
  (∀ m1, on ty (Fn f) m = Some m1 → on ty (Fn f) m1 = Some m1)
  ∧ (f ∉ default ∅ (off ty f m !! ty))
  ∧ (∀ g, g ≠ f → g ∈ default ∅ (m !! ty) → g ∈ default ∅ (off ty f m !! ty))
  ∧ (∀ ty', ty' ≠ ty → off ty f m !! ty' = m !! ty')
  ∧ on ty NotFn m = None.
Proof.
  split_and!.
  - intros m1 [= <-]. unfold on. f_equal. rewrite lookup_insert_eq. cbn [default from_option id].
    rewrite insert_insert_eq. f_equal. set_solver.
  - unfold off. destruct (m !! ty) as [hs|] eqn:E; [|by rewrite E].
    destruct (decide _).
    + rewrite lookup_delete_eq. cbn. set_solver.
    + rewrite lookup_insert_eq. cbn. set_solver.
  - intros g Hne. unfold off. destruct (m !! ty) as [hs|] eqn:E; [|by rewrite E].
    cbn. intros Hg. destruct (decide _) as [He|_].
    + exfalso. set_solver.
    + rewrite lookup_insert_eq. cbn. set_solver.
  - intros ty' Hne. unfold off. destruct (m !! ty) as [hs|]; [|done].
    destruct (decide _); [by rewrite lookup_delete_ne|by rewrite lookup_insert_ne].
  - done.
Qed.


(** *** Worked examples for the properties above *)

Definition demo_live_socket : websocket :=
  {| readyState := RS_OPEN; sent := []; closed_with := None; handlers := Some demo_env |}.

(** The closures of a render that saw the status CONNECTED but no socket,
    and of one that saw socket 0 while the status was CONNECTING. *)
Definition demo_no_socket : env :=
  {| env_socket := None; env_status := CONNECTED; env_auth := true |}.

Definition demo_stale : env :=
  {| env_socket := Some 0%nat; env_status := CONNECTING; env_auth := true |}.

(** Two messages wait in the queue of [demo_live]. *)
Definition demo_backlog : state :=
  set_messageQueue [queued "q1" demo_message init; queued "q2" demo_message init] demo_live.

Lemma sendMessage_connected_witness :
  (sendMessage true demo_uuid demo_iso demo_env (Some demo_message) true demo_live).2
  = Returned true.
Proof.
  refine (proj1 (sendMessage_connected_writes_one_frame true demo_uuid demo_iso demo_env
                   demo_message true demo_live 0%nat demo_live_socket _ _ _ _)).
  - reflexivity.
  - reflexivity.
  - vm_compute. reflexivity.
  - reflexivity.
Defined.

Lemma sendMessage_send_error_witness :
  (sendMessage true demo_uuid demo_iso demo_no_socket (Some demo_message) true init).2
  = Returned true.
Proof.
  refine (proj1 (sendMessage_send_error_queues_past_capacity true demo_uuid demo_iso
                   demo_no_socket demo_message init _ _)).
  - reflexivity.
  - left. reflexivity.
Defined.

Lemma handleReconnect_gives_up_witness :
  connectionStatus (handleReconnect true demo_uuid demo_random demo_env
                      (set_reconnectAttempts 10 init)) = ERROR.
Proof.
  refine (proj1 (handleReconnect_gives_up_at_the_limit true demo_uuid demo_random demo_env
                   (set_reconnectAttempts 10 init) _ _)).
  - reflexivity.
  - left. apply le_n.
Defined.

Lemma drain_writes_witness :
  messageQueue (processMessageQueue true demo_uuid demo_iso demo_env demo_backlog)
  = drop 10 (messageQueue demo_backlog).
Proof.
  refine (proj1 (proj2 (drain_writes_the_first_ten_in_order true demo_uuid demo_iso demo_env
                          demo_backlog 0%nat demo_live_socket _ _ _ _ _))).
  - reflexivity.
  - reflexivity.
  - vm_compute. reflexivity.
  - reflexivity.
  - repeat constructor; eexists; reflexivity.
Defined.

Lemma drain_without_connected_status_witness :
  messageQueue (processMessageQueue true demo_uuid demo_iso demo_stale demo_backlog)
  = drop 10 (messageQueue demo_backlog).
Proof.
  refine (proj1 (drain_without_connected_status_drops_the_batch true demo_uuid demo_iso
                   demo_stale demo_backlog _ _ _)).
  - discriminate.
  - vm_compute. reflexivity.
  - repeat constructor; eexists; reflexivity.
Defined.

Lemma onopen_connects_witness :
  connectionStatus (onopen true demo_uuid demo_iso demo_env demo_live) = CONNECTED.
Proof.
  refine (proj1 (onopen_connects_and_starts_the_heartbeat true demo_uuid demo_iso demo_env
                   demo_live _)).
  reflexivity.
Defined.

Lemma nothing_updates_after_unmount_witness :
  ∃ s', run true demo_uuid demo_random demo_iso demo_socket
          [EConnect demo_env; ESendMessage demo_env (Some demo_message) true; EError 0]
          (set_isMounted false demo_live) = Some s'
        ∧ connectionStatus s' = connectionStatus (set_isMounted false demo_live).
Proof.
  destruct (run true demo_uuid demo_random demo_iso demo_socket
              [EConnect demo_env; ESendMessage demo_env (Some demo_message) true; EError 0]
              (set_isMounted false demo_live)) as [s'|] eqn:E; [|by vm_compute in E].
  exists s'. split; [reflexivity|].
  exact (proj1 (proj2 (proj2 (nothing_updates_react_state_after_unmount true demo_uuid
                                demo_random demo_iso demo_socket
                                [EConnect demo_env;
                                 ESendMessage demo_env (Some demo_message) true; EError 0]
                                (set_isMounted false demo_live) s' eq_refl E)))).
Defined.

Lemma pong_settles_witness :
  (sendPing demo_uuid demo_env demo_live).2 = None.
Proof.
  refine (proj1 (pong_settles_its_probe demo_uuid demo_env demo_live 0%nat
                   demo_live_socket _ _ _)).
  - reflexivity.
  - vm_compute. reflexivity.
  - reflexivity.
Defined.

Lemma disconnect_closes_witness :
  reconnectTimeout (disconnect true demo_uuid demo_env true demo_live) = None.
Proof.
  refine (proj1 (proj2 (disconnect_closes_an_open_socket true demo_uuid demo_env
                          demo_live 0%nat demo_live_socket _ _ _))).
  - reflexivity.
  - vm_compute. reflexivity.
  - reflexivity.
Defined.

Lemma connect_opens_witness :
  socket (connect true demo_uuid demo_random demo_socket demo_offline init) = Some 0%nat
  ∧ connectionStatus (connect true demo_uuid demo_random demo_socket demo_offline init)
    = CONNECTING.
Proof.
  pose proof (proj1 (proj2 (connect_opens_a_new_socket true demo_uuid demo_random
                              demo_socket demo_offline init))
                eq_refl eq_refl eq_refl eq_refl) as (H1 & _ & H3 & _).
  split; [exact H1|exact H3].
Defined.

Lemma close_after_permanent_disconnect_witness :
  connectionStatus (onclose true demo_uuid demo_random demo_env "bye"
                      (set_isExplicitDisconnect true demo_live)) = DISCONNECTED.
Proof.
  refine (proj1 (close_after_permanent_disconnect_does_not_reconnect true demo_uuid
                   demo_random demo_env "bye" (set_isExplicitDisconnect true demo_live)
                   _ _ _)).
  - reflexivity.
  - reflexivity.
  - reflexivity.
Defined.

(** *** A session from the first render *)

(** A CONNECTION_ESTABLISHED message from the server. *)
Definition demo_welcome : jsobj :=
  [("type", JStr "CONNECTION_ESTABLISHED"); ("clientId", JStr "c-1")].

(** The application queues a message, calls [connect], and the transport
    opens. *)
Definition demo_session : list event :=
  [ESendMessage demo_offline (Some demo_message) true; EConnect demo_offline; EOpen 0].

Definition demo_opened : state :=
  default init (session_run true demo_uuid demo_random demo_iso demo_socket
                  demo_session init).

Lemma demo_session_runs :
  session_run true demo_uuid demo_random demo_iso demo_socket demo_session init
  = Some demo_opened.
Proof. vm_compute. reflexivity. Qed.

(** What [connect] returns on the same queue, with its socket opened, and
    before any effect is run. *)
Definition demo_connecting : state :=
  upd_socket 0 (sock_set_ready RS_OPEN)
    (connect true demo_uuid demo_random demo_socket demo_offline
       (sendMessage true demo_uuid demo_iso demo_offline (Some demo_message) true init).1).





End Provider.

(** ** The handlers of src/client/src/contexts/WebSocketContext.jsx

    This file holds another version of the provider.  Modelled here are the
    queue drain [processMessageQueue] and the [onopen] and [onmessage]
    handlers that its [handleReconnect] attaches to a new socket. *)

Module Context.

(** [WS_CONFIG] *)
Definition RECONNECT_BASE_DELAY : Z := 1000.
Definition HEARTBEAT_INTERVAL : Z := 15000.

(** [WS_STATUS] *)
Inductive ws_status := CONNECTING | CONNECTED | DISCONNECTED | RECONNECTING | ERROR.

(** What the closures of a render captured of the [socket] state. *)
Record env := { env_socket : option nat }.

Record websocket := {
  readyState : ready_state;
  sent : list jsobj
}.

(** An entry of [pendingPings] as the PONG case reads it: [pending.timeout]. *)
Record probe := { p_timeout : nat }.

(** An entry of [messageQueue] as the drain destructures it,
    [{ message, id, retryCount = 0 }]: each property may be missing. *)
Record qentry := {
  q_message : option jsobj;
  q_id : option string;
  q_retryCount : option nat
}.

(** [{ id, type, message, data }] of [addLog]. *)
Record log_entry := {
  log_id : string;
  log_type : string;
  log_message : string;
  log_data : option jsobj
}.

Inductive timer_kind :=
| SetupHeartbeatK (e : env)   (* [setTimeout(() => setupHeartbeat(), 1000)] *)
| DrainRetryK (e : env).      (* [setTimeout(processMessageQueue, delay)] *)

Record timer := { due : Z; kind : timer_kind }.

Record state := {
  connectionStatus : ws_status;
  logs : list log_entry;
  toasts : list (string * string);   (* [toast.error], [toast.warn], [toast.success] *)
  loggedOut : bool;                  (* [logout()] was called *)
  reconnectAttempts : nat;
  reconnectBackoff : Z;
  messageQueue : list qentry;
  heartbeatInterval : option nat;
  isMounted : bool;
  pendingPings : list (string * probe);
  lastActivity : Z;
  now : Z;
  timers : gmap nat timer;
  next_timer : nat;
  sockets : gmap nat websocket;
  uuid_count : nat
}.

Definition set_connectionStatus (v : ws_status) (s : state) : state :=
  {| connectionStatus := v; logs := logs s; toasts := toasts s; loggedOut := loggedOut
     s; reconnectAttempts := reconnectAttempts s; reconnectBackoff := reconnectBackoff
     s; messageQueue := messageQueue s; heartbeatInterval := heartbeatInterval s;
     isMounted := isMounted s; pendingPings := pendingPings s; lastActivity :=
     lastActivity s; now := now s; timers := timers s; next_timer := next_timer s;
     sockets := sockets s; uuid_count := uuid_count s |}.

Definition set_logs (v : list log_entry) (s : state) : state :=
  {| connectionStatus := connectionStatus s; logs := v; toasts := toasts s; loggedOut :=
     loggedOut s; reconnectAttempts := reconnectAttempts s; reconnectBackoff :=
     reconnectBackoff s; messageQueue := messageQueue s; heartbeatInterval :=
     heartbeatInterval s; isMounted := isMounted s; pendingPings := pendingPings s;
     lastActivity := lastActivity s; now := now s; timers := timers s; next_timer :=
     next_timer s; sockets := sockets s; uuid_count := uuid_count s |}.

Definition set_toasts (v : list (string * string)) (s : state) : state :=
  {| connectionStatus := connectionStatus s; logs := logs s; toasts := v; loggedOut :=
     loggedOut s; reconnectAttempts := reconnectAttempts s; reconnectBackoff :=
     reconnectBackoff s; messageQueue := messageQueue s; heartbeatInterval :=
     heartbeatInterval s; isMounted := isMounted s; pendingPings := pendingPings s;
     lastActivity := lastActivity s; now := now s; timers := timers s; next_timer :=
     next_timer s; sockets := sockets s; uuid_count := uuid_count s |}.

Definition set_loggedOut (v : bool) (s : state) : state :=
  {| connectionStatus := connectionStatus s; logs := logs s; toasts := toasts s;
     loggedOut := v; reconnectAttempts := reconnectAttempts s; reconnectBackoff :=
     reconnectBackoff s; messageQueue := messageQueue s; heartbeatInterval :=
     heartbeatInterval s; isMounted := isMounted s; pendingPings := pendingPings s;
     lastActivity := lastActivity s; now := now s; timers := timers s; next_timer :=
     next_timer s; sockets := sockets s; uuid_count := uuid_count s |}.

Definition set_reconnectAttempts (v : nat) (s : state) : state :=
  {| connectionStatus := connectionStatus s; logs := logs s; toasts := toasts s;
     loggedOut := loggedOut s; reconnectAttempts := v; reconnectBackoff :=
     reconnectBackoff s; messageQueue := messageQueue s; heartbeatInterval :=
     heartbeatInterval s; isMounted := isMounted s; pendingPings := pendingPings s;
     lastActivity := lastActivity s; now := now s; timers := timers s; next_timer :=
     next_timer s; sockets := sockets s; uuid_count := uuid_count s |}.

Definition set_reconnectBackoff (v : Z) (s : state) : state :=
  {| connectionStatus := connectionStatus s; logs := logs s; toasts := toasts s;
     loggedOut := loggedOut s; reconnectAttempts := reconnectAttempts s;
     reconnectBackoff := v; messageQueue := messageQueue s; heartbeatInterval :=
     heartbeatInterval s; isMounted := isMounted s; pendingPings := pendingPings s;
     lastActivity := lastActivity s; now := now s; timers := timers s; next_timer :=
     next_timer s; sockets := sockets s; uuid_count := uuid_count s |}.

Definition set_messageQueue (v : list qentry) (s : state) : state :=
  {| connectionStatus := connectionStatus s; logs := logs s; toasts := toasts s;
     loggedOut := loggedOut s; reconnectAttempts := reconnectAttempts s;
     reconnectBackoff := reconnectBackoff s; messageQueue := v; heartbeatInterval :=
     heartbeatInterval s; isMounted := isMounted s; pendingPings := pendingPings s;
     lastActivity := lastActivity s; now := now s; timers := timers s; next_timer :=
     next_timer s; sockets := sockets s; uuid_count := uuid_count s |}.

Definition set_heartbeatInterval (v : option nat) (s : state) : state :=
  {| connectionStatus := connectionStatus s; logs := logs s; toasts := toasts s;
     loggedOut := loggedOut s; reconnectAttempts := reconnectAttempts s;
     reconnectBackoff := reconnectBackoff s; messageQueue := messageQueue s;
     heartbeatInterval := v; isMounted := isMounted s; pendingPings := pendingPings s;
     lastActivity := lastActivity s; now := now s; timers := timers s; next_timer :=
     next_timer s; sockets := sockets s; uuid_count := uuid_count s |}.

Definition set_isMounted (v : bool) (s : state) : state :=
  {| connectionStatus := connectionStatus s; logs := logs s; toasts := toasts s;
     loggedOut := loggedOut s; reconnectAttempts := reconnectAttempts s;
     reconnectBackoff := reconnectBackoff s; messageQueue := messageQueue s;
     heartbeatInterval := heartbeatInterval s; isMounted := v; pendingPings :=
     pendingPings s; lastActivity := lastActivity s; now := now s; timers := timers s;
     next_timer := next_timer s; sockets := sockets s; uuid_count := uuid_count s |}.

Definition set_pendingPings (v : list (string * probe)) (s : state) : state :=
  {| connectionStatus := connectionStatus s; logs := logs s; toasts := toasts s;
     loggedOut := loggedOut s; reconnectAttempts := reconnectAttempts s;
     reconnectBackoff := reconnectBackoff s; messageQueue := messageQueue s;
     heartbeatInterval := heartbeatInterval s; isMounted := isMounted s; pendingPings :=
     v; lastActivity := lastActivity s; now := now s; timers := timers s; next_timer :=
     next_timer s; sockets := sockets s; uuid_count := uuid_count s |}.

Definition set_lastActivity (v : Z) (s : state) : state :=
  {| connectionStatus := connectionStatus s; logs := logs s; toasts := toasts s;
     loggedOut := loggedOut s; reconnectAttempts := reconnectAttempts s;
     reconnectBackoff := reconnectBackoff s; messageQueue := messageQueue s;
     heartbeatInterval := heartbeatInterval s; isMounted := isMounted s; pendingPings :=
     pendingPings s; lastActivity := v; now := now s; timers := timers s; next_timer :=
     next_timer s; sockets := sockets s; uuid_count := uuid_count s |}.

Definition set_now (v : Z) (s : state) : state :=
  {| connectionStatus := connectionStatus s; logs := logs s; toasts := toasts s;
     loggedOut := loggedOut s; reconnectAttempts := reconnectAttempts s;
     reconnectBackoff := reconnectBackoff s; messageQueue := messageQueue s;
     heartbeatInterval := heartbeatInterval s; isMounted := isMounted s; pendingPings :=
     pendingPings s; lastActivity := lastActivity s; now := v; timers := timers s;
     next_timer := next_timer s; sockets := sockets s; uuid_count := uuid_count s |}.

Definition set_timers (v : gmap nat timer) (s : state) : state :=
  {| connectionStatus := connectionStatus s; logs := logs s; toasts := toasts s;
     loggedOut := loggedOut s; reconnectAttempts := reconnectAttempts s;
     reconnectBackoff := reconnectBackoff s; messageQueue := messageQueue s;
     heartbeatInterval := heartbeatInterval s; isMounted := isMounted s; pendingPings :=
     pendingPings s; lastActivity := lastActivity s; now := now s; timers := v;
     next_timer := next_timer s; sockets := sockets s; uuid_count := uuid_count s |}.

Definition set_next_timer (v : nat) (s : state) : state :=
  {| connectionStatus := connectionStatus s; logs := logs s; toasts := toasts s;
     loggedOut := loggedOut s; reconnectAttempts := reconnectAttempts s;
     reconnectBackoff := reconnectBackoff s; messageQueue := messageQueue s;
     heartbeatInterval := heartbeatInterval s; isMounted := isMounted s; pendingPings :=
     pendingPings s; lastActivity := lastActivity s; now := now s; timers := timers s;
     next_timer := v; sockets := sockets s; uuid_count := uuid_count s |}.

Definition set_sockets (v : gmap nat websocket) (s : state) : state :=
  {| connectionStatus := connectionStatus s; logs := logs s; toasts := toasts s;
     loggedOut := loggedOut s; reconnectAttempts := reconnectAttempts s;
     reconnectBackoff := reconnectBackoff s; messageQueue := messageQueue s;
     heartbeatInterval := heartbeatInterval s; isMounted := isMounted s; pendingPings :=
     pendingPings s; lastActivity := lastActivity s; now := now s; timers := timers s;
     next_timer := next_timer s; sockets := v; uuid_count := uuid_count s |}.

Definition set_uuid_count (v : nat) (s : state) : state :=
  {| connectionStatus := connectionStatus s; logs := logs s; toasts := toasts s;
     loggedOut := loggedOut s; reconnectAttempts := reconnectAttempts s;
     reconnectBackoff := reconnectBackoff s; messageQueue := messageQueue s;
     heartbeatInterval := heartbeatInterval s; isMounted := isMounted s; pendingPings :=
     pendingPings s; lastActivity := lastActivity s; now := now s; timers := timers s;
     next_timer := next_timer s; sockets := sockets s; uuid_count := v |}.


Definition upd_socket (sk : nat) (f : websocket → websocket) (s : state) : state :=
  set_sockets (alter f sk (sockets s)) s.

Definition sock_write (f : jsobj) (k : websocket) : websocket :=
  {| readyState := readyState k; sent := sent k ++ [f] |}.

(** [newSocket.close()] *)
Definition sock_close (k : websocket) : websocket :=
  match readyState k with
  | RS_CONNECTING | RS_OPEN => {| readyState := RS_CLOSING; sent := sent k |}
  | _ => k
  end.

Definition socket_open (s : state) (o : option nat) : bool :=
  match o with
  | Some sk =>
      match sockets s !! sk with
      | Some k => is_open (readyState k)
      | None => false
      end
  | None => false
  end.

Definition setTimer (k : timer_kind) (delay : Z) (s : state) : nat * state :=
  let tid := next_timer s in
  (tid, set_next_timer (S tid)
          (set_timers (<[tid := {| due := now s + delay; kind := k |}]> (timers s)) s)).

Definition clearTimer (tid : nat) (s : state) : state :=
  set_timers (delete tid (timers s)) s.

(** [[...prevLogs.slice(-99), logEntry]] *)
Definition push_log (x : log_entry) (l : list log_entry) : list log_entry :=
  drop (length l - 99) l ++ [x].

(** The property defaults of the destructuring, and the entry pushed on
    [failedMessages]. *)
Definition retries (q : qentry) : nat := default 0%nat (q_retryCount q).

Definition exhausted (q : qentry) : bool := (3 <=? retries q)%nat.

Arguments exhausted : simpl never.

Definition retried (q : qentry) : qentry :=
  {| q_message := q_message q; q_id := q_id q; q_retryCount := Some (S (retries q)) |}.

(** What [socket.send(JSON.stringify(messageWithId), callback)] does for an
    entry: [JSON.stringify] throws (on a BigInt or a cycle in the message),
    or the socket takes the data.  The socket is a browser [WebSocket]:
    its [send] has one parameter, and the callback is never called. *)
Inductive send_outcome := Accepted | Exception.

(** [JSON.parse(event.data)]: it throws, or gives [null], or gives a value
    whose properties can be read. *)
Inductive parsed := NotJson | JsonNull | JsonObject (m : jsobj).

(** [{ messageId: id }] *)
Definition message_ref (q : qentry) : jsobj :=
  [("messageId", match q_id q with Some i => JStr i | None => JUndefined end)].

Section Handlers.

Variable DEBUG : bool.
Variable uuidv4 : nat → string.
Variable toISOString : Z → string.

(** The outcome of the send for each entry. *)
Variable socket_send : qentry → send_outcome.

Definition fresh_uuid (s : state) : string * state :=
  (uuidv4 (uuid_count s), set_uuid_count (S (uuid_count s)) s).

(** [addLog(message, type, data)] *)
Definition addLog (message type : string) (data : option jsobj) (s : state) : state :=
  if isMounted s then
    let '(u, s) := fresh_uuid s in
    let s := set_logs (push_log {| log_id := u; log_type := type;
                                   log_message := message; log_data := data |}
                                (logs s)) s in
    if String.eqb type "error" || String.eqb type "warn" || String.eqb type "success"
    then set_toasts (toasts s ++ [(type, message)]) s else s
  else s.

(** [debugLog(level, ...)] *)
Definition debugLog (level message : string) (s : state) : state :=
  if DEBUG then
    if String.eqb level "error" || String.eqb level "warn"
    then addLog message level None s else s
  else s.

(** The state of one run of the drain: [failedMessages].  The counter
    [processedCount] is incremented after the [await] of a send that has
    reported, which does not happen: it is 0 throughout. *)
Record drain := {
  d_failed : list qentry;
  d_state : state
}.

(** [{ ...message, id: id || uuidv4(), timestamp: new Date().toISOString() }] *)
Definition message_with_id (q : qentry) (s : state) : jsobj * state :=
  let '(id, s) := match q_id q with
                  | Some i => if String.eqb i "" then fresh_uuid s else (i, s)
                  | None => fresh_uuid s
                  end in
  (obj_set "timestamp" (JStr (toISOString (now s)))
     (obj_set "id" (JStr id) (default [] (q_message q))), s).

(** One turn of the [for] loop of [processMessageQueue] on socket [sk].
    The boolean tells that the turn is left waiting at its [await]: the
    promise is settled by the callback of [send], or rejected when the
    send throws. *)
Definition drain_entry (sk : nat) (d : drain) (q : qentry) : drain * bool :=
  if exhausted q then
    ({| d_failed := d_failed d;
        d_state := addLog "Failed to send message after 3 attempts" "error"
                     (Some (message_ref q))
                     (debugLog "warn" "Max retries exceeded for message" (d_state d)) |},
     false)
  else
    let '(f, s) := message_with_id q (d_state d) in
    match socket_send q with
    | Accepted =>
        ({| d_failed := d_failed d; d_state := upd_socket sk (sock_write f) s |}, true)
    | Exception =>
        ({| d_failed := d_failed d ++ [retried q];
            d_state := debugLog "warn" "Failed to send message"
                         (debugLog "error" "Exception while sending message:" s) |},
         false)
    end.

(** The loop: it goes on to the next entry unless it is left waiting. *)
Fixpoint drain_loop (sk : nat) (batch : list qentry) (d : drain) : drain * bool :=
  match batch with
  | [] => (d, false)
  | q :: rest =>
      let '(d', waiting) := drain_entry sk d q in
      if waiting then (d', true) else drain_loop sk rest d'
  end.

(** [Math.min(1000 * Math.pow(2, failedMessages[0].retryCount), 10000)] *)
Definition retry_delay (q : qentry) : Z :=
  Z.min (1000 * 2 ^ Z.of_nat (retries q)) 10000.

(** The end of [processMessageQueue]: failed entries go back to the head
    of the queue as it is then, and a retry is scheduled. *)
Definition drain_finish (e : env) (d : drain) : state :=
  match d_failed d with
  | [] => d_state d
  | f :: _ =>
      let s := set_messageQueue (d_failed d ++ messageQueue (d_state d)) (d_state d) in
      (setTimer (DrainRetryK e) (retry_delay f) s).2
  end.

(** [processMessageQueue()], with no other callback running between the
    turns of the loop.  The result is [Some n] when the promise of the
    drain is fulfilled with [n], and [None] when the drain is left waiting
    and its promise is never settled. *)
Definition processMessageQueue (e : env) (s : state) : state * option nat :=
  match env_socket e with
  | Some sk =>
      if socket_open s (Some sk) then
        let batch := take 10 (messageQueue s) in
        let s := set_messageQueue (drop 10 (messageQueue s)) s in
        let r := drain_loop sk batch {| d_failed := []; d_state := s |} in
        if r.2 then (d_state r.1, None) else (drain_finish e r.1, Some 0%nat)
      else (s, Some 0%nat)
  | None => (s, Some 0%nat)
  end.

(** [newSocket.onopen] *)
Definition onopen (sk : nat) (e : env) (s : state) : state :=
  if negb (isMounted s) then upd_socket sk sock_close s
  else (setTimer (SetupHeartbeatK e) 1000 s).2.

Fixpoint pp_get (id : string) (l : list (string * probe)) : option probe :=
  match l with
  | [] => None
  | (k, p) :: l' => if String.eqb k id then Some p else pp_get id l'
  end.

(** The PONG case of [newSocket.onmessage] *)
Definition on_pong (id : jsval) (s : state) : state :=
  match id with
  | JStr pid =>
      if String.eqb pid "" then s
      else
        match pp_get pid (pendingPings s) with
        | Some p =>
            set_pendingPings
              (List.filter (fun x => negb (String.eqb x.1 pid)) (pendingPings s))
              (clearTimer (p_timeout p) s)
        | None => s
        end
  | _ => s
  end.

(** The CONNECTION_ESTABLISHED case *)
Definition on_connection_established (e : env) (s : state) : state :=
  let s := set_connectionStatus CONNECTED s in
  let s := set_reconnectAttempts 0 s in
  let s := set_reconnectBackoff RECONNECT_BASE_DELAY s in
  (processMessageQueue e s).1.

(** The ERROR case; [message.error] is compared with the two codes. *)
Definition on_error_message (error : jsval) (s : state) : state :=
  let s := debugLog "error" "Server error:" s in
  let s := addLog "Server error:" "error" None s in
  if strict_eq error (JStr "UNAUTHORIZED") || strict_eq error (JStr "INVALID_TOKEN")
  then set_loggedOut true (debugLog "warn" "Authentication failed, logging out..." s)
  else s.

(** The [catch] of [newSocket.onmessage] *)
Definition on_processing_error (s : state) : state :=
  addLog "Error processing message:" "error" None
    (debugLog "error" "Error processing message:" s).

(** [newSocket.onmessage].  When [JSON.parse] throws nothing else is done;
    for [null] the time of the last activity is set before [message.type]
    throws.  Any other type goes to the subscribers registered for it. *)
Definition onmessage (e : env) (data : parsed) (s : state) : state :=
  if negb (isMounted s) then s
  else
    match data with
    | NotJson => on_processing_error s
    | JsonNull => on_processing_error (set_lastActivity (now s) s)
    | JsonObject m =>
        let s := set_lastActivity (now s) s in
        let type := obj_get "type" m in
        if strict_eq type (JStr "PONG") then on_pong (obj_get "id" m) s
        else if strict_eq type (JStr "CONNECTION_ESTABLISHED")
        then on_connection_established e s
        else if strict_eq type (JStr "ERROR") then on_error_message (obj_get "error" m) s
        else s
    end.

End Handlers.

(** *** Facts about the log, the drain and the handlers *)

(** [y] is among the last [k] entries of the log. *)
Definition recent (k : nat) (y : log_entry) (l : list log_entry) : Prop :=
  In y (drop (length l - k) l).

(** The fields that neither logging nor sending touches. *)
Definition quiet (s : state) :=
  (connectionStatus s, loggedOut s, reconnectAttempts s, reconnectBackoff s,
   messageQueue s, heartbeatInterval s, isMounted s, pendingPings s,
   lastActivity s, now s, timers s, next_timer s).

(** The socket takes the frame of entry [q]: the drain tries it, and the
    send does not throw. *)
Definition taken (socket_send : qentry → send_outcome) (q : qentry) : bool :=
  negb (exhausted q)
  && match socket_send q with Accepted => true | Exception => false end.

(** Frame [f] is entry [q] as the drain stamps it. *)
Definition carries (q : qentry) (f : jsobj) : Prop :=
  ∃ id ts, f = obj_set "timestamp" (JStr ts)
                 (obj_set "id" (JStr id) (default [] (q_message q)))
           ∧ (∀ i, q_id q = Some i → i ≠ "" → id = i).

(** The entry that [addLog] writes for an entry given up. *)
Definition report (u : string) (q : qentry) : log_entry :=
  {| log_id := u; log_type := "error";
     log_message := "Failed to send message after 3 attempts";
     log_data := Some (message_ref q) |}.

Lemma recent_new x l : recent 1 x (push_log x l).
Proof.
  unfold recent, push_log.
  rewrite length_app. cbn [length].
  replace (length (drop (length l - 99) l) + 1 - 1)%nat
    with (length (drop (length l - 99) l)) by lia.
  rewrite drop_app_length. by left.
Qed.

(** The first entry of a list that fails a test. *)
Lemma forallb_first_false {A} (f : A → bool) (l : list A) :
  forallb f l = false →
  ∃ pre x post, l = pre ++ x :: post ∧ Forall (fun y => f y = true) pre ∧ f x = false.
Proof.
  induction l as [|a l IH]; cbn; [done|].
  destruct (f a) eqn:Ea; cbn.
  - intros H. destruct (IH H) as (pre & x & post & -> & Hp & Hx).
    exists (a :: pre), x, post. split_and!; [done| |done]. by constructor.
  - intros _. exists [], a, l. split_and!; [done|constructor|done].
Qed.

Section DrainFacts.

Variable DEBUG : bool.
Variable uuidv4 : nat → string.
Variable toISOString : Z → string.
Variable socket_send : qentry → send_outcome.

Abbreviation addLog := (addLog uuidv4).
Abbreviation debugLog := (debugLog DEBUG uuidv4).
Abbreviation message_with_id := (message_with_id uuidv4 toISOString).
Abbreviation drain_entry := (drain_entry DEBUG uuidv4 toISOString socket_send).
Abbreviation drain_loop := (drain_loop DEBUG uuidv4 toISOString socket_send).
Abbreviation processMessageQueue :=
  (processMessageQueue DEBUG uuidv4 toISOString socket_send).
Abbreviation onmessage := (onmessage DEBUG uuidv4 toISOString socket_send).
Abbreviation taken := (taken socket_send).

Lemma addLog_quiet m t d s : quiet (addLog m t d s) = quiet s.
Proof.
  unfold Context.addLog. destruct (isMounted s); [|done]. cbn.
  by destruct (_ || _).
Qed.

Lemma addLog_sockets m t d s : sockets (addLog m t d s) = sockets s.
Proof.
  unfold Context.addLog. destruct (isMounted s); [|done]. cbn.
  by destruct (_ || _).
Qed.

Lemma debugLog_quiet l m s : quiet (debugLog l m s) = quiet s.
Proof.
  unfold Context.debugLog. destruct DEBUG; [|done].
  destruct (_ || _); [apply addLog_quiet|done].
Qed.

Lemma debugLog_sockets l m s : sockets (debugLog l m s) = sockets s.
Proof.
  unfold Context.debugLog. destruct DEBUG; [|done].
  destruct (_ || _); [apply addLog_sockets|done].
Qed.

Lemma addLog_when_unmounted m t d s : isMounted s = false → addLog m t d s = s.
Proof. intros H. unfold Context.addLog. by rewrite H. Qed.

Lemma debugLog_when_unmounted l m s : isMounted s = false → debugLog l m s = s.
Proof.
  intros H. unfold Context.debugLog. destruct DEBUG; [|done].
  destruct (_ || _); [by apply addLog_when_unmounted|done].
Qed.

Lemma quiet_isMounted s s' : quiet s' = quiet s → isMounted s' = isMounted s.
Proof. unfold quiet. congruence. Qed.

Lemma addLog_reports q s :
  isMounted s = true →
  ∃ u, recent 1 (report u q)
         (logs (addLog "Failed to send message after 3 attempts" "error"
                  (Some (message_ref q)) s)).
Proof.
  intros Hm. unfold Context.addLog. rewrite Hm. cbn.
  eexists. apply recent_new.
Qed.

Lemma addLog_toast m d s :
  isMounted s = true → toasts (addLog m "error" d s) = toasts s ++ [("error", m)].
Proof. intros Hm. unfold Context.addLog. rewrite Hm. by cbn. Qed.

Lemma message_with_id_carries q s : carries q (message_with_id q s).1.
Proof.
  unfold Context.message_with_id, carries.
  destruct (q_id q) as [i|] eqn:Ei; [destruct (String.eqb i "") eqn:E|]; cbn;
    eexists _, _; (split; [reflexivity|]); intros j Hj Hne; try done.
  - injection Hj as <-. by apply String.eqb_eq in E.
  - by injection Hj as <-.
Qed.

Lemma message_with_id_state q s :
  quiet (message_with_id q s).2 = quiet s
  ∧ sockets (message_with_id q s).2 = sockets s
  ∧ logs (message_with_id q s).2 = logs s
  ∧ toasts (message_with_id q s).2 = toasts s.
Proof.
  unfold Context.message_with_id.
  by destruct (q_id q) as [i|]; [destruct (String.eqb i "")|].
Qed.

Lemma drain_entry_unfold sk d q :
  drain_entry sk d q =
  if exhausted q then
    ({| d_failed := d_failed d;
        d_state := addLog "Failed to send message after 3 attempts" "error"
                     (Some (message_ref q))
                     (debugLog "warn" "Max retries exceeded for message" (d_state d)) |},
     false)
  else
    match socket_send q with
    | Accepted =>
        ({| d_failed := d_failed d;
            d_state := upd_socket sk (sock_write (message_with_id q (d_state d)).1)
                         (message_with_id q (d_state d)).2 |}, true)
    | Exception =>
        ({| d_failed := d_failed d ++ [retried q];
            d_state := debugLog "warn" "Failed to send message"
                         (debugLog "error" "Exception while sending message:"
                            (message_with_id q (d_state d)).2) |}, false)
    end.
Proof.
  unfold Context.drain_entry. destruct (exhausted q); [done|].
  by destruct (Context.message_with_id _ _ q (d_state d)).
Qed.

Lemma drain_entry_quiet sk d q :
  quiet (d_state (drain_entry sk d q).1) = quiet (d_state d).
Proof.
  rewrite drain_entry_unfold.
  destruct (message_with_id_state q (d_state d)) as (Hq & _).
  destruct (exhausted q); [|destruct (socket_send q)]; cbn.
  - by rewrite addLog_quiet, debugLog_quiet.
  - exact Hq.
  - by rewrite !debugLog_quiet.
Qed.

(** A turn for an entry that the socket does not take: the loop goes on,
    the entry is given up or noted as failed, nothing is written. *)
Lemma drain_entry_skips sk d q :
  taken q = false →
  (drain_entry sk d q).2 = false
  ∧ d_failed (drain_entry sk d q).1
    = d_failed d ++ (if exhausted q then [] else [retried q])
  ∧ sockets (d_state (drain_entry sk d q).1) = sockets (d_state d).
Proof.
  unfold Context.taken. intros Ht. rewrite drain_entry_unfold.
  destruct (message_with_id_state q (d_state d)) as (_ & Hs & _).
  destruct (exhausted q); [|destruct (socket_send q); [done|]]; cbn.
  - split_and!; [done|by rewrite app_nil_r|].
    by rewrite addLog_sockets, debugLog_sockets.
  - split_and!; [done|done|]. by rewrite !debugLog_sockets.
Qed.

(** A turn for an entry that the socket takes: one frame is written, the
    loop is left waiting, and nothing is logged. *)
Lemma drain_entry_waits sk d q :
  taken q = true →
  (drain_entry sk d q).2 = true
  ∧ d_failed (drain_entry sk d q).1 = d_failed d
  ∧ logs (d_state (drain_entry sk d q).1) = logs (d_state d)
  ∧ toasts (d_state (drain_entry sk d q).1) = toasts (d_state d)
  ∧ ∃ f, carries q f
         ∧ sockets (d_state (drain_entry sk d q).1)
           = alter (sock_write f) sk (sockets (d_state d)).
Proof.
  unfold Context.taken. intros Ht. rewrite drain_entry_unfold.
  destruct (message_with_id_state q (d_state d)) as (_ & Hs & Hl & Ho).
  destruct (exhausted q); [done|]. destruct (socket_send q); [|done]. cbn.
  split_and!; [done|done|done|done|].
  eexists. split; [apply message_with_id_carries|]. by rewrite Hs.
Qed.

Lemma drain_loop_skips sk l d :
  Forall (fun q => taken q = false) l →
  (drain_loop sk l d).2 = false
  ∧ d_failed (drain_loop sk l d).1
    = d_failed d ++ map retried (List.filter (fun q => negb (exhausted q)) l)
  ∧ quiet (d_state (drain_loop sk l d).1) = quiet (d_state d)
  ∧ sockets (d_state (drain_loop sk l d).1) = sockets (d_state d).
Proof.
  intros H. revert d. induction H as [|q l Hq Hl IH]; intros d; cbn.
  - by rewrite app_nil_r.
  - destruct (drain_entry_skips sk d q Hq) as (E1 & E2 & E3).
    pose proof (drain_entry_quiet sk d q) as E4.
    destruct (Context.drain_entry _ _ _ _ sk d q) as [d' w]. cbn in E1, E2, E3, E4.
    subst w. destruct (IH d') as (I1 & I2 & I3 & I4).
    split_and!; [done| |congruence|congruence].
    rewrite I2, E2. destruct (exhausted q); cbn; [by rewrite app_nil_r|].
    by rewrite <- app_assoc.
Qed.

Lemma drain_loop_waits sk pre q post d :
  Forall (fun p => taken p = false) pre →
  taken q = true →
  (drain_loop sk (pre ++ q :: post) d).2 = true
  ∧ quiet (d_state (drain_loop sk (pre ++ q :: post) d).1) = quiet (d_state d)
  ∧ ∃ f, carries q f
         ∧ sockets (d_state (drain_loop sk (pre ++ q :: post) d).1)
           = alter (sock_write f) sk (sockets (d_state d)).
Proof.
  intros H Hq. revert d. induction H as [|p pre Hp Hpre IH]; intros d; cbn.
  - destruct (drain_entry_waits sk d q Hq) as (E1 & _ & _ & _ & f & Hf & E2).
    pose proof (drain_entry_quiet sk d q) as E4.
    destruct (Context.drain_entry _ _ _ _ sk d q) as [d' w]. cbn in E1, E2, E4.
    subst w. split_and!; [done|done|]. by exists f.
  - destruct (drain_entry_skips sk d p Hp) as (E1 & E2 & E3).
    pose proof (drain_entry_quiet sk d p) as E4.
    destruct (Context.drain_entry _ _ _ _ sk d p) as [d' w]. cbn in E1, E2, E3, E4.
    subst w. destruct (IH d') as (I1 & I2 & f & Hf & I3).
    split_and!; [done|congruence|]. exists f. split; [done|congruence].
Qed.

Lemma processMessageQueue_open e s sk k :
  env_socket e = Some sk → sockets s !! sk = Some k → readyState k = RS_OPEN →
  processMessageQueue e s
  = let r := drain_loop sk (take 10 (messageQueue s))
               {| d_failed := []; d_state := set_messageQueue (drop 10 (messageQueue s)) s |}
    in if r.2 then (d_state r.1, None) else (drain_finish e r.1, Some 0%nat).
Proof.
  intros He Hk Ho. unfold Context.processMessageQueue, socket_open.
  by rewrite He, Hk, Ho.
Qed.

(** A drain in which the socket takes an entry. *)
Lemma processMessageQueue_waits e s sk k pre q post :
  env_socket e = Some sk → sockets s !! sk = Some k → readyState k = RS_OPEN →
  take 10 (messageQueue s) = pre ++ q :: post →
  Forall (fun p => taken p = false) pre →
  taken q = true →
    (processMessageQueue e s).2 = None
  ∧ messageQueue (processMessageQueue e s).1 = drop 10 (messageQueue s)
  ∧ timers (processMessageQueue e s).1 = timers s
  ∧ ∃ f, carries q f
         ∧ sockets (processMessageQueue e s).1 !! sk
           = Some {| readyState := RS_OPEN; sent := sent k ++ [f] |}.
Proof.
  intros He Hk Ho Hb Hpre Hq.
  rewrite (processMessageQueue_open e s sk k He Hk Ho). cbv zeta. rewrite Hb.
  destruct (drain_loop_waits sk pre q post
              {| d_failed := []; d_state := set_messageQueue (drop 10 (messageQueue s)) s |}
              Hpre Hq) as (E1 & E2 & f & Hf & E3).
  rewrite E1. cbn [fst snd] in *. unfold quiet in E2. cbn in E2, E3.
  injection E2; intros. split_and!; [done|done|done|].
  exists f. split; [done|]. rewrite E3, lookup_alter_eq, Hk. cbn.
  unfold sock_write. by rewrite Ho.
Qed.

(** A drain in which the socket takes no entry. *)
Lemma processMessageQueue_returns e s sk k :
  env_socket e = Some sk → sockets s !! sk = Some k → readyState k = RS_OPEN →
  Forall (fun p => taken p = false) (take 10 (messageQueue s)) →
  let failed := map retried (List.filter (fun q => negb (exhausted q))
                               (take 10 (messageQueue s))) in
    (processMessageQueue e s).2 = Some 0%nat
  ∧ messageQueue (processMessageQueue e s).1 = failed ++ drop 10 (messageQueue s)
  ∧ sockets (processMessageQueue e s).1 = sockets s
  ∧ match failed with
    | [] => timers (processMessageQueue e s).1 = timers s
    | f :: _ =>
        timers (processMessageQueue e s).1
        = <[next_timer s := {| due := now s + Z.min (1000 * 2 ^ Z.of_nat (retries f)) 10000;
                               kind := DrainRetryK e |}]> (timers s)
    end.
Proof.
  intros He Hk Ho Hall failed.
  rewrite (processMessageQueue_open e s sk k He Hk Ho). cbv zeta.
  destruct (drain_loop_skips sk (take 10 (messageQueue s))
              {| d_failed := []; d_state := set_messageQueue (drop 10 (messageQueue s)) s |}
              Hall) as (E1 & E2 & E3 & E4).
  rewrite E1. cbn [fst snd] in *. fold failed in E2.
  unfold drain_finish. rewrite E2. unfold quiet in E3. cbn in E3, E4.
  injection E3; intros. clearbody failed.
  destruct failed as [|f fs]; cbn.
  - split_and!; try done.
  - unfold retry_delay. split_and!; try done; congruence.
Qed.


End DrainFacts.

(** The provider as it mounts. *)
Definition init : state :=
  {| connectionStatus := DISCONNECTED; logs := []; toasts := []; loggedOut := false;
     reconnectAttempts := 0; reconnectBackoff := RECONNECT_BASE_DELAY;
     messageQueue := []; heartbeatInterval := None; isMounted := true;
     pendingPings := []; lastActivity := 0; now := 0; timers := ∅;
     next_timer := 0; sockets := ∅; uuid_count := 0 |}.

Definition demo_uuid (n : nat) : string := String (Ascii.ascii_of_nat (97 + n)) "".
Definition demo_iso (t : Z) : string := "2024-01-01T00:00:00.000Z".

(** The closures of a render that sees socket 0. *)
Definition demo_env : env := {| env_socket := Some 0%nat |}.

Definition demo_socket : websocket := {| readyState := RS_OPEN; sent := [] |}.

(** An entry as [sendMessage] pushes it, which is the message with its
    [timestamp] and [clientId]: for a message that has no properties
    [message], [id] and [retryCount] the drain reads none. *)
Definition demo_entry : qentry :=
  {| q_message := None; q_id := None; q_retryCount := None |}.

(** Every frame can be serialized. *)
Definition demo_send (q : qentry) : send_outcome := Accepted.

(** Socket 0 is open and two messages wait. *)
Definition demo_draining : state :=
  set_messageQueue [demo_entry; demo_entry]
    (set_sockets {[ 0%nat := demo_socket ]} (set_connectionStatus CONNECTED init)).

Definition demo_drained : state * option nat :=
  processMessageQueue true demo_uuid demo_iso demo_send demo_env demo_draining.


(** Socket 0 has just opened and the status is still CONNECTING. *)
Definition demo_connecting : state :=
  set_sockets {[ 0%nat := demo_socket ]} (set_connectionStatus CONNECTING init).

(** *** Further properties of these handlers *)

Section ContextProperties.

Variable DEBUG : bool.
Variable uuidv4 : nat → string.
Variable toISOString : Z → string.
Variable socket_send : qentry → send_outcome.

Abbreviation addLog := (addLog uuidv4).
Abbreviation debugLog := (debugLog DEBUG uuidv4).
Abbreviation processMessageQueue :=
  (processMessageQueue DEBUG uuidv4 toISOString socket_send).
Abbreviation onmessage := (onmessage DEBUG uuidv4 toISOString socket_send).
Abbreviation taken := (taken socket_send).

(** X27: [addLog].  On a mounted provider the entry goes last in the log,
    which keeps the most recent 99 entries before it and so never holds
    more than 100; a toast is shown for the types error, warn and success
    and for no other type.  On an unmounted provider nothing happens. *)
Theorem addLog_caps_the_log_and_toasts_by_type message type data s :
  (isMounted s = false → addLog message type data s = s)
  ∧ (isMounted s = true →
     logs (addLog message type data s)
     = drop (length (logs s) - 99) (logs s)
       ++ [{| log_id := uuidv4 (uuid_count s); log_type := type;
              log_message := message; log_data := data |}]
     ∧ (length (logs (addLog message type data s)) ≤ 100)%nat
     ∧ toasts (addLog message type data s)
       = if bool_decide (type = "error" ∨ type = "warn" ∨ type = "success")%string
         then toasts s ++ [(type, message)] else toasts s).
Proof.
  unfold Context.addLog. split; intros ->; [done|]. cbn -[Nat.sub String.eqb].
  assert (Hb : String.eqb type "error" || String.eqb type "warn"
               || String.eqb type "success"
               = bool_decide (type = "error" ∨ type = "warn" ∨ type = "success")%string).
  { apply eq_true_iff_eq. rewrite bool_decide_eq_true, !orb_true_iff, !String.eqb_eq.
    tauto. }
  rewrite Hb. destruct (bool_decide _); cbn -[Nat.sub]; unfold push_log;
    (split_and!; [done| |done]); rewrite length_app, length_drop; cbn [length]; lia.
Qed.

(** X28: an ERROR message from the server, on a mounted provider.  The
    user is logged out exactly when the [error] property is the string
    UNAUTHORIZED or the string INVALID_TOKEN; for any other value, an
    error object included, the session goes on.  The connection status,
    the queue and the timers are not touched by an ERROR message. *)
Theorem error_message_logs_out_only_on_auth_codes e m s :
  isMounted s = true →
  obj_get "type" m = JStr "ERROR" →
  let s' := onmessage e (JsonObject m) s in
    (loggedOut s' = true
     ↔ loggedOut s = true ∨ obj_get "error" m = JStr "UNAUTHORIZED"
       ∨ obj_get "error" m = JStr "INVALID_TOKEN")
  ∧ connectionStatus s' = connectionStatus s
  ∧ messageQueue s' = messageQueue s
  ∧ timers s' = timers s
  ∧ lastActivity s' = now s.
Proof.
  intros Hm Ht s'. subst s'. unfold Context.onmessage. rewrite Hm. cbn [negb]. cbv zeta.
  rewrite Ht. cbn [strict_eq String.eqb Ascii.eqb Bool.eqb andb].
  unfold on_error_message. cbv zeta.
  set (s0 := set_lastActivity (now s) s).
  set (s1 := Context.addLog _ _ _ _ _).
  assert (H1 : quiet s1 = quiet s0).
  { subst s1. by rewrite addLog_quiet, debugLog_quiet. }
  clearbody s1.
  assert (Hb : strict_eq (obj_get "error" m) (JStr "UNAUTHORIZED")
               || strict_eq (obj_get "error" m) (JStr "INVALID_TOKEN") = true
               ↔ obj_get "error" m = JStr "UNAUTHORIZED"
                 ∨ obj_get "error" m = JStr "INVALID_TOKEN").
  { rewrite orb_true_iff.
    destruct (obj_get "error" m) as [| | | |x|]; cbn;
      try (split; [intros [|]|intros [|]]; done).
    rewrite !String.eqb_eq. split; (intros [H|H]; [left|right]; congruence). }
  destruct (_ || _).
  - pose proof (debugLog_quiet DEBUG uuidv4 "warn" "Authentication failed, logging out..." s1)
      as H2.
    set (s2 := Context.debugLog _ _ _ _ _) in *. clearbody s2.
    unfold quiet in H1, H2. subst s0. cbn in *.
    injection H1; intros. injection H2; intros.
    split_and!; try congruence. split; [intros _; right; by apply Hb|done].
  - unfold quiet in H1. subst s0. cbn in *. injection H1; intros.
    split_and!; try congruence. split; [intros Hl; left; congruence|].
    intros [Hl|Hl]; [congruence|]. apply Hb in Hl. done.
Qed.

(** X29: the retry delay of the drain doubles with the retry count and is
    capped: 2 s, 4 s and 8 s after the first, second and third failure,
    never less than 1 s and never more than 10 s, and never shorter for a
    higher count. *)
Theorem retry_delay_doubles_up_to_the_cap q q' :
  1000 ≤ retry_delay q ≤ 10000
  ∧ (retries q = 1%nat → retry_delay q = 2000)
  ∧ (retries q = 2%nat → retry_delay q = 4000)
  ∧ (retries q = 3%nat → retry_delay q = 8000)
  ∧ ((4 ≤ retries q)%nat → retry_delay q = 10000)
  ∧ ((retries q ≤ retries q')%nat → retry_delay q ≤ retry_delay q').
Proof.
  unfold retry_delay.
  assert (Hpow : ∀ n : nat, 1 ≤ 2 ^ Z.of_nat n).
  { intros n. pose proof (Z.pow_pos_nonneg 2 (Z.of_nat n)). lia. }
  assert (Hmono : ∀ a b : nat, (a ≤ b)%nat → 2 ^ Z.of_nat a ≤ 2 ^ Z.of_nat b)
    by (intros a b Hab; apply Z.pow_le_mono_r; lia).
  split_and!.
  - pose proof (Hpow (retries q)). lia.
  - lia.
  - intros E. rewrite E. reflexivity.
  - intros E. rewrite E. reflexivity.
  - intros E. rewrite E. reflexivity.
  - intros H. pose proof (Hmono 4%nat (retries q) H) as H'.
    change (2 ^ Z.of_nat 4) with 16 in H'. lia.
  - intros H. pose proof (Hmono _ _ H). lia.
Qed.

(** X30: a drain over an open socket returns only when the socket takes
    none of the entries it tried.  It then returns 0, nothing was written,
    and every one of the ten entries taken from the queue is either back
    in the queue or was given up after three tries.  Otherwise the socket
    took an entry: the drain does not return, the ten entries are out of
    the queue for good, and no retry is armed. *)
Theorem drain_returns_only_when_no_send_is_accepted e s sk k :
  env_socket e = Some sk →
  sockets s !! sk = Some k →
  readyState k = RS_OPEN →
  let batch := take 10 (messageQueue s) in
  let r := processMessageQueue e s in
    (∀ n, r.2 = Some n →
       n = 0%nat
     ∧ Forall (fun q => taken q = false) batch
     ∧ (length (messageQueue r.1) + length (List.filter exhausted batch))%nat
       = length (messageQueue s)
     ∧ sockets r.1 = sockets s)
  ∧ (r.2 = None →
       Exists (fun q => taken q = true) batch
     ∧ length (messageQueue r.1) = (length (messageQueue s) - 10)%nat
     ∧ timers r.1 = timers s).
Proof.
  intros He Hk Ho batch r.
  assert (Hlen : ∀ l : list qentry,
             (length (List.filter (fun q => negb (exhausted q)) l)
              + length (List.filter exhausted l))%nat = length l).
  { induction l as [|q l IH]; cbn; [done|]. destruct (exhausted q); cbn; lia. }
  destruct (forallb (fun q => negb (taken q)) batch) eqn:Eb.
  - assert (Hall : Forall (fun q => taken q = false) batch).
    { apply Forall_forall. intros q Hq. rewrite forallb_forall in Eb.
      apply list_elem_of_In in Hq. specialize (Eb q Hq). by destruct (taken q). }
    destruct (processMessageQueue_returns DEBUG uuidv4 toISOString socket_send
                e s sk k He Hk Ho Hall) as (R1 & R2 & R3 & _).
    subst r. split.
    + intros n Hn. rewrite R1 in Hn. injection Hn as <-. split_and!; [done|done| |done].
      rewrite R2, length_app, length_map, length_drop.
      pose proof (Hlen batch) as Hl. subst batch. rewrite length_take in Hl. lia.
    + intros Hn. by rewrite R1 in Hn.
  - destruct (forallb_first_false _ _ Eb) as (pre & q & post & Hb & Hpre & Hq).
    assert (Hpre' : Forall (fun p => taken p = false) pre).
    { eapply Forall_impl; [exact Hpre|]. intros p Hp. cbn in Hp. by destruct (taken p). }
    assert (Hq' : taken q = true) by (by destruct (taken q)).
    destruct (processMessageQueue_waits DEBUG uuidv4 toISOString socket_send
                e s sk k pre q post He Hk Ho Hb Hpre' Hq') as (R1 & R2 & R3 & _).
    subst r. split.
    + intros n Hn. by rewrite R1 in Hn.
    + intros _. split_and!; [|by rewrite R2, length_drop|done].
      rewrite Hb. apply Exists_app. right. by constructor.
Qed.

End ContextProperties.

Definition demo_auth_error : jsobj :=
  [("type", JStr "ERROR"); ("error", JStr "INVALID_TOKEN")].

Lemma error_message_witness :
  connectionStatus
    (onmessage true demo_uuid demo_iso demo_send demo_env (JsonObject demo_auth_error)
       demo_connecting)
  = connectionStatus demo_connecting.
Proof.
  refine (proj1 (proj2 (error_message_logs_out_only_on_auth_codes true demo_uuid demo_iso
                          demo_send demo_env demo_auth_error demo_connecting _ _))).
  - reflexivity.
  - reflexivity.
Defined.

Lemma drain_returns_witness :
  length (messageQueue demo_drained.1) = 0%nat ∧ timers demo_drained.1 = ∅.
Proof.
  exact (proj2 (proj2 (drain_returns_only_when_no_send_is_accepted true demo_uuid
                         demo_iso demo_send demo_env demo_draining 0%nat demo_socket
                         eq_refl eq_refl eq_refl) eq_refl)).
Defined.

End Context.
